(** * SEO checker: the rule-based HTML analysis engine

    A shallow embedding of [src/lib/html-analyzer.ts] (the document
    analyzer, [analyzeHtmlContent]) and [src/lib/element-analysis.ts]
    (the element analyzer, [analyzePageElements]), followed by the
    properties of the two analyzers.

    Conventions.
    - A JavaScript string is a [string]; one [ascii] stands for one code
      unit, so the development covers the code units 0..255 (the arrows
      in two fixed recommendation texts lie outside that range and stand
      in their UTF-8 form; no length is taken of them).
    - A JavaScript number that the analyzers only ever use as an integer
      is a [Z]; the one place where [NaN] can arise ([parseInt]) has its
      own type.
    - The parsed document ([new JSDOM(html).window.document]) is its
      mode (quirks or not, which the parser decides from the doctype) and
      a tree of nodes; an element is handed around together with its
      position in the tree, which gives the DOM's notion of node
      identity.
    - An exception is an explicit outcome of the call. *)

From Stdlib Require Import ZArith List String Ascii Bool Lia Permutation.
From Stdlib Require Import DecimalString.
Import ListNotations.

Local Open Scope string_scope.
Local Open Scope list_scope.
Local Open Scope Z_scope.

(* ================================================================== *)
(** ** JavaScript string and number primitives used by the analyzers   *)
(* ================================================================== *)

Module JS.

(** The character [U+0022], which the analyzers' messages contain. *)
Definition dquote : string := String (ascii_of_nat 34) EmptyString.

(** [s.length] *)
Definition length (s : string) : Z := Z.of_nat (String.length s).

(** [!s] for a string: only the empty string is falsy. *)
Definition falsy (s : string) : bool :=
  match s with EmptyString => true | String _ _ => false end.

(** [s.startsWith(p)] *)
Definition startsWith (s p : string) : bool := String.prefix p s.

(** [s.includes(p)] *)
Fixpoint includes (s p : string) : bool :=
  String.prefix p s ||
  match s with
  | EmptyString => false
  | String _ r => includes r p
  end.

(** White space and line terminators of [String.prototype.trim] among
    the code units 0..255: TAB, LF, VT, FF, CR, SPACE, NBSP. *)
Definition isWhiteSpace (c : ascii) : bool :=
  let n := nat_of_ascii c in
  ((9 <=? n) && (n <=? 13))%nat || (n =? 32)%nat || (n =? 160)%nat.

Fixpoint trimStart (s : string) : string :=
  match s with
  | EmptyString => EmptyString
  | String c r => if isWhiteSpace c then trimStart r else s
  end.

Fixpoint trimEnd (s : string) : string :=
  match s with
  | EmptyString => EmptyString
  | String c r =>
      let r' := trimEnd r in
      if isWhiteSpace c && falsy r' then EmptyString else String c r'
  end.

(** [s.trim()] *)
Definition trim (s : string) : string := trimEnd (trimStart s).

(** [toLowerCase] on one code unit: [A-Z] and the Latin-1 capitals
    [U+00C0..U+00DE] without the multiplication sign [U+00D7]. *)
Definition lowerChar (c : ascii) : ascii :=
  let n := nat_of_ascii c in
  if ((65 <=? n) && (n <=? 90))%nat then ascii_of_nat (n + 32)
  else if ((192 <=? n) && (n <=? 222) && negb (n =? 215))%nat
       then ascii_of_nat (n + 32)
  else c.

Fixpoint toLowerCase (s : string) : string :=
  match s with
  | EmptyString => EmptyString
  | String c r => String (lowerChar c) (toLowerCase r)
  end.

(** ASCII upper-casing, as the DOM uses for [tagName]. *)
Definition asciiUpperChar (c : ascii) : ascii :=
  let n := nat_of_ascii c in
  if ((97 <=? n) && (n <=? 122))%nat then ascii_of_nat (n - 32) else c.

Fixpoint asciiUpperCase (s : string) : string :=
  match s with
  | EmptyString => EmptyString
  | String c r => String (asciiUpperChar c) (asciiUpperCase r)
  end.

(** [s.substring(1)] *)
Definition substring1 (s : string) : string :=
  match s with EmptyString => EmptyString | String _ r => r end.

(** [s.split(sep)] for a one-character separator: always at least one
    piece. *)
Fixpoint split (sep : ascii) (s : string) : list string :=
  match s with
  | EmptyString => [EmptyString]
  | String c r =>
      if Ascii.eqb c sep then EmptyString :: split sep r
      else match split sep r with
           | [] => [String c EmptyString]
           | p :: ps => String c p :: ps
           end
  end.

(** [parts.join(sep)] *)
Fixpoint join (sep : string) (parts : list string) : string :=
  match parts with
  | [] => EmptyString
  | [p] => p
  | p :: ps => (p ++ sep ++ join sep ps)%string
  end.

(** [s.replace(pat, by)] for a string pattern: the first occurrence. *)
Fixpoint dropChars (n : nat) (s : string) : string :=
  match n, s with
  | O, _ => s
  | S k, EmptyString => EmptyString
  | S k, String _ r => dropChars k r
  end.

Fixpoint replace (s pat by_ : string) : string :=
  if String.prefix pat s then (by_ ++ dropChars (String.length pat) s)%string
  else match s with
       | EmptyString => EmptyString
       | String c r => String c (replace r pat by_)
       end.

(** [`${n}`] for an integer. *)
Definition ofInt (n : Z) : string :=
  match n with
  | Z0 => "0"
  | Zpos p => NilEmpty.string_of_uint (Pos.to_uint p)
  | Zneg p => ("-" ++ NilEmpty.string_of_uint (Pos.to_uint p))%string
  end.

(** The numbers [parseInt] can return. *)
Inductive Number : Type :=
| NaN : Number
| Num : Z -> Number.

Definition digitOf (c : ascii) : option Z :=
  let n := nat_of_ascii c in
  if ((48 <=? n) && (n <=? 57))%nat then Some (Z.of_nat (n - 48)) else None.

Fixpoint digits (acc : Z) (s : string) : Z :=
  match s with
  | EmptyString => acc
  | String c r =>
      match digitOf c with
      | Some d => digits (10 * acc + d) r
      | None => acc
      end
  end.

(** [parseInt(s)] without a radix, on a string with no [0x] prefix:
    leading white space, an optional sign, then the longest run of
    decimal digits; [NaN] when that run is empty. *)
Definition parseUnsigned (s : string) : Number :=
  match s with
  | EmptyString => NaN
  | String c _ =>
      match digitOf c with
      | Some _ => Num (digits 0 s)
      | None => NaN
      end
  end.

Definition parseInt (s : string) : Number :=
  match trimStart s with
  | String "-" r =>
      match parseUnsigned r with Num n => Num (- n) | NaN => NaN end
  | String "+" r => parseUnsigned r
  | t => parseUnsigned t
  end.

(** [`${x}`] for a [Number]. *)
Definition ofNumber (x : Number) : string :=
  match x with NaN => "NaN" | Num n => ofInt n end.

(** [x === n] *)
Definition strictEq (x : Number) (n : Z) : bool :=
  match x with NaN => false | Num m => m =? n end.

(** [x > y]; false as soon as one side is [NaN]. *)
Definition gt (x y : Number) : bool :=
  match x, y with Num a, Num b => a >? b | _, _ => false end.

(** [x + n] *)
Definition plus (x : Number) (n : Z) : Number :=
  match x with NaN => NaN | Num m => Num (m + n) end.

End JS.

(* ================================================================== *)
(** ** [new URL(input).hostname]                                       *)
(* ================================================================== *)

(** The analyzer evaluates [new URL(url).hostname] with no base URL.  The
    constructor throws a [TypeError] when the input cannot be parsed.
    This module follows the URL parser on code units 0..255: the input
    is trimmed, its scheme is read (an input without a scheme is a
    failure, since there is no base), and the host is cut out of the
    authority.  Percent-decoding, IDNA and the canonical forms of IPv4
    and IPv6 literals are left as they are written. *)
Module Url.

Definition code (c : ascii) : nat := nat_of_ascii c.

Definition isC0OrSpace (c : ascii) : bool := (code c <=? 32)%nat.

Definition isTabOrNewline (c : ascii) : bool :=
  ((code c =? 9) || (code c =? 10) || (code c =? 13))%nat.

Definition isAlpha (c : ascii) : bool :=
  (((65 <=? code c) && (code c <=? 90)) ||
   ((97 <=? code c) && (code c <=? 122)))%nat.

Definition isDigit (c : ascii) : bool :=
  ((48 <=? code c) && (code c <=? 57))%nat.

Definition isSchemeChar (c : ascii) : bool :=
  isAlpha c || isDigit c ||
  Ascii.eqb c "+" || Ascii.eqb c "-" || Ascii.eqb c ".".

Definition asciiLowerChar (c : ascii) : ascii :=
  if ((65 <=? code c) && (code c <=? 90))%nat
  then ascii_of_nat (code c + 32) else c.

Fixpoint asciiLowerCase (s : string) : string :=
  match s with
  | EmptyString => EmptyString
  | String c r => String (asciiLowerChar c) (asciiLowerCase r)
  end.

Fixpoint stripLeading (s : string) : string :=
  match s with
  | EmptyString => EmptyString
  | String c r => if isC0OrSpace c then stripLeading r else s
  end.

Fixpoint stripTrailing (s : string) : string :=
  match s with
  | EmptyString => EmptyString
  | String c r =>
      let r' := stripTrailing r in
      if isC0OrSpace c && JS.falsy r' then EmptyString else String c r'
  end.

Fixpoint removeTabNewline (s : string) : string :=
  match s with
  | EmptyString => EmptyString
  | String c r =>
      if isTabOrNewline c then removeTabNewline r
      else String c (removeTabNewline r)
  end.

(** Scheme state: scheme characters up to the first [:]. *)
Fixpoint schemeAndRest (s : string) : option (string * string) :=
  match s with
  | EmptyString => None
  | String c r =>
      if Ascii.eqb c ":" then Some (EmptyString, r)
      else if isSchemeChar c then
        match schemeAndRest r with
        | Some (sch, rest) => Some (String (asciiLowerChar c) sch, rest)
        | None => None
        end
      else None
  end.

(** Scheme start state, then scheme state; [None] is the failure of
    the no-scheme state without a base. *)
Definition parseScheme (s : string) : option (string * string) :=
  match s with
  | EmptyString => None
  | String c _ => if isAlpha c then schemeAndRest s else None
  end.

Definition isSpecial (scheme : string) : bool :=
  String.eqb scheme "http" || String.eqb scheme "https" ||
  String.eqb scheme "ws" || String.eqb scheme "wss" ||
  String.eqb scheme "ftp".

Definition isSlash (special : bool) (c : ascii) : bool :=
  Ascii.eqb c "/" || (special && Ascii.eqb c "\").

Fixpoint skipSlashes (s : string) : string :=
  match s with
  | EmptyString => EmptyString
  | String c r => if isSlash true c then skipSlashes r else s
  end.

(** The authority: up to the first [/], [?] or [#] (and [\] in a
    special scheme). *)
Fixpoint authority (special : bool) (s : string) : string :=
  match s with
  | EmptyString => EmptyString
  | String c r =>
      if isSlash special c || Ascii.eqb c "?" || Ascii.eqb c "#"
      then EmptyString
      else String c (authority special r)
  end.

(** What follows the last [@], and whether there was one. *)
Fixpoint afterCredentials (s : string) : string * bool :=
  match s with
  | EmptyString => (EmptyString, false)
  | String c r =>
      let '(t, seen) := afterCredentials r in
      if seen then (t, true)
      else if Ascii.eqb c "@" then (r, true)
      else (String c t, false)
  end.

(** Host and port: the host ends at the first [:] outside brackets. *)
Fixpoint hostAndPort (inBrackets : bool) (s : string) : string * option string :=
  match s with
  | EmptyString => (EmptyString, None)
  | String c r =>
      if Ascii.eqb c ":" && negb inBrackets then (EmptyString, Some r)
      else
        let inside :=
          if Ascii.eqb c "[" then true
          else if Ascii.eqb c "]" then false else inBrackets in
        let '(h, p) := hostAndPort inside r in (String c h, p)
  end.

Fixpoint allDigits (s : string) : bool :=
  match s with
  | EmptyString => true
  | String c r => isDigit c && allDigits r
  end.

Definition validPort (p : option string) : bool :=
  match p with
  | None => true
  | Some d => allDigits d && (JS.digits 0 d <=? 65535)
  end.

(** Forbidden host code points; a domain also forbids the C0 controls,
    [%] and DEL. *)
Definition forbiddenHostChar (domain : bool) (c : ascii) : bool :=
  (code c =? 0)%nat || isTabOrNewline c || (code c =? 32)%nat ||
  Ascii.eqb c "#" || Ascii.eqb c "/" || Ascii.eqb c ":" ||
  Ascii.eqb c "<" || Ascii.eqb c ">" || Ascii.eqb c "?" ||
  Ascii.eqb c "@" || Ascii.eqb c "[" || Ascii.eqb c "\" ||
  Ascii.eqb c "]" || Ascii.eqb c "^" || Ascii.eqb c "|" ||
  (domain && ((code c <=? 31)%nat || Ascii.eqb c "%" || (code c =? 127)%nat)).

Fixpoint hasForbidden (domain : bool) (s : string) : bool :=
  match s with
  | EmptyString => false
  | String c r => forbiddenHostChar domain c || hasForbidden domain r
  end.

(** Host parsing; a bracketed literal is kept as written. *)
Definition parseHost (special : bool) (h : string) : option string :=
  match h with
  | String "[" _ => Some (asciiLowerCase h)
  | _ =>
      if hasForbidden special h then None
      else Some (if special then asciiLowerCase h else h)
  end.

Definition hostOfAuthority (special : bool) (auth : string) : option string :=
  let '(hp, credentials) := afterCredentials auth in
  let '(h, port) := hostAndPort false hp in
  if JS.falsy h && (special || credentials) then None
  else if negb (validPort port) then None
  else parseHost special h.

(** [new URL(input).hostname]; [None] stands for the [TypeError] the
    constructor throws. *)
Definition hostname (input : string) : option string :=
  let s := removeTabNewline (stripTrailing (stripLeading input)) in
  match parseScheme s with
  | None => None
  | Some (scheme, rest) =>
      if isSpecial scheme then
        hostOfAuthority true (authority true (skipSlashes rest))
      else if String.eqb scheme "file" then
        match rest with
        | String c1 (String c2 r) =>
            if isSlash true c1 && isSlash true c2 then
              let h := authority true r in
              if JS.falsy h then Some EmptyString
              else match parseHost true h with
                   | Some "localhost" => Some EmptyString
                   | o => o
                   end
            else Some EmptyString
        | _ => Some EmptyString
        end
      else
        match rest with
        | String "/" (String "/" r) =>
            hostOfAuthority false (authority false r)
        | _ => Some EmptyString
        end
  end.

End Url.

(* ================================================================== *)
(** ** The parsed document                                             *)
(* ================================================================== *)

Module Dom.

(** A node of the tree built by the parser.  An element carries its
    local name (lower case for an HTML element), its attributes in
    source order and its child nodes. *)
#[warnings="-register-all"]
Inductive Node : Type :=
| ElementNode (localName : string) (attributes : list (string * string))
              (childNodes : list Node)
| TextNode (data : string)
| CommentNode (data : string).

(** [document.compatMode]: the parser puts a document without a doctype
    (or with one of the old ones) in quirks mode, [BackCompat]. *)
Inductive CompatMode : Type := BackCompat | CSS1Compat.

(** [dom.window.document]: its mode and the children of the document
    node, the doctype apart. *)
Record Document : Type := mkDocument {
  compatMode : CompatMode;
  documentNodes : list Node
}.

(** The text of a subtree: the data of its text nodes in tree order. *)
Fixpoint nodeText (n : Node) : string :=
  match n with
  | ElementNode _ _ cs =>
      (fix texts (l : list Node) : string :=
         match l with
         | [] => EmptyString
         | c :: r => (nodeText c ++ texts r)%string
         end) cs
  | TextNode d => d
  | CommentNode _ => EmptyString
  end.

(** An element of a document: its position (the child indices from the
    document node down to it), its content, and the mode of the
    document it belongs to ([element.ownerDocument.compatMode]). *)
Record Element : Type := mkElement {
  path : list nat;
  localName : string;
  attributes : list (string * string);
  childNodes : list Node;
  ownerMode : CompatMode
}.

(** [element.textContent] *)
Definition textContent (e : Element) : string :=
  nodeText (ElementNode (localName e) (attributes e) (childNodes e)).

(** [element.tagName] of an HTML element. *)
Definition tagName (e : Element) : string := JS.asciiUpperCase (localName e).

(** [element.getAttribute(name)]; [None] is [null]. *)
Fixpoint lookupAttr (name : string) (attrs : list (string * string)) : option string :=
  match attrs with
  | [] => None
  | (k, v) :: r => if String.eqb k name then Some v else lookupAttr name r
  end.

Definition getAttribute (e : Element) (name : string) : option string :=
  lookupAttr name (attributes e).

(** [element.hasAttribute(name)] *)
Definition hasAttribute (e : Element) (name : string) : bool :=
  match getAttribute e name with Some _ => true | None => false end.

(** [element.id] *)
Definition id (e : Element) : string :=
  match getAttribute e "id" with Some v => v | None => EmptyString end.

(** ASCII white space, which separates class names. *)
Definition isAsciiWhitespace (c : ascii) : bool :=
  let n := nat_of_ascii c in
  ((n =? 9) || (n =? 10) || (n =? 12) || (n =? 13) || (n =? 32))%nat.

Fixpoint tokens (cur : string) (s : string) : list string :=
  match s with
  | EmptyString => if JS.falsy cur then [] else [cur]
  | String c r =>
      if isAsciiWhitespace c
      then (if JS.falsy cur then tokens EmptyString r
            else cur :: tokens EmptyString r)
      else tokens (cur ++ String c EmptyString)%string r
  end.

Fixpoint memString (x : string) (l : list string) : bool :=
  match l with
  | [] => false
  | y :: r => String.eqb x y || memString x r
  end.

Fixpoint dedup (seen : list string) (l : list string) : list string :=
  match l with
  | [] => []
  | x :: r => if memString x seen then dedup seen r
              else x :: dedup (x :: seen) r
  end.

(** [Array.from(element.classList)]: the class names, each once. *)
Definition classList (e : Element) : list string :=
  match getAttribute e "class" with
  | Some v => dedup [] (tokens EmptyString v)
  | None => []
  end.

(** The elements of a subtree in tree order, each with its position. *)
Fixpoint elementsOfNode (m : CompatMode) (p : list nat) (n : Node) : list Element :=
  match n with
  | ElementNode name attrs cs =>
      mkElement p name attrs cs m ::
      (fix children (i : nat) (l : list Node) : list Element :=
         match l with
         | [] => []
         | c :: r => elementsOfNode m (p ++ [i]) c ++ children (S i) r
         end) O cs
  | _ => []
  end.

Fixpoint elementsFrom (m : CompatMode) (i : nat) (l : list Node) : list Element :=
  match l with
  | [] => []
  | c :: r => elementsOfNode m [i] c ++ elementsFrom m (S i) r
  end.

Definition allElements (d : Document) : list Element :=
  elementsFrom (compatMode d) O (documentNodes d).

(** [a.contains(b)]: [b] is [a] or a descendant of [a]. *)
Fixpoint isPrefix (p q : list nat) : bool :=
  match p, q with
  | [], _ => true
  | _ :: _, [] => false
  | x :: p', y :: q' => (x =? y)%nat && isPrefix p' q'
  end.

Definition contains (a b : Element) : bool := isPrefix (path a) (path b).

(** *** Selectors

    The analyzers only use compound selectors built from a type
    selector, attribute tests, class tests and [:not(...)] of an
    attribute test, and lists of those.  The document being an HTML
    document, the selector engine compares the values of the attributes
    of [anyCaseAttributes] without regard to ASCII case, and in quirks
    mode it compares class names in the same way. *)
Definition anyCaseAttributes : list string :=
  [ "accept"; "accept-charset"; "align"; "alink"; "axis"; "bgcolor"; "charset";
    "checked"; "clear"; "codetype"; "color"; "compact"; "declare"; "defer";
    "dir"; "direction"; "disabled"; "enctype"; "face"; "frame"; "hreflang";
    "http-equiv"; "lang"; "language"; "link"; "media"; "method"; "multiple";
    "nohref"; "noresize"; "noshade"; "nowrap"; "readonly"; "rel"; "rev";
    "rules"; "scope"; "scrolling"; "selected"; "shape"; "target"; "text";
    "type"; "valign"; "valuetype"; "vlink" ].

Definition anyCaseValue (name : string) : bool := memString name anyCaseAttributes.

(** Equality of two strings, up to ASCII case when [anyCase] is set. *)
Definition sameText (anyCase : bool) (x v : string) : bool :=
  if anyCase then String.eqb (JS.asciiUpperCase x) (JS.asciiUpperCase v)
  else String.eqb x v.

Definition startsWithText (anyCase : bool) (x v : string) : bool :=
  if anyCase then JS.startsWith (JS.asciiUpperCase x) (JS.asciiUpperCase v)
  else JS.startsWith x v.

Definition inQuirks (e : Element) : bool :=
  match ownerMode e with BackCompat => true | CSS1Compat => false end.

Inductive AttrTest : Type :=
| HasAttr (name : string)                    (* [name]         *)
| AttrIs (name value : string)               (* [name="value"] *)
| AttrStarts (name value : string).          (* [name^="value"] *)

Inductive Simple : Type :=
| Tag (name : string)
| Attr (t : AttrTest)
| Class (name : string)
| Not (t : AttrTest).

Definition Compound : Type := list Simple.
Definition Selector : Type := list Compound.

Definition attrTest (e : Element) (t : AttrTest) : bool :=
  match t with
  | HasAttr n => hasAttribute e n
  | AttrIs n v =>
      match getAttribute e n with
      | Some x => sameText (anyCaseValue n) x v
      | None => false
      end
  | AttrStarts n v =>
      match getAttribute e n with
      | Some x => negb (JS.falsy v) && startsWithText (anyCaseValue n) x v
      | None => false
      end
  end.

Definition matchesSimple (e : Element) (s : Simple) : bool :=
  match s with
  | Tag n => String.eqb (localName e) n
  | Attr t => attrTest e t
  | Class c => existsb (fun t => sameText (inQuirks e) t c) (classList e)
  | Not t => negb (attrTest e t)
  end.

Definition matchesCompound (e : Element) (c : Compound) : bool :=
  forallb (matchesSimple e) c.

(** [element.matches(selector)] *)
Definition matches (e : Element) (s : Selector) : bool :=
  existsb (matchesCompound e) s.

(** [document.querySelectorAll(selector)]: tree order. *)
Definition querySelectorAll (d : Document) (s : Selector) : list Element :=
  filter (fun e => matches e s) (allElements d).

(** [document.querySelector(selector)]; [None] is [null]. *)
Definition querySelector (d : Document) (s : Selector) : option Element :=
  match querySelectorAll d s with
  | [] => None
  | e :: _ => Some e
  end.

(** The selectors of the two analyzers. *)
Definition sel (c : Compound) : Selector := [c].
Definition tag (n : string) : Selector := sel [Tag n].
Definition tagAttrIs (n a v : string) : Selector := sel [Tag n; Attr (AttrIs a v)].
Definition class (c : string) : Selector := sel [Class c].

End Dom.

(* ================================================================== *)
(** ** Outcomes of a call                                              *)
(* ================================================================== *)

Inductive Exception : Type :=
| TypeError (message : string).

Inductive Outcome (A : Type) : Type :=
| Returned (value : A)
| Thrown (e : Exception).

Arguments Returned {A} value.
Arguments Thrown {A} e.

Inductive Severity : Type := high | medium | low.

(** [list.length] *)
Definition count {A : Type} (l : list A) : Z := Z.of_nat (List.length l).

(* ================================================================== *)
(** ** The document analyzer, [src/lib/html-analyzer.ts]               *)
(* ================================================================== *)

Module HtmlAnalyzer.

Module Issue.
Record t : Type := mk {
  id : Z;
  severity : Severity;
  title : string;
  description : string;
  howToFix : string
}.
End Issue.

Module Headings.
Record t : Type := mk {
  h1 : Z; h2 : Z; h3 : Z; h4 : Z; h5 : Z; h6 : Z;
  structure : list string
}.
End Headings.

Module Images.
Record t : Type := mk {
  total : Z; withAlt : Z; withoutAlt : Z; withEmptyAlt : Z
}.
End Images.

Module Links.
Record t : Type := mk { total : Z; internal : Z; external : Z }.
End Links.

Record HtmlAnalysisResult : Type := mkResult {
  title : string;
  description : string;
  keywords : list string;
  ogTags : list (string * string);
  issues : list Issue.t;
  headings : Headings.t;
  images : Images.t;
  links : Links.t
}.

(** [x?.getAttribute(name) || ''] and [x?.textContent || ''] *)
Definition orEmpty (o : option string) : string :=
  match o with Some v => v | None => EmptyString end.

(** [ogTags[key] = value] on a plain object: a later assignment to a
    key replaces its value; assigning a string to [__proto__] creates
    no property. *)
Fixpoint assign (o : list (string * string)) (key value : string) : list (string * string) :=
  match o with
  | [] => [(key, value)]
  | (k, v) :: r =>
      if String.eqb k key then (k, value) :: r else (k, v) :: assign r key value
  end.

Definition setProperty (o : list (string * string)) (key value : string) : list (string * string) :=
  if String.eqb key "__proto__" then o else assign o key value.

Definition collectOgTag (o : list (string * string)) (tag : Dom.Element) : list (string * string) :=
  match Dom.getAttribute tag "property", Dom.getAttribute tag "content" with
  | Some property, Some content =>
      if negb (JS.falsy property) && negb (JS.falsy content)
      then setProperty o (JS.replace property "og:" EmptyString) content
      else o
  | _, _ => o
  end.

Definition headingSelector : Dom.Selector :=
  [[Dom.Tag "h1"]; [Dom.Tag "h2"]; [Dom.Tag "h3"];
   [Dom.Tag "h4"]; [Dom.Tag "h5"]; [Dom.Tag "h6"]].

Definition headingLine (heading : Dom.Element) : string :=
  let text := JS.trim (Dom.textContent heading) in
  (Dom.tagName heading ++ ": " ++
   (if JS.falsy text then "Empty heading" else text))%string.

(** One step of [allLinks.forEach]: the pair is
    [(internalLinks, externalLinks)]. *)
Definition countLink (url : string) (counts : Z * Z) (link : Dom.Element) : Outcome (Z * Z) :=
  let '(internalLinks, externalLinks) := counts in
  let href := orEmpty (Dom.getAttribute link "href") in
  let otherwise :=
    if JS.startsWith href "http"
    then Returned (internalLinks, externalLinks + 1)
    else Returned (internalLinks, externalLinks) in
  if JS.startsWith href "#" || JS.startsWith href "/"
  then Returned (internalLinks + 1, externalLinks)
  else if JS.falsy url then otherwise
  else match Url.hostname url with
       | None => Thrown (TypeError "Invalid URL")
       | Some hostname =>
           if JS.includes href hostname
           then Returned (internalLinks + 1, externalLinks)
           else otherwise
       end.

Fixpoint forEachLink (url : string) (allLinks : list Dom.Element) (counts : Z * Z) : Outcome (Z * Z) :=
  match allLinks with
  | [] => Returned counts
  | link :: rest =>
      match countLink url counts link with
      | Returned counts' => forEachLink url rest counts'
      | Thrown e => Thrown e
      end
  end.

(** The issue list under construction and the counter [id]. *)
Record Run : Type := mkRun {
  found : list Issue.t;
  id : Z
}.

(** [issues.push({ id: id++, severity, title, description, howToFix })] *)
Definition push (severity : Severity) (title description howToFix : string) (st : Run) : Run :=
  {| found := found st ++ [Issue.mk (id st) severity title description howToFix];
     id := id st + 1 |}.

Definition checkTitle (title : string) (st : Run) : Run :=
  if JS.falsy title then
    push high "Missing page title"
      "Your page is missing a title tag, which is critical for SEO."
      "Add a descriptive title tag within the <head> section of your HTML." st
  else if JS.length title <? 10 then
    push medium "Title too short"
      ("Your title tag is only " ++ JS.ofInt (JS.length title) ++
       " characters long, which may not be descriptive enough.")%string
      "Create a more descriptive title between 50-60 characters that includes key terms." st
  else if JS.length title >? 60 then
    push low "Title too long"
      ("Your title tag is " ++ JS.ofInt (JS.length title) ++
       " characters long, which may be truncated in search results.")%string
      "Keep your title under 60 characters while maintaining key information." st
  else st.

Definition checkMetaDescription (metaDescription : string) (st : Run) : Run :=
  if JS.falsy metaDescription then
    push high "Missing meta description"
      "Your page is missing a meta description, which is important for SEO and click-through rates in search results."
      "Add a meta description tag with a compelling summary of your page (around 150-160 characters)." st
  else if JS.length metaDescription <? 50 then
    push medium "Meta description too short"
      ("Your meta description is only " ++ JS.ofInt (JS.length metaDescription) ++
       " characters long, which may not adequately describe your page.")%string
      "Write a more descriptive meta description between 120-158 characters." st
  else if JS.length metaDescription >? 160 then
    push low "Meta description too long"
      ("Your meta description is " ++ JS.ofInt (JS.length metaDescription) ++
       " characters long and may be truncated in search results.")%string
      "Keep your meta description under 158 characters while maintaining key information." st
  else st.

Definition checkH1 (h1 : Z) (st : Run) : Run :=
  if h1 =? 0 then
    push high "Missing H1 heading"
      "Your page does not have an H1 heading, which is important for page structure and SEO."
      "Add a descriptive H1 heading that contains your primary keyword." st
  else if h1 >? 1 then
    push medium "Multiple H1 headings"
      ("Your page has " ++ JS.ofInt h1 ++
       " H1 headings. It's generally best to have a single H1.")%string
      "Use only one H1 heading as the main title of your page and use H2-H6 for subheadings." st
  else st.

Definition checkH2WithoutH1 (h1 h2 : Z) (st : Run) : Run :=
  if (h1 =? 0) && (h2 >? 0) then
    push medium "H2 without H1"
      "Your page uses H2 headings without an H1 heading."
      "Add an H1 heading as the main title of your page before using H2 headings." st
  else st.

Definition checkH3WithoutH2 (h2 h3 : Z) (st : Run) : Run :=
  if (h2 =? 0) && (h3 >? 0) then
    push low "H3 without H2"
      "Your page uses H3 headings without H2 headings, which creates a gap in the heading hierarchy."
      "Maintain proper heading hierarchy (H1 → H2 → H3) to improve page structure." st
  else st.

Definition checkImages (images : Images.t) (st : Run) : Run :=
  if (Images.total images >? 0) && (Images.withoutAlt images >? 0) then
    push medium "Images missing alt text"
      (JS.ofInt (Images.withoutAlt images) ++ " out of " ++
       JS.ofInt (Images.total images) ++
       " images are missing alt text, which is important for accessibility and SEO.")%string
      "Add descriptive alt attributes to all images that describe the content and function of the image." st
  else st.

Definition checkLinks (linksWithoutText : Z) (st : Run) : Run :=
  if linksWithoutText >? 0 then
    push medium "Links without text"
      (JS.ofInt linksWithoutText ++
       " links on your page have no text content, which is bad for accessibility and SEO.")%string
      "Add descriptive text to all links to help users and search engines understand their purpose." st
  else st.

Definition checkViewport (viewport : option Dom.Element) (st : Run) : Run :=
  match viewport with
  | None =>
      push high "Missing viewport meta tag"
        "Your page is missing the viewport meta tag, which is essential for mobile responsiveness."
        ("Add <meta name=" ++ JS.dquote ++ "viewport" ++ JS.dquote ++
         " content=" ++ JS.dquote ++ "width=device-width, initial-scale=1" ++
         JS.dquote ++ "> to the <head> section.")%string st
  | Some _ => st
  end.

Definition checkStructuredData (hasStructuredData : bool) (st : Run) : Run :=
  if negb hasStructuredData then
    push medium "Missing structured data"
      "Your page does not appear to use structured data (schema.org) markup."
      "Implement relevant schema.org markup to enhance your search engine listings with rich results." st
  else st.

(** The body of [analyzeHtmlContent] once the document is parsed. *)
Definition analyzeDocument (document : Dom.Document) (url : string) : Outcome HtmlAnalysisResult :=
  let title :=
    orEmpty (option_map Dom.textContent
               (Dom.querySelector document (Dom.tag "title"))) in
  let metaDescription :=
    orEmpty (match Dom.querySelector document (Dom.tagAttrIs "meta" "name" "description") with
             | Some m => Dom.getAttribute m "content"
             | None => None
             end) in
  let metaKeywords :=
    orEmpty (match Dom.querySelector document (Dom.tagAttrIs "meta" "name" "keywords") with
             | Some m => Dom.getAttribute m "content"
             | None => None
             end) in
  let keywords :=
    filter (fun k => negb (JS.falsy k)) (map JS.trim (JS.split "," metaKeywords)) in
  let ogTags :=
    fold_left collectOgTag
      (Dom.querySelectorAll document
         (Dom.sel [Dom.Tag "meta"; Dom.Attr (Dom.AttrStarts "property" "og:")]))
      [] in
  let h1Elements := Dom.querySelectorAll document (Dom.tag "h1") in
  let h2Elements := Dom.querySelectorAll document (Dom.tag "h2") in
  let h3Elements := Dom.querySelectorAll document (Dom.tag "h3") in
  let h4Elements := Dom.querySelectorAll document (Dom.tag "h4") in
  let h5Elements := Dom.querySelectorAll document (Dom.tag "h5") in
  let h6Elements := Dom.querySelectorAll document (Dom.tag "h6") in
  let headingStructure :=
    map headingLine (Dom.querySelectorAll document headingSelector) in
  let headings :=
    Headings.mk (count h1Elements) (count h2Elements) (count h3Elements)
                (count h4Elements) (count h5Elements) (count h6Elements)
                headingStructure in
  let allImages := Dom.querySelectorAll document (Dom.tag "img") in
  let imagesWithAlt :=
    Dom.querySelectorAll document
      (Dom.sel [Dom.Tag "img"; Dom.Attr (Dom.HasAttr "alt");
                Dom.Not (Dom.AttrIs "alt" EmptyString)]) in
  let imagesWithEmptyAlt :=
    Dom.querySelectorAll document (Dom.tagAttrIs "img" "alt" EmptyString) in
  let images :=
    {| Images.total := count allImages;
       Images.withAlt := count imagesWithAlt;
       Images.withoutAlt := count allImages - count imagesWithAlt - count imagesWithEmptyAlt;
       Images.withEmptyAlt := count imagesWithEmptyAlt |} in
  let allLinks :=
    Dom.querySelectorAll document (Dom.sel [Dom.Tag "a"; Dom.Attr (Dom.HasAttr "href")]) in
  match forEachLink url allLinks (0, 0) with
  | Thrown e => Thrown e
  | Returned (internalLinks, externalLinks) =>
      let links :=
        {| Links.total := count allLinks;
           Links.internal := internalLinks;
           Links.external := externalLinks |} in
      let st := {| found := []; id := 1 |} in
      let st := checkTitle title st in
      let st := checkMetaDescription metaDescription st in
      let st := checkH1 (count h1Elements) st in
      let st := checkH2WithoutH1 (count h1Elements) (count h2Elements) st in
      let st := checkH3WithoutH2 (count h2Elements) (count h3Elements) st in
      let st := checkImages images st in
      let linksWithoutText :=
        count (filter (fun link => JS.falsy (JS.trim (Dom.textContent link))) allLinks) in
      let st := checkLinks linksWithoutText st in
      let st := checkViewport
                  (Dom.querySelector document (Dom.tagAttrIs "meta" "name" "viewport")) st in
      let hasStructuredData :=
        match Dom.querySelector document
                (Dom.tagAttrIs "script" "type" "application/ld+json") with
        | Some _ => true
        | None =>
            count (Dom.querySelectorAll document
                     [[Dom.Attr (Dom.HasAttr "itemscope")];
                      [Dom.Attr (Dom.HasAttr "itemprop")]]) >? 0
        end in
      let st := checkStructuredData hasStructuredData st in
      Returned
        {| title := title;
           description := metaDescription;
           keywords := keywords;
           ogTags := ogTags;
           issues := found st;
           headings := headings;
           images := images;
           links := links |}
  end.

Section Parser.
(** [new JSDOM(htmlContent).window.document]: the parser builds a
    tree from every string. *)
Variable JSDOM : string -> Dom.Document.

(** [analyzeHtmlContent(htmlContent, url = '')] *)
Definition analyzeHtmlContent (htmlContent url : string) : Outcome HtmlAnalysisResult :=
  analyzeDocument (JSDOM htmlContent) url.
End Parser.

(** [isValidHtml(content)] *)
Definition isValidHtml (content : string) : bool :=
  JS.includes content "<html" && JS.includes content "<head" &&
  JS.includes content "<body" && JS.includes content "</html>".

End HtmlAnalyzer.

(* ================================================================== *)
(** ** The element analyzer, [src/lib/element-analysis.ts]             *)
(* ================================================================== *)

Module ElementAnalysis.

Record ElementIssue : Type := mkIssue {
  selector : string;
  element : string;
  issue : string;
  severity : Severity;
  recommendation : string;
  section : string
}.

Record SectionAnalysis : Type := mkSection {
  name : string;
  score : Z;
  issues : list ElementIssue;
  importance : Z
}.

(** The result record; the analyzer's local variables
    [totalElements], [analyzedElements], [elementIssues] and
    [sectionAnalysis] are its fields while the analysis runs. *)
Record ElementAnalysisResult : Type := mkResult {
  url : string;
  totalElements : Z;
  analyzedElements : Z;
  elementIssues : list ElementIssue;
  sectionAnalysis : list SectionAnalysis
}.

(** [a || b] on the results of [querySelector]. *)
Definition orElse (a b : option Dom.Element) : option Dom.Element :=
  match a with Some _ => a | None => b end.

(** The object [sections], in the order of its keys. *)
Definition sections (document : Dom.Document) : list (string * option Dom.Element) :=
  let q := Dom.querySelector document in
  [ ("header",
     orElse (orElse (q (Dom.tag "header")) (q (Dom.tagAttrIs "div" "role" "banner")))
            (q (Dom.class "header")));
    ("navigation",
     orElse (q (Dom.tag "nav")) (q (Dom.tagAttrIs "div" "role" "navigation")));
    ("content",
     orElse (orElse (q (Dom.tag "main")) (q (Dom.tagAttrIs "div" "role" "main")))
            (q (Dom.class "content")));
    ("sidebar",
     orElse (q (Dom.tag "aside")) (q (Dom.class "sidebar")));
    ("footer",
     orElse (orElse (q (Dom.tag "footer")) (q (Dom.tagAttrIs "div" "role" "contentinfo")))
            (q (Dom.class "footer"))) ].

(** The initial value of [sectionAnalysis]. *)
Definition initialSections : list SectionAnalysis :=
  [ mkSection "Header" 100 [] 8;
    mkSection "Navigation" 100 [] 7;
    mkSection "Main Content" 100 [] 10;
    mkSection "Sidebar" 100 [] 5;
    mkSection "Footer" 100 [] 4;
    mkSection "General" 100 [] 6 ].

(** [for (const [sectionName, sectionElement] of Object.entries(sections))] *)
Fixpoint determineSectionForElement (element : Dom.Element)
         (sections : list (string * option Dom.Element)) : string :=
  match sections with
  | [] => "general"
  | (sectionName, sectionElement) :: rest =>
      match sectionElement with
      | Some landmark =>
          if Dom.contains landmark element then sectionName
          else determineSectionForElement element rest
      | None => determineSectionForElement element rest
      end
  end.

Definition getSelector (element : Dom.Element) : string :=
  let selector := JS.toLowerCase (Dom.tagName element) in
  if negb (JS.falsy (Dom.id element)) then
    (selector ++ "#" ++ Dom.id element)%string
  else if count (Dom.classList element) >? 0 then
    (selector ++ "." ++ JS.join "." (Dom.classList element))%string
  else selector.

Definition capitalizeFirstLetter (s : string) : string :=
  if String.eqb s "header" then "Header"
  else if String.eqb s "navigation" then "Navigation"
  else if String.eqb s "content" then "Main Content"
  else if String.eqb s "sidebar" then "Sidebar"
  else if String.eqb s "footer" then "Footer"
  else "General".

(** [const s = sectionAnalysis.find(s => s.name === wanted);
     if (s) { s.issues.push(issue); s.score -= penalty; }] *)
Fixpoint chargeSection (wanted : string) (penalty : Z) (i : ElementIssue)
         (records : list SectionAnalysis) : list SectionAnalysis :=
  match records with
  | [] => []
  | s :: rest =>
      if String.eqb (name s) wanted
      then {| name := name s; score := score s - penalty;
              issues := issues s ++ [i]; importance := importance s |} :: rest
      else s :: chargeSection wanted penalty i rest
  end.

(** [elementIssues.push(issue)] followed by the update of the section
    record found by name. *)
Definition report (wanted : string) (penalty : Z) (i : ElementIssue)
           (st : ElementAnalysisResult) : ElementAnalysisResult :=
  {| url := url st;
     totalElements := totalElements st;
     analyzedElements := analyzedElements st;
     elementIssues := elementIssues st ++ [i];
     sectionAnalysis := chargeSection wanted penalty i (sectionAnalysis st) |}.

(** [analyzedElements += a; totalElements += t] *)
Definition tally (a t : Z) (st : ElementAnalysisResult) : ElementAnalysisResult :=
  {| url := url st;
     totalElements := totalElements st + t;
     analyzedElements := analyzedElements st + a;
     elementIssues := elementIssues st;
     sectionAnalysis := sectionAnalysis st |}.

Definition titleIssue (what : string) (sev : Severity) (advice : string) : ElementIssue :=
  mkIssue "head > title" "Title" what sev advice "header".

Definition checkTitle (title : option Dom.Element) (st : ElementAnalysisResult) : ElementAnalysisResult :=
  let st := tally 1 1 st in
  let text := match title with Some t => Dom.textContent t | None => EmptyString end in
  if JS.falsy text then
    report "Header" 25
      (titleIssue "Missing page title" high
         "Add a descriptive title tag that includes primary keywords") st
  else if JS.length text <? 20 then
    report "Header" 15
      (titleIssue "Title is too short" medium
         "Create a more descriptive title between 50-60 characters that includes key terms") st
  else if JS.length text >? 60 then
    report "Header" 10
      (titleIssue "Title is too long" low
         "Keep your title under 60 characters to avoid truncation in search results") st
  else st.

Definition metaSelectorText : string :=
  ("head > meta[name=" ++ JS.dquote ++ "description" ++ JS.dquote ++ "]")%string.

Definition metaIssue (what : string) (sev : Severity) (advice : string) : ElementIssue :=
  mkIssue metaSelectorText "Meta Description" what sev advice "header".

Definition checkMetaDescription (metaDescription : option Dom.Element)
           (st : ElementAnalysisResult) : ElementAnalysisResult :=
  let st := tally 1 1 st in
  let content :=
    match metaDescription with
    | Some m => HtmlAnalyzer.orEmpty (Dom.getAttribute m "content")
    | None => EmptyString
    end in
  if JS.falsy content then
    report "Header" 25
      (metaIssue "Missing meta description" high
         "Add a compelling meta description between 120-158 characters") st
  else if JS.length content <? 70 then
    report "Header" 15
      (metaIssue "Meta description is too short" medium
         "Create a more compelling meta description between 120-158 characters") st
  else if JS.length content >? 160 then
    report "Header" 10
      (metaIssue "Meta description is too long" low
         "Keep meta description under 158 characters to avoid truncation") st
  else st.

Section Walk.
Variable sections : list (string * option Dom.Element).

(** One step of [images.forEach]. *)
Definition checkImage (st : ElementAnalysisResult) (img : Dom.Element) : ElementAnalysisResult :=
  let st := tally 1 0 st in
  if negb (Dom.hasAttribute img "alt") then
    let section := determineSectionForElement img sections in
    report (capitalizeFirstLetter section) 10
      (mkIssue (getSelector img) "Image" "Image missing alt text" medium
         "Add descriptive alt text to the image that includes relevant keywords"
         section) st
  else st.

(** The variables of the pass over the headings. *)
Record HeadingWalk : Type := mkWalk {
  result : ElementAnalysisResult;
  h1Count : Z;
  previousHeadingLevel : JS.Number
}.

(** One step of [headings.forEach]. *)
Definition checkHeading (w : HeadingWalk) (heading : Dom.Element) : HeadingWalk :=
  let st := tally 1 0 (result w) in
  let level := JS.parseInt (JS.substring1 (Dom.tagName heading)) in
  let h1Count := if JS.strictEq level 1 then h1Count w + 1 else h1Count w in
  let st :=
    if JS.strictEq level 1 && (h1Count >? 1) then
      let section := determineSectionForElement heading sections in
      report (capitalizeFirstLetter section) 15
        (mkIssue (getSelector heading) "H1 Heading" "Multiple H1 headings" medium
           "Use only one H1 heading as the main title of your page"
           section) st
    else st in
  let st :=
    if JS.gt (previousHeadingLevel w) (JS.Num 0) &&
       JS.gt level (JS.plus (previousHeadingLevel w) 1) then
      let section := determineSectionForElement heading sections in
      report (capitalizeFirstLetter section) 5
        (mkIssue (getSelector heading)
           ("H" ++ JS.ofNumber level ++ " Heading")%string
           ("Skipped heading level (H" ++ JS.ofNumber (previousHeadingLevel w) ++
            " to H" ++ JS.ofNumber level ++ ")")%string
           low
           "Maintain proper heading hierarchy (H1 → H2 → H3) to improve page structure"
           section) st
    else st in
  {| result := st; h1Count := h1Count; previousHeadingLevel := level |}.

(** [if (h1Count === 0) ...] after the pass. *)
Definition checkMissingH1 (w : HeadingWalk) : ElementAnalysisResult :=
  if h1Count w =? 0 then
    report "Main Content" 20
      (mkIssue "body" "H1 Heading" "Missing H1 heading" high
         "Add an H1 heading as the main title of your page" "content")
      (result w)
  else result w.

(** One step of [links.forEach]. *)
Definition checkLink (st : ElementAnalysisResult) (link : Dom.Element) : ElementAnalysisResult :=
  let st := tally 1 0 st in
  let text := Dom.textContent link in
  if JS.falsy text || (JS.length (JS.trim text) =? 0) ||
     String.eqb (JS.toLowerCase (JS.trim text)) "click here" ||
     String.eqb (JS.toLowerCase (JS.trim text)) "read more" then
    let section := determineSectionForElement link sections in
    report (capitalizeFirstLetter section) 10
      (mkIssue (getSelector link) "Link"
         (if JS.falsy text then "Link missing text content"
          else "Non-descriptive link text")
         medium
         "Use descriptive link text that explains where the link will take users"
         section) st
  else st.

(** One step of [paragraphs.forEach]. *)
Definition checkParagraph (st : ElementAnalysisResult) (p : Dom.Element) : ElementAnalysisResult :=
  let st := tally 1 0 st in
  if negb (JS.falsy (Dom.textContent p)) && (JS.length (Dom.textContent p) >? 300) then
    let section := determineSectionForElement p sections in
    report (capitalizeFirstLetter section) 5
      (mkIssue (getSelector p) "Paragraph" "Long paragraph (over 300 characters)" low
         "Break long paragraphs into smaller chunks for better readability"
         section) st
  else st.
End Walk.

(** [section.score = Math.max(0, Math.min(100, section.score))] *)
Definition clamp (s : SectionAnalysis) : SectionAnalysis :=
  {| name := name s; score := Z.max 0 (Z.min 100 (score s));
     issues := issues s; importance := importance s |}.

Definition clampAll (st : ElementAnalysisResult) : ElementAnalysisResult :=
  {| url := url st;
     totalElements := totalElements st;
     analyzedElements := analyzedElements st;
     elementIssues := elementIssues st;
     sectionAnalysis := map clamp (sectionAnalysis st) |}.

(** The analysis up to, and without, the final clamp.  (The local
    [id] of the source is never read and has no counterpart here.) *)
Definition walkDocument (document : Dom.Document) (url : string) : ElementAnalysisResult :=
  let sections := sections document in
  let st := {| url := url; totalElements := 0; analyzedElements := 0;
               elementIssues := []; sectionAnalysis := initialSections |} in
  let st := checkTitle (Dom.querySelector document (Dom.tag "title")) st in
  let st := checkMetaDescription
              (Dom.querySelector document (Dom.tagAttrIs "meta" "name" "description")) st in
  let images := Dom.querySelectorAll document (Dom.tag "img") in
  let st := tally 0 (count images) st in
  let st := fold_left (checkImage sections) images st in
  let headings := Dom.querySelectorAll document HtmlAnalyzer.headingSelector in
  let st := tally 0 (count headings) st in
  let w := fold_left (checkHeading sections) headings
             {| result := st; h1Count := 0; previousHeadingLevel := JS.Num 0 |} in
  let st := checkMissingH1 w in
  let links :=
    Dom.querySelectorAll document (Dom.sel [Dom.Tag "a"; Dom.Attr (Dom.HasAttr "href")]) in
  let st := tally 0 (count links) st in
  let st := fold_left (checkLink sections) links st in
  let paragraphs := Dom.querySelectorAll document (Dom.tag "p") in
  let st := tally 0 (count paragraphs) st in
  fold_left (checkParagraph sections) paragraphs st.

(** The body of [analyzePageElements] once the document is parsed. *)
Definition analyzeElements (document : Dom.Document) (url : string) : ElementAnalysisResult :=
  clampAll (walkDocument document url).

Section Parser.
Variable JSDOM : string -> Dom.Document.

(** [analyzePageElements(htmlContent, url)] *)
Definition analyzePageElements (htmlContent url : string) : ElementAnalysisResult :=
  analyzeElements (JSDOM htmlContent) url.
End Parser.

End ElementAnalysis.

(* ================================================================== *)
(** ** The specification's wording, to compare the analyzers with      *)
(* ================================================================== *)

(** The nine document checks as the specification lists them: each is a
    rule from what the analyzer observed to at most one finding. *)
Module DocumentRules.

(** A finding: the severity and the title of the issue. *)
Definition Finding : Type := (Severity * string)%type.

Definition titleRule (title : string) : option Finding :=
  if String.eqb title EmptyString then Some (high, "Missing page title")
  else if JS.length title <? 10 then Some (medium, "Title too short")
  else if 60 <? JS.length title then Some (low, "Title too long")
  else None.

Definition metaDescriptionRule (description : string) : option Finding :=
  if String.eqb description EmptyString then Some (high, "Missing meta description")
  else if JS.length description <? 50 then Some (medium, "Meta description too short")
  else if 160 <? JS.length description then Some (low, "Meta description too long")
  else None.

Definition h1Rule (h1 : Z) : option Finding :=
  if h1 =? 0 then Some (high, "Missing H1 heading")
  else if 1 <? h1 then Some (medium, "Multiple H1 headings")
  else None.

Definition h2WithoutH1Rule (h1 h2 : Z) : option Finding :=
  if (0 <? h2) && (h1 =? 0) then Some (medium, "H2 without H1") else None.

Definition h3WithoutH2Rule (h2 h3 : Z) : option Finding :=
  if (0 <? h3) && (h2 =? 0) then Some (low, "H3 without H2") else None.

Definition imagesRule (withoutAlt total : Z) : option Finding :=
  if (0 <? withoutAlt) && (0 <? total)
  then Some (medium, "Images missing alt text") else None.

Definition linksRule (withoutText : Z) : option Finding :=
  if 0 <? withoutText then Some (medium, "Links without text") else None.

Definition viewportRule (present : bool) : option Finding :=
  if present then None else Some (high, "Missing viewport meta tag").

Definition structuredDataRule (jsonLd microdata : bool) : option Finding :=
  if jsonLd || microdata then None else Some (medium, "Missing structured data").

(** What the last three rules look at, read off the tree. *)
Definition isLink (e : Dom.Element) : bool :=
  String.eqb (Dom.localName e) "a" && Dom.hasAttribute e "href".

Definition blankText (e : Dom.Element) : bool :=
  String.eqb (JS.trim (Dom.textContent e)) EmptyString.

Definition linksWithoutText (d : Dom.Document) : Z :=
  count (filter (fun e => isLink e && blankText e) (Dom.allElements d)).

Definition hasAttrValue (e : Dom.Element) (a v : string) : bool :=
  match Dom.getAttribute e a with Some x => String.eqb x v | None => false end.

Definition hasViewport (d : Dom.Document) : bool :=
  existsb (fun e => String.eqb (Dom.localName e) "meta" &&
                    hasAttrValue e "name" "viewport") (Dom.allElements d).

(** The value of [type] counts whatever its ASCII case. *)
Definition hasAttrValueAnyCase (e : Dom.Element) (a v : string) : bool :=
  match Dom.getAttribute e a with
  | Some x => String.eqb (JS.asciiUpperCase x) (JS.asciiUpperCase v)
  | None => false
  end.

Definition hasJsonLd (d : Dom.Document) : bool :=
  existsb (fun e => String.eqb (Dom.localName e) "script" &&
                    hasAttrValueAnyCase e "type" "application/ld+json") (Dom.allElements d).

Definition hasMicrodata (d : Dom.Document) : bool :=
  existsb (fun e => Dom.hasAttribute e "itemscope" || Dom.hasAttribute e "itemprop")
          (Dom.allElements d).

(** What the first six rules look at, read off the tree: the text of
    the first [title] element, the [content] of the first
    [meta name="description"], the numbers of [h1], [h2], [h3] and [img]
    elements, and the number of [img] elements without [alt]. *)
Definition named (n : string) (e : Dom.Element) : bool :=
  String.eqb (Dom.localName e) n.

Definition titleOf (d : Dom.Document) : string :=
  match find (named "title") (Dom.allElements d) with
  | Some t => Dom.textContent t
  | None => EmptyString
  end.

Definition descriptionOf (d : Dom.Document) : string :=
  match find (fun e => named "meta" e && hasAttrValue e "name" "description")
             (Dom.allElements d) with
  | Some m =>
      match Dom.getAttribute m "content" with Some c => c | None => EmptyString end
  | None => EmptyString
  end.

Definition howMany (n : string) (d : Dom.Document) : Z :=
  count (filter (named n) (Dom.allElements d)).

Definition imagesWithoutAlt (d : Dom.Document) : Z :=
  count (filter (fun e => named "img" e && negb (Dom.hasAttribute e "alt"))
                (Dom.allElements d)).

(** The findings of the nine rules on a document, in their order. *)
Definition documentRules (d : Dom.Document) : list (option Finding) :=
  [ titleRule (titleOf d);
    metaDescriptionRule (descriptionOf d);
    h1Rule (howMany "h1" d);
    h2WithoutH1Rule (howMany "h1" d) (howMany "h2" d);
    h3WithoutH2Rule (howMany "h2" d) (howMany "h3" d);
    imagesRule (imagesWithoutAlt d) (howMany "img" d);
    linksRule (linksWithoutText d);
    viewportRule (hasViewport d);
    structuredDataRule (hasJsonLd d) (hasMicrodata d) ].

(** The same rules on what a result records of the document. *)
Definition rules (d : Dom.Document) (r : HtmlAnalyzer.HtmlAnalysisResult) : list (option Finding) :=
  let h := HtmlAnalyzer.headings r in
  let im := HtmlAnalyzer.images r in
  [ titleRule (HtmlAnalyzer.title r);
    metaDescriptionRule (HtmlAnalyzer.description r);
    h1Rule (HtmlAnalyzer.Headings.h1 h);
    h2WithoutH1Rule (HtmlAnalyzer.Headings.h1 h) (HtmlAnalyzer.Headings.h2 h);
    h3WithoutH2Rule (HtmlAnalyzer.Headings.h2 h) (HtmlAnalyzer.Headings.h3 h);
    imagesRule (HtmlAnalyzer.Images.withoutAlt im) (HtmlAnalyzer.Images.total im);
    linksRule (linksWithoutText d);
    viewportRule (hasViewport d);
    structuredDataRule (hasJsonLd d) (hasMicrodata d) ].

Fixpoint present {A : Type} (l : list (option A)) : list A :=
  match l with
  | [] => []
  | Some x :: r => x :: present r
  | None :: r => present r
  end.

(** Sequential ids, starting at [from]. *)
Fixpoint numbered {A : Type} (from : Z) (l : list A) : list (Z * A) :=
  match l with
  | [] => []
  | x :: r => (from, x) :: numbered (from + 1) r
  end.

(** An issue as the rules see it. *)
Definition summary (i : HtmlAnalyzer.Issue.t) : Z * Finding :=
  (HtmlAnalyzer.Issue.id i, (HtmlAnalyzer.Issue.severity i, HtmlAnalyzer.Issue.title i)).

(** The issues of an outcome, when there is one. *)
Definition issuesOf (o : Outcome HtmlAnalyzer.HtmlAnalysisResult) : option (list (Z * Finding)) :=
  match o with
  | Returned r => Some (map summary (HtmlAnalyzer.issues r))
  | Thrown _ => None
  end.

(** [from], [from + 1], ...: [n] consecutive ids. *)
Fixpoint sequence (from : Z) (n : nat) : list Z :=
  match n with
  | O => []
  | S k => from :: sequence (from + 1) k
  end.

(** The state of a run after the findings [fs]: they are recorded in
    order under the ids 1, 2, ..., and the counter is one past the
    last id. *)
Definition Tracks (st : HtmlAnalyzer.Run) (fs : list Finding) : Prop :=
  map summary (HtmlAnalyzer.found st) = numbered 1 fs /\
  HtmlAnalyzer.id st = 1 + count fs.

(** The scenario of a page with no title, no meta description, a single
    H1, one image without [alt] and a viewport meta tag, and nothing
    else the checks look at: no H3, no link, no structured data. *)
Definition Scenario (d : Dom.Document) : Prop :=
  Dom.querySelector d (Dom.tag "title") = None /\
  Dom.querySelector d (Dom.tagAttrIs "meta" "name" "description") = None /\
  (exists h, Dom.querySelectorAll d (Dom.tag "h1") = [h]) /\
  Dom.querySelectorAll d (Dom.tag "h3") = [] /\
  (exists img, Dom.querySelectorAll d (Dom.tag "img") = [img] /\
               Dom.hasAttribute img "alt" = false) /\
  Dom.querySelectorAll d (Dom.sel [Dom.Tag "a"; Dom.Attr (Dom.HasAttr "href")]) = [] /\
  (exists v, Dom.querySelector d (Dom.tagAttrIs "meta" "name" "viewport") = Some v) /\
  Dom.querySelector d (Dom.tagAttrIs "script" "type" "application/ld+json") = None /\
  Dom.querySelectorAll d [[Dom.Attr (Dom.HasAttr "itemscope")];
                          [Dom.Attr (Dom.HasAttr "itemprop")]] = [].

End DocumentRules.

(** The two link classes. *)
Module LinkClasses.

Definition href (link : Dom.Element) : string :=
  HtmlAnalyzer.orEmpty (Dom.getAttribute link "href").

(** The [href] contains the host name of the reference URL, when one
    was supplied and it parses. *)
Definition onReferenceHost (url h : string) : bool :=
  negb (String.eqb url EmptyString) &&
  match Url.hostname url with
  | Some host => JS.includes h host
  | None => false
  end.

Definition isInternal (url h : string) : bool :=
  JS.startsWith h "#" || JS.startsWith h "/" || onReferenceHost url h.

Definition isExternal (url h : string) : bool :=
  JS.startsWith h "http" && negb (isInternal url h).

(** Neither class: not internal and not starting with [http]. *)
Definition isUnclassified (url h : string) : bool :=
  negb (isInternal url h) && negb (JS.startsWith h "http").

(** The links the analyzer counts: the elements [a[href]]. *)
Definition hrefs (d : Dom.Document) : list string :=
  map href (filter DocumentRules.isLink (Dom.allElements d)).

Definition linksOf (o : Outcome HtmlAnalyzer.HtmlAnalysisResult) : option HtmlAnalyzer.Links.t :=
  match o with
  | Returned r => Some (HtmlAnalyzer.links r)
  | Thrown _ => None
  end.

End LinkClasses.

(** The five regions and their landmarks. *)
Module Regions.

Definition divRole (role : string) : Dom.Selector := Dom.tagAttrIs "div" "role" role.

(** Each region with its chain of selectors, in the order in which the
    regions are tested. *)
Definition regions : list (string * list Dom.Selector) :=
  [ ("header", [Dom.tag "header"; divRole "banner"; Dom.class "header"]);
    ("navigation", [Dom.tag "nav"; divRole "navigation"]);
    ("content", [Dom.tag "main"; divRole "main"; Dom.class "content"]);
    ("sidebar", [Dom.tag "aside"; Dom.class "sidebar"]);
    ("footer", [Dom.tag "footer"; divRole "contentinfo"; Dom.class "footer"]) ].

(** The landmark of a chain: the first match of the first selector of
    the chain that matches anything. *)
Fixpoint resolve (d : Dom.Document) (chain : list Dom.Selector) : option Dom.Element :=
  match chain with
  | [] => None
  | s :: rest =>
      match Dom.querySelector d s with
      | Some e => Some e
      | None => resolve d rest
      end
  end.

(** The landmark of a region contains the element. *)
Definition holds (d : Dom.Document) (element : Dom.Element) (region : string * list Dom.Selector) : Prop :=
  exists landmark, resolve d (snd region) = Some landmark /\
                   Dom.contains landmark element = true.

(** The same, as a test. *)
Definition holdsb (d : Dom.Document) (element : Dom.Element) (region : string * list Dom.Selector) : bool :=
  match resolve d (snd region) with
  | Some landmark => Dom.contains landmark element
  | None => false
  end.

(** [s] is the section of [element]: the first region, in the order of
    [regions], whose landmark contains it, or [general]. *)
Definition SectionOf (d : Dom.Document) (element : Dom.Element) (s : string) : Prop :=
  (exists before region after,
      regions = before ++ region :: after /\
      s = fst region /\
      holds d element region /\
      forall earlier, In earlier before -> ~ holds d element earlier)
  \/ (s = "general" /\ forall region, In region regions -> ~ holds d element region).

End Regions.

(** The score penalties of the element checks, by the text of the issue. *)
Module Penalties.

Definition penalty (i : ElementAnalysis.ElementIssue) : Z :=
  let t := ElementAnalysis.issue i in
  if String.eqb t "Missing page title" then 25
  else if String.eqb t "Title is too short" then 15
  else if String.eqb t "Title is too long" then 10
  else if String.eqb t "Missing meta description" then 25
  else if String.eqb t "Meta description is too short" then 15
  else if String.eqb t "Meta description is too long" then 10
  else if String.eqb t "Image missing alt text" then 10
  else if String.eqb t "Multiple H1 headings" then 15
  else if JS.startsWith t "Skipped heading level" then 5
  else if String.eqb t "Missing H1 heading" then 20
  else if String.eqb t "Link missing text content" then 10
  else if String.eqb t "Non-descriptive link text" then 10
  else if String.eqb t "Long paragraph (over 300 characters)" then 5
  else 0.

Fixpoint total (l : list ElementAnalysis.ElementIssue) : Z :=
  match l with
  | [] => 0
  | i :: r => penalty i + total r
  end.

(** [Math.max(0, Math.min(100, x))] *)
Definition clamped (x : Z) : Z := Z.max 0 (Z.min 100 x).

End Penalties.

(** The element analysis as a list of reported issues: what a check
    adds to [elementIssues] is read off by running it on a fresh
    state, and the section records are rebuilt from that list. *)
Module Trace.
Import ElementAnalysis.

(** The state [analyzePageElements] starts from. *)
Definition fresh (url : string) : ElementAnalysisResult :=
  {| url := url; totalElements := 0; analyzedElements := 0;
     elementIssues := []; sectionAnalysis := initialSections |}.

(** Reporting an issue to the record its [section] field names, with
    the penalty its text carries. *)
Definition recordIssue (st : ElementAnalysisResult) (i : ElementIssue) : ElementAnalysisResult :=
  report (capitalizeFirstLetter (section i)) (Penalties.penalty i) i st.

Definition replay (news : list ElementIssue) (st : ElementAnalysisResult) : ElementAnalysisResult :=
  fold_left recordIssue news st.

Definition charge (records : list SectionAnalysis) (i : ElementIssue) : list SectionAnalysis :=
  chargeSection (capitalizeFirstLetter (section i)) (Penalties.penalty i) i records.

Definition titleNews (title : option Dom.Element) : list ElementIssue :=
  elementIssues (checkTitle title (fresh EmptyString)).

Definition metaNews (meta : option Dom.Element) : list ElementIssue :=
  elementIssues (checkMetaDescription meta (fresh EmptyString)).

Definition imageNews (secs : list (string * option Dom.Element)) (img : Dom.Element) : list ElementIssue :=
  elementIssues (checkImage secs (fresh EmptyString) img).

Definition linkNews (secs : list (string * option Dom.Element)) (link : Dom.Element) : list ElementIssue :=
  elementIssues (checkLink secs (fresh EmptyString) link).

Definition paragraphNews (secs : list (string * option Dom.Element)) (p : Dom.Element) : list ElementIssue :=
  elementIssues (checkParagraph secs (fresh EmptyString) p).

(** The pass over the headings, from a count of H1 and a previous
    level. *)
Definition startAt (h1 : Z) (previous : JS.Number) : HeadingWalk :=
  {| result := fresh EmptyString; h1Count := h1; previousHeadingLevel := previous |}.

Definition headingStep (secs : list (string * option Dom.Element))
           (h1 : Z) (previous : JS.Number) (heading : Dom.Element) : HeadingWalk :=
  checkHeading secs (startAt h1 previous) heading.

Fixpoint headingNews (secs : list (string * option Dom.Element))
         (h1 : Z) (previous : JS.Number) (headings : list Dom.Element) : list ElementIssue :=
  match headings with
  | [] => []
  | heading :: rest =>
      let w := headingStep secs h1 previous heading in
      elementIssues (result w) ++
      headingNews secs (h1Count w) (previousHeadingLevel w) rest
  end.

Fixpoint h1After (secs : list (string * option Dom.Element))
         (h1 : Z) (previous : JS.Number) (headings : list Dom.Element) : Z :=
  match headings with
  | [] => h1
  | heading :: rest =>
      let w := headingStep secs h1 previous heading in
      h1After secs (h1Count w) (previousHeadingLevel w) rest
  end.

Definition missingH1News (h1 : Z) : list ElementIssue :=
  elementIssues (checkMissingH1 (startAt h1 JS.NaN)).

Definition linkSelector : Dom.Selector :=
  Dom.sel [Dom.Tag "a"; Dom.Attr (Dom.HasAttr "href")].

(** Everything the analysis of a document reports, in order. *)
Definition walkNews (d : Dom.Document) : list ElementIssue :=
  let secs := sections d in
  let headings := Dom.querySelectorAll d HtmlAnalyzer.headingSelector in
  titleNews (Dom.querySelector d (Dom.tag "title")) ++
  metaNews (Dom.querySelector d (Dom.tagAttrIs "meta" "name" "description")) ++
  flat_map (imageNews secs) (Dom.querySelectorAll d (Dom.tag "img")) ++
  headingNews secs 0 (JS.Num 0) headings ++
  missingH1News (h1After secs 0 (JS.Num 0) headings) ++
  flat_map (linkNews secs) (Dom.querySelectorAll d linkSelector) ++
  flat_map (paragraphNews secs) (Dom.querySelectorAll d (Dom.tag "p")).

(** The number of elements the analysis visits. *)
Definition visited (d : Dom.Document) : Z :=
  1 + 1 +
  count (Dom.querySelectorAll d (Dom.tag "img")) +
  count (Dom.querySelectorAll d HtmlAnalyzer.headingSelector) +
  count (Dom.querySelectorAll d linkSelector) +
  count (Dom.querySelectorAll d (Dom.tag "p")).

(** The level the analyzer reads off a heading is 1. *)
Definition isLevel1 (heading : Dom.Element) : bool :=
  JS.strictEq (JS.parseInt (JS.substring1 (Dom.tagName heading))) 1.

Definition isMultipleH1 (i : ElementIssue) : bool :=
  String.eqb (issue i) "Multiple H1 headings".

Definition isMetaIssue (i : ElementIssue) : bool :=
  String.eqb (element i) "Meta Description".

(** The issue raised on an H1 that is not the first. *)
Definition multipleH1Issue (secs : list (string * option Dom.Element)) (heading : Dom.Element) : ElementIssue :=
  mkIssue (getSelector heading) "H1 Heading" "Multiple H1 headings" medium
    "Use only one H1 heading as the main title of your page"
    (determineSectionForElement heading secs).

(** The record of a section, by name. *)
Definition recordNamed (n : string) (records : list SectionAnalysis) : option SectionAnalysis :=
  find (fun s => String.eqb (name s) n) records.

Definition sameSection (n : string) (i : ElementIssue) : bool :=
  String.eqb (capitalizeFirstLetter (section i)) n.

(** A section record after the issues of [news] that belong to it. *)
Definition settle (news : list ElementIssue) (s : SectionAnalysis) : SectionAnalysis :=
  {| name := name s;
     score := score s - Penalties.total (filter (sameSection (name s)) news);
     issues := issues s ++ filter (sameSection (name s)) news;
     importance := importance s |}.

Definition sectionNames : list string := map name initialSections.

End Trace.

(** Documents used as examples: each is the tree the parser builds for
    the markup quoted with it. *)
Module Examples.
Import Dom.

Definition text (s : string) : Node := TextNode s.

(** Markup without a doctype: the document is in quirks mode. *)
Definition page (head body : list Node) : Document :=
  mkDocument BackCompat
    [ElementNode "html" [] [ElementNode "head" [] head; ElementNode "body" [] body]].

(** What the parser builds for the empty string. *)
Definition emptyPage : Document := page [] [].

(** [<a href="about.html">About</a>] *)
Definition uploadedPage : Document :=
  page [] [ElementNode "a" [("href", "about.html")] [text "About"]].

(** [<meta name="viewport" content="width=device-width"><h1>Hello</h1><img src="a.png">] *)
Definition scenarioPage : Document :=
  page [ElementNode "meta" [("name", "viewport"); ("content", "width=device-width")] []]
       [ElementNode "h1" [] [text "Hello"];
        ElementNode "img" [("src", "a.png")] []].

Fixpoint letters (n : nat) : string :=
  match n with
  | O => EmptyString
  | S k => String "x" (letters k)
  end.

(** [<title>A page about formal analysis</title>
     <meta name="description" content="...">
     <h1>Formal analysis</h1>]: a title of 28 characters, a meta
    description and one H1. *)
Definition describedPage (description : string) : Document :=
  page [ElementNode "title" [] [text "A page about formal analysis"];
        ElementNode "meta" [("name", "description"); ("content", description)] []]
       [ElementNode "h1" [] [text "Formal analysis"]].

(** The same head with a description of 100 characters, then
    [<h1>First</h1><h1>Second</h1>]: two H1 in the body, no landmark;
    title and description in range. *)
Definition twoH1Page : Document :=
  page [ElementNode "title" [] [text "A page about formal analysis"];
        ElementNode "meta" [("name", "description"); ("content", letters 100)] []]
       [ElementNode "h1" [] [text "First"];
        ElementNode "h1" [] [text "Second"]].

(** The same head, then
    [<h1>First</h1><header><h1 id="top">Second</h1></header>]: the
    second H1 inside [<header>]. *)
Definition twoH1HeaderPage : Document :=
  page [ElementNode "title" [] [text "A page about formal analysis"];
        ElementNode "meta" [("name", "description"); ("content", letters 100)] []]
       [ElementNode "h1" [] [text "First"];
        ElementNode "header" [] [ElementNode "h1" [("id", "top")] [text "Second"]]].

(** The two H1 of [twoH1HeaderPage], as the queries return them. *)
Definition firstH1 : Element :=
  mkElement [0; 1; 0]%nat "h1" [] [text "First"] BackCompat.
Definition headerH1 : Element :=
  mkElement [0; 1; 1; 0]%nat "h1" [("id", "top")] [text "Second"] BackCompat.

(** The meta description of [describedPage]. *)
Definition descriptionMeta (description : string) : Element :=
  mkElement [0; 0; 1]%nat "meta" [("name", "description"); ("content", description)] []
            BackCompat.

(** [<a href="#top">Top</a><a href="https://example.com/a">Here</a>
     <a href="https://other.org/">There</a><a href="about.html">About</a>]
    (without the white space): a fragment, an absolute URL on the
    reference host, an absolute URL elsewhere, and a relative path. *)
Definition linksPage : Document :=
  page []
       [ElementNode "a" [("href", "#top")] [text "Top"];
        ElementNode "a" [("href", "https://example.com/a")] [text "Here"];
        ElementNode "a" [("href", "https://other.org/")] [text "There"];
        ElementNode "a" [("href", "about.html")] [text "About"]].

(** [<img src="a.png"><footer><img src="b.png"></footer>]: an image
    outside every landmark and one inside [<footer>]. *)
Definition footerPage : Document :=
  page []
       [ElementNode "img" [("src", "a.png")] [];
        ElementNode "footer" [] [ElementNode "img" [("src", "b.png")] []]].

(** [<h2>Part</h2><img src="a.png"><a href="#"></a>]: no title, no
    meta description, no H1 but an H2, an image without [alt], a link
    without text, no viewport, no structured data. *)
Definition worstPage : Document :=
  page []
       [ElementNode "h2" [] [text "Part"];
        ElementNode "img" [("src", "a.png")] [];
        ElementNode "a" [("href", "#")] []].

(** [<meta name="keywords" content=" seo, tools,, audit ">] *)
Definition keywordsPage : Document :=
  page [ElementNode "meta" [("name", "keywords"); ("content", " seo, tools,, audit ")] []]
       [].

(** [<title>x...x</title><meta name="description" content="x...x">
     <meta name="viewport" content="width=device-width">
     <script type="Application/LD+JSON">{}</script>
     <h1>One</h1><h1>Two</h1><h3>Part</h3>
     <img src="a.png"><img src="b.png" alt=""><a href="#"> </a>]
    (without the line breaks): a title and a description of the given
    sizes, two H1, an H3 but no H2, an image without [alt], a link
    without text, a viewport and JSON-LD whose type is capitalised. *)
Definition thresholdsPage (titleSize descriptionSize : nat) : Document :=
  page [ElementNode "title" [] [text (letters titleSize)];
        ElementNode "meta" [("name", "description");
                            ("content", letters descriptionSize)] [];
        ElementNode "meta" [("name", "viewport"); ("content", "width=device-width")] [];
        ElementNode "script" [("type", "Application/LD+JSON")] [text "{}"]]
       [ElementNode "h1" [] [text "One"];
        ElementNode "h1" [] [text "Two"];
        ElementNode "h3" [] [text "Part"];
        ElementNode "img" [("src", "a.png")] [];
        ElementNode "img" [("src", "b.png"); ("alt", EmptyString)] [];
        ElementNode "a" [("href", "#")] [text " "]].

(** What the document analysis reports on a [thresholdsPage]. *)
Definition thresholdsFindings (titleSize descriptionSize : nat)
  : option (list (Z * DocumentRules.Finding)) :=
  DocumentRules.issuesOf
    (HtmlAnalyzer.analyzeDocument (thresholdsPage titleSize descriptionSize) EmptyString).

(** [<title>Short</title>] and nothing else: a title of 5 characters and
    no landmark. *)
Definition shortTitlePage : Document :=
  page [ElementNode "title" [] [text "Short"]] [].

(** The [title] element of [shortTitlePage]. *)
Definition shortTitle : Element :=
  mkElement [0; 0; 0]%nat "title" [] [text "Short"] BackCompat.

(** [<div class="Footer"><img src="a.png"></div>], parsed without and
    with [<!DOCTYPE html>] in front. *)
Definition classPage (mode : CompatMode) : Document :=
  mkDocument mode
    [ElementNode "html" []
       [ElementNode "head" [] [];
        ElementNode "body" []
          [ElementNode "div" [("class", "Footer")]
             [ElementNode "img" [("src", "a.png")] []]]]].

(** [<p>x...x</p><nav><a href="/">Click Here</a></nav>
     <main><h2>Part</h2><h4>Detail</h4></main><footer><img src="b.png"></footer>]
    with a paragraph of 301 characters. *)
Definition regionsPage : Document :=
  page []
       [ElementNode "p" [] [text (letters 301)];
        ElementNode "nav" [] [ElementNode "a" [("href", "/")] [text "Click Here"]];
        ElementNode "main" [] [ElementNode "h2" [] [text "Part"];
                               ElementNode "h4" [] [text "Detail"]];
        ElementNode "footer" [] [ElementNode "img" [("src", "b.png")] []]].

(** What the element analysis says about the meta description of a
    [describedPage] whose description has [size] characters. *)
Definition metaFindings (size : nat) : list (string * Severity) :=
  map (fun i => (ElementAnalysis.issue i, ElementAnalysis.severity i))
      (filter (fun i => String.eqb (ElementAnalysis.element i) "Meta Description")
              (ElementAnalysis.elementIssues
                 (ElementAnalysis.analyzeElements (describedPage (letters size))
                                                  "https://example.com/"))).

End Examples.

(* ================================================================== *)
(** ** The scores derived from the issues, [src/lib/env-config.ts]     *)
(* ================================================================== *)

Module SeoAnalyzer.

(** [calculateSeoScoreFromIssues(issues)] *)
Definition calculateSeoScoreFromIssues (issues : list HtmlAnalyzer.Issue.t) : Z :=
  let score :=
    fold_left
      (fun score issue =>
         match HtmlAnalyzer.Issue.severity issue with
         | high => score - 10
         | medium => score - 5
         | low => score - 2
         end)
      issues 100 in
  Z.max 0 (Z.min 100 score).

(** The test [isAccessibilityIssue] on the title of an issue. *)
Definition isAccessibilityIssue (title : string) : bool :=
  JS.includes (JS.toLowerCase title) "alt text" ||
  JS.includes (JS.toLowerCase title) "aria" ||
  JS.includes (JS.toLowerCase title) "contrast" ||
  JS.includes (JS.toLowerCase title) "keyboard" ||
  JS.includes (JS.toLowerCase title) "screen reader" ||
  JS.includes (JS.toLowerCase title) "focus" ||
  JS.includes (JS.toLowerCase title) "accessibility".

(** [calculateAccessibilityScoreFromIssues(issues)] *)
Definition calculateAccessibilityScoreFromIssues (issues : list HtmlAnalyzer.Issue.t) : Z :=
  let score :=
    fold_left
      (fun score issue =>
         if isAccessibilityIssue (HtmlAnalyzer.Issue.title issue) then
           match HtmlAnalyzer.Issue.severity issue with
           | high => score - 15
           | medium => score - 8
           | low => score - 3
           end
         else score)
      issues 100 in
  let score := if score =? 100 then 90 else score in
  Z.max 0 (Z.min 100 score).

End SeoAnalyzer.

(* ================================================================== *)
(** ** The element analysis view (the component [ElementAnalysisView]) *)
(* ================================================================== *)

Module View.

(** [c.toUpperCase()] for one code unit: [a-z] and the Latin-1 small
    letters [U+00E0..U+00FE] without the division sign [U+00F7] move
    down by 32, and [U+00DF] becomes [SS].  The upper case of [U+00B5]
    and of [U+00FF] lies outside the code units 0..255; these two are
    kept. *)
Definition upperChar (c : ascii) : string :=
  let n := nat_of_ascii c in
  if ((97 <=? n) && (n <=? 122))%nat then String (ascii_of_nat (n - 32)) EmptyString
  else if ((224 <=? n) && (n <=? 254) && negb (n =? 247))%nat
       then String (ascii_of_nat (n - 32)) EmptyString
  else if (n =? 223)%nat then "SS"
  else String c EmptyString.

(** The view's own [capitalizeFirstLetter]. *)
Definition capitalizeFirstLetter (s : string) : string :=
  match s with
  | EmptyString => EmptyString
  | String c rest =>
      if String.eqb s "header" then "Header"
      else if String.eqb s "navigation" then "Navigation"
      else if String.eqb s "content" then "Main Content"
      else if String.eqb s "sidebar" then "Sidebar"
      else if String.eqb s "footer" then "Footer"
      else (upperChar c ++ rest)%string
  end.

(** [displayedIssues], for the section selected in the view. *)
Definition displayedIssues (analysisResult : ElementAnalysis.ElementAnalysisResult)
           (selectedSection : string) : list ElementAnalysis.ElementIssue :=
  if String.eqb selectedSection "all"
  then ElementAnalysis.elementIssues analysisResult
  else filter (fun issue =>
                 String.eqb (capitalizeFirstLetter (ElementAnalysis.section issue))
                            selectedSection)
              (ElementAnalysis.elementIssues analysisResult).

Definition getScoreColorClass (score : Z) : string :=
  if score >=? 90 then "bg-green-500 text-white"
  else if score >=? 70 then "bg-yellow-500 text-white"
  else if score >=? 50 then "bg-orange-500 text-white"
  else "bg-red-500 text-white".

Definition getHeatmapColor (analysisResult : ElementAnalysis.ElementAnalysisResult)
           (sectionName : string) : string :=
  match find (fun s => String.eqb (ElementAnalysis.name s) sectionName)
             (ElementAnalysis.sectionAnalysis analysisResult) with
  | None => "bg-green-100"
  | Some section =>
      if ElementAnalysis.score section >=? 90 then "bg-green-100"
      else if ElementAnalysis.score section >=? 70 then "bg-yellow-100"
      else if ElementAnalysis.score section >=? 50 then "bg-orange-100"
      else "bg-red-100"
  end.

(** [i.severity === s] *)
Definition severityIs (s : Severity) (i : ElementAnalysis.ElementIssue) : bool :=
  match ElementAnalysis.severity i, s with
  | high, high | medium, medium | low, low => true
  | _, _ => false
  end.

(** [s.replace(/, $/, '')]: a final [", "] is removed. *)
Fixpoint dropFinalComma (s : string) : string :=
  match s with
  | EmptyString => EmptyString
  | String c rest =>
      if String.eqb s ", " then EmptyString else String c (dropFinalComma rest)
  end.

Definition getIssueCountText (analysisResult : ElementAnalysis.ElementAnalysisResult)
           (sectionName : string) : string :=
  match find (fun s => String.eqb (ElementAnalysis.name s) sectionName)
             (ElementAnalysis.sectionAnalysis analysisResult) with
  | None => "No issues"
  | Some section =>
      let highCount := count (filter (severityIs high) (ElementAnalysis.issues section)) in
      let mediumCount := count (filter (severityIs medium) (ElementAnalysis.issues section)) in
      let lowCount := count (filter (severityIs low) (ElementAnalysis.issues section)) in
      if highCount + mediumCount + lowCount =? 0 then "No issues"
      else
        dropFinalComma
          ((if highCount >? 0 then JS.ofInt highCount ++ " high, " else EmptyString) ++
           (if mediumCount >? 0 then JS.ofInt mediumCount ++ " medium, " else EmptyString) ++
           (if lowCount >? 0 then JS.ofInt lowCount ++ " low" else EmptyString))%string
  end.

End View.

(** What the further properties speak about. *)
Module Observations.

(** The number of issues of a severity. *)
Definition severityCount (s : Severity) (issues : list HtmlAnalyzer.Issue.t) : Z :=
  count (filter (fun i => match HtmlAnalyzer.Issue.severity i, s with
                          | high, high | medium, medium | low, low => true
                          | _, _ => false
                          end) issues).

(** The severity and the title of each issue, without the ids. *)
Definition findings (r : HtmlAnalyzer.HtmlAnalysisResult) : list DocumentRules.Finding :=
  map (fun i => (HtmlAnalyzer.Issue.severity i, HtmlAnalyzer.Issue.title i))
      (HtmlAnalyzer.issues r).

(** An [href] that starts with neither [#] nor [/]. *)
Definition reachesUrl (h : string) : bool :=
  negb (JS.startsWith h "#" || JS.startsWith h "/").

Definition lacksAlt (img : Dom.Element) : bool := negb (Dom.hasAttribute img "alt").

(** The level of a heading element, by its name. *)
Definition headingLevel (e : Dom.Element) : Z :=
  if String.eqb (Dom.localName e) "h1" then 1
  else if String.eqb (Dom.localName e) "h2" then 2
  else if String.eqb (Dom.localName e) "h3" then 3
  else if String.eqb (Dom.localName e) "h4" then 4
  else if String.eqb (Dom.localName e) "h5" then 5
  else if String.eqb (Dom.localName e) "h6" then 6
  else 0.

(** The jumps in a sequence of heading levels: the pairs of consecutive
    levels whose second is more than one above the first.  [previous]
    is the level before the sequence, 0 when there is none. *)
Fixpoint jumpsFrom (previous : Z) (levels : list Z) : list (Z * Z) :=
  match levels with
  | [] => []
  | level :: rest =>
      (if (0 <? previous) && (previous + 1 <? level) then [(previous, level)] else [])
      ++ jumpsFrom level rest
  end.

Definition jumpText (j : Z * Z) : string :=
  ("Skipped heading level (H" ++ JS.ofInt (fst j) ++ " to H" ++ JS.ofInt (snd j) ++ ")")%string.

Definition isSkipped (i : ElementAnalysis.ElementIssue) : bool :=
  JS.startsWith (ElementAnalysis.issue i) "Skipped heading level".

Definition isMissingH1 (i : ElementAnalysis.ElementIssue) : bool :=
  String.eqb (ElementAnalysis.issue i) "Missing H1 heading".

Definition isImageIssue (i : ElementAnalysis.ElementIssue) : bool :=
  String.eqb (ElementAnalysis.element i) "Image".

Definition isTitleIssue (i : ElementAnalysis.ElementIssue) : bool :=
  String.eqb (ElementAnalysis.element i) "Title".

(** What an issue of a severity takes off the SEO score. *)
Definition seoCharge (f : DocumentRules.Finding) : Z :=
  match fst f with high => 10 | medium => 5 | low => 2 end.

Fixpoint seoCharges (fs : list DocumentRules.Finding) : Z :=
  match fs with
  | [] => 0
  | f :: rest => seoCharge f + seoCharges rest
  end.

(** What an issue takes off the accessibility score. *)
Definition accessibilityCharge (f : DocumentRules.Finding) : Z :=
  if SeoAnalyzer.isAccessibilityIssue (snd f)
  then match fst f with high => 15 | medium => 8 | low => 3 end
  else 0.

Fixpoint accessibilityCharges (fs : list DocumentRules.Finding) : Z :=
  match fs with
  | [] => 0
  | f :: rest => accessibilityCharge f + accessibilityCharges rest
  end.

Definition findingOf (i : HtmlAnalyzer.Issue.t) : DocumentRules.Finding :=
  (HtmlAnalyzer.Issue.severity i, HtmlAnalyzer.Issue.title i).

(** No white space at the start. *)
Definition startsClean (s : string) : bool :=
  match s with
  | EmptyString => true
  | String c _ => negb (JS.isWhiteSpace c)
  end.

(** The text the element analysis reads off the title element. *)
Definition titleText (title : option Dom.Element) : string :=
  match title with Some t => Dom.textContent t | None => EmptyString end.

Definition isLinkIssue (i : ElementAnalysis.ElementIssue) : bool :=
  String.eqb (ElementAnalysis.element i) "Link".

(** The six values of the field [section]. *)
Definition knownName (s : string) : bool :=
  String.eqb s "header" || String.eqb s "navigation" || String.eqb s "content" ||
  String.eqb s "sidebar" || String.eqb s "footer" || String.eqb s "general".

Definition unknownSection (i : ElementAnalysis.ElementIssue) : bool :=
  negb (knownName (ElementAnalysis.section i)).

(** The parts of the text of [getIssueCountText], for the counts that
    are not zero. *)
Definition countParts (highCount mediumCount lowCount : Z) : list string :=
  (if 0 <? highCount then [(JS.ofInt highCount ++ " high")%string] else []) ++
  (if 0 <? mediumCount then [(JS.ofInt mediumCount ++ " medium")%string] else []) ++
  (if 0 <? lowCount then [(JS.ofInt lowCount ++ " low")%string] else []).

End Observations.

(** The elements on which the element analysis raises an issue, and how
    an issue is tied to the element it is about. *)
Module Attribution.
Import ElementAnalysis.

(** A link whose text is empty or white space, or is "click here" or
    "read more" in any case. *)
Definition poorLinkText (link : Dom.Element) : bool :=
  let text := JS.trim (Dom.textContent link) in
  String.eqb text EmptyString ||
  String.eqb (JS.toLowerCase text) "click here" ||
  String.eqb (JS.toLowerCase text) "read more".

Definition longParagraph (p : Dom.Element) : bool :=
  300 <? JS.length (Dom.textContent p).

(** The headings of a sequence whose level is more than one above the
    level of the heading just before; [previous] is the level before
    the sequence, 0 when there is none. *)
Fixpoint jumpers (previous : Z) (headings : list Dom.Element) : list Dom.Element :=
  match headings with
  | [] => []
  | h :: rest =>
      (if (0 <? previous) && (previous + 1 <? Observations.headingLevel h) then [h] else [])
      ++ jumpers (Observations.headingLevel h) rest
  end.

Definition isParagraphIssue (i : ElementIssue) : bool :=
  String.eqb (element i) "Paragraph".

(** The issues of a kind, in the order in which they were raised. *)
Definition raised (kind : ElementIssue -> bool) (r : ElementAnalysisResult) : list ElementIssue :=
  filter kind (elementIssues r).

(** Element by element, the issue names the element by its selector
    and carries the section of the element. *)
Definition Attributed (d : Dom.Document)
           (elements : list Dom.Element) (found : list ElementIssue) : Prop :=
  Forall2 (fun e i => selector i = getSelector e /\
                      Regions.SectionOf d e (section i))
          elements found.

(** An element raises at most one issue of a kind, which names it and
    carries the section the loop over [sections] gives it. *)
Definition Own (secs : list (string * option Dom.Element))
           (e : Dom.Element) (test : bool) (news : list ElementIssue) : Prop :=
  if test
  then exists i, news = [i] /\ selector i = getSelector e /\
                 section i = determineSectionForElement e secs
  else news = [].

(** The issues that are about the document and not about one of the
    elements found by a query: those on the title, on the meta
    description and on the missing H1. *)
Definition aboutDocument (i : ElementIssue) : bool :=
  Observations.isTitleIssue i || Trace.isMetaIssue i || Observations.isMissingH1 i.

Definition aboutElement (i : ElementIssue) : bool :=
  Observations.isImageIssue i || Trace.isMultipleH1 i || Observations.isSkipped i ||
  Observations.isLinkIssue i || isParagraphIssue i.

(** The issues filed under a section. *)
Definition filed (key : string) (r : ElementAnalysisResult) : list ElementIssue :=
  filter (fun i => String.eqb (section i) key) (elementIssues r).

End Attribution.

(** The issues one source of the element analysis adds, condition by
    condition. *)
Ltac by_cases_of_a_check :=
  intros;
  unfold Trace.titleNews, Trace.metaNews, Trace.imageNews, Trace.linkNews,
    Trace.paragraphNews, Trace.missingH1News, Trace.headingStep, Trace.startAt,
    ElementAnalysis.checkTitle, ElementAnalysis.checkMetaDescription,
    ElementAnalysis.checkImage, ElementAnalysis.checkLink,
    ElementAnalysis.checkParagraph, ElementAnalysis.checkMissingH1,
    ElementAnalysis.checkHeading;
  cbn [ElementAnalysis.result ElementAnalysis.h1Count
       ElementAnalysis.previousHeadingLevel];
  repeat match goal with
         | |- context [if ?c then _ else _] => destruct c
         end;
  try reflexivity.

(** Case analysis on every condition of a check. *)
Ltac split_conditions :=
  repeat match goal with
         | |- context [if ?c then _ else _] => destruct c
         end.

(* ================================================================== *)
(** ** The element analysis is the replay of its issue list            *)
(* ================================================================== *)

Module TraceFacts.
Import ElementAnalysis Trace.

Lemma replay_app (a b : list ElementIssue) (st : ElementAnalysisResult) :
  replay (a ++ b) st = replay b (replay a st).
Proof. unfold replay. apply fold_left_app. Qed.

Lemma tally_record (a t : Z) (st : ElementAnalysisResult) (i : ElementIssue) :
  tally a t (recordIssue st i) = recordIssue (tally a t st) i.
Proof. reflexivity. Qed.

Lemma tally_replay (a t : Z) (news : list ElementIssue) (st : ElementAnalysisResult) :
  tally a t (replay news st) = replay news (tally a t st).
Proof.
  revert st. induction news as [|i news IH]; intros st; [reflexivity|].
  simpl. rewrite IH, tally_record. reflexivity.
Qed.

Lemma tally_tally (a t a' t' : Z) (st : ElementAnalysisResult) :
  tally a t (tally a' t' st) = tally (a' + a) (t' + t) st.
Proof. unfold tally; simpl. f_equal; lia. Qed.

Lemma tally_zero (st : ElementAnalysisResult) : tally 0 0 st = st.
Proof. destruct st; unfold tally; simpl. f_equal; lia. Qed.

Lemma checkTitle_replay (title : option Dom.Element) (st : ElementAnalysisResult) :
  checkTitle title st = replay (titleNews title) (tally 1 1 st).
Proof.
  unfold titleNews, checkTitle.
  destruct (JS.falsy _); [reflexivity|].
  destruct (_ <? 20); [reflexivity|].
  destruct (_ >? 60); reflexivity.
Qed.

Lemma checkMetaDescription_replay (meta : option Dom.Element) (st : ElementAnalysisResult) :
  checkMetaDescription meta st = replay (metaNews meta) (tally 1 1 st).
Proof.
  unfold metaNews, checkMetaDescription.
  destruct (JS.falsy _); [reflexivity|].
  destruct (_ <? 70); [reflexivity|].
  destruct (_ >? 160); reflexivity.
Qed.

Section Walk.
Variable secs : list (string * option Dom.Element).

Lemma checkImage_replay (st : ElementAnalysisResult) (img : Dom.Element) :
  checkImage secs st img = replay (imageNews secs img) (tally 1 0 st).
Proof.
  unfold imageNews, checkImage.
  destruct (negb _); reflexivity.
Qed.

Lemma checkLink_replay (st : ElementAnalysisResult) (link : Dom.Element) :
  checkLink secs st link = replay (linkNews secs link) (tally 1 0 st).
Proof.
  unfold linkNews, checkLink.
  destruct (_ || _); [|reflexivity].
  destruct (JS.falsy _); reflexivity.
Qed.

Lemma checkParagraph_replay (st : ElementAnalysisResult) (p : Dom.Element) :
  checkParagraph secs st p = replay (paragraphNews secs p) (tally 1 0 st).
Proof.
  unfold paragraphNews, checkParagraph.
  destruct (_ && _); reflexivity.
Qed.

Lemma checkMissingH1_replay (w : HeadingWalk) :
  checkMissingH1 w = replay (missingH1News (h1Count w)) (result w).
Proof.
  unfold missingH1News, checkMissingH1, startAt; simpl.
  destruct (_ =? 0); reflexivity.
Qed.

Lemma count_cons {A : Type} (x : A) (l : list A) : count (x :: l) = 1 + count l.
Proof. unfold count. simpl List.length. lia. Qed.

(** A [forEach] whose step replays its own issues replays the issues
    of all its steps. *)
Lemma forEach_replay (step : ElementAnalysisResult -> Dom.Element -> ElementAnalysisResult)
      (news : Dom.Element -> list ElementIssue)
      (Hstep : forall st x, step st x = replay (news x) (tally 1 0 st))
      (l : list Dom.Element) (st : ElementAnalysisResult) :
  fold_left step l st = replay (flat_map news l) (tally (count l) 0 st).
Proof.
  revert st. induction l as [|x l IH]; intros st.
  - simpl. symmetry. apply tally_zero.
  - simpl fold_left. rewrite IH, Hstep. simpl flat_map.
    rewrite replay_app, tally_replay, tally_tally, count_cons.
    reflexivity.
Qed.

Lemma checkHeading_replay (w : HeadingWalk) (heading : Dom.Element) :
  let w' := headingStep secs (h1Count w) (previousHeadingLevel w) heading in
  checkHeading secs w heading =
  {| result := replay (elementIssues (result w')) (tally 1 0 (result w));
     h1Count := h1Count w';
     previousHeadingLevel := previousHeadingLevel w' |}.
Proof.
  unfold headingStep, checkHeading, startAt; simpl.
  destruct (JS.strictEq _ 1 && _); destruct (JS.gt _ _ && _); reflexivity.
Qed.

Lemma headings_replay (headings : list Dom.Element) (w : HeadingWalk) :
  fold_left (checkHeading secs) headings w =
  {| result :=
       replay (headingNews secs (h1Count w) (previousHeadingLevel w) headings)
              (tally (count headings) 0 (result w));
     h1Count := h1After secs (h1Count w) (previousHeadingLevel w) headings;
     previousHeadingLevel :=
       previousHeadingLevel (fold_left (checkHeading secs) headings w) |}.
Proof.
  revert w. induction headings as [|h l IH]; intros w.
  - simpl. rewrite tally_zero. destruct w; reflexivity.
  - simpl fold_left. rewrite IH. rewrite (checkHeading_replay w h).
    cbv zeta. simpl result. simpl h1Count. simpl previousHeadingLevel.
    simpl headingNews. simpl h1After.
    rewrite replay_app, tally_replay, tally_tally, count_cons.
    reflexivity.
Qed.
End Walk.

Lemma replay_issues (news : list ElementIssue) (st : ElementAnalysisResult) :
  elementIssues (replay news st) = elementIssues st ++ news.
Proof.
  revert st. induction news as [|i news IH]; intros st; simpl.
  - symmetry. apply app_nil_r.
  - rewrite IH. simpl. rewrite <- app_assoc. reflexivity.
Qed.

Lemma replay_sections (news : list ElementIssue) (st : ElementAnalysisResult) :
  sectionAnalysis (replay news st) = fold_left charge news (sectionAnalysis st).
Proof.
  revert st. induction news as [|i news IH]; intros st; simpl; [reflexivity|].
  rewrite IH. reflexivity.
Qed.

Lemma replay_counters (news : list ElementIssue) (st : ElementAnalysisResult) :
  analyzedElements (replay news st) = analyzedElements st /\
  totalElements (replay news st) = totalElements st /\
  url (replay news st) = url st.
Proof.
  revert st. induction news as [|i news IH]; intros st; simpl; [auto|].
  destruct (IH (recordIssue st i)) as (-> & -> & ->). auto.
Qed.

(** The analysis of a document, before the clamp, is the replay of
    [walkNews] on the fresh state, with every visited element counted
    once in each counter. *)
Lemma walkDocument_replay (d : Dom.Document) (u : string) :
  walkDocument d u = replay (walkNews d) (tally (visited d) (visited d) (fresh u)).
Proof.
  unfold walkDocument, walkNews, visited.
  fold (fresh u). fold linkSelector.
  set (secs := sections d).
  rewrite checkTitle_replay, checkMetaDescription_replay.
  rewrite (forEach_replay (checkImage secs) (imageNews secs) (checkImage_replay secs)).
  rewrite headings_replay. rewrite checkMissingH1_replay.
  simpl result. simpl h1Count. simpl previousHeadingLevel.
  rewrite (forEach_replay (checkLink secs) (linkNews secs) (checkLink_replay secs)).
  rewrite (forEach_replay (checkParagraph secs) (paragraphNews secs) (checkParagraph_replay secs)).
  repeat rewrite ?tally_replay, ?tally_tally.
  repeat rewrite replay_app.
  repeat apply (f_equal (replay _)).
  f_equal; lia.
Qed.

(** *** The section records as a function of the issue list *)

Lemma total_app (a b : list ElementIssue) :
  Penalties.total (a ++ b) = Penalties.total a + Penalties.total b.
Proof. induction a as [|i a IH]; simpl; [reflexivity|]. rewrite IH. lia. Qed.

Lemma settle_nil (s : SectionAnalysis) : settle [] s = s.
Proof.
  destruct s; unfold settle; simpl. rewrite app_nil_r. f_equal. lia.
Qed.

Lemma settle_settle (a b : list ElementIssue) (s : SectionAnalysis) :
  settle b (settle a s) = settle (a ++ b) s.
Proof.
  unfold settle; simpl. rewrite filter_app, total_app, app_assoc.
  f_equal. lia.
Qed.

Lemma settle_other (i : ElementIssue) (s : SectionAnalysis) :
  String.eqb (name s) (capitalizeFirstLetter (section i)) = false ->
  settle [i] s = s.
Proof.
  intros H. unfold settle, sameSection; simpl.
  rewrite String.eqb_sym, H. apply settle_nil.
Qed.

Lemma name_settle (news : list ElementIssue) (rs : list SectionAnalysis) :
  map name (map (settle news) rs) = map name rs.
Proof. rewrite map_map. reflexivity. Qed.

Lemma charge_settle (i : ElementIssue) (rs : list SectionAnalysis) :
  NoDup (map name rs) -> charge rs i = map (settle [i]) rs.
Proof.
  unfold charge. induction rs as [|s rs IH]; intros Hnd; [reflexivity|].
  simpl in Hnd. inversion Hnd as [|? ? Hnotin Hnd']; subst.
  simpl. destruct (String.eqb (name s) _) eqn:E.
  - f_equal.
    + unfold settle, sameSection; simpl. rewrite String.eqb_sym, E.
      simpl. f_equal. lia.
    + apply String.eqb_eq in E.
      rewrite <- (map_id rs) at 1. apply map_ext_in.
      intros s' Hin. symmetry. apply settle_other.
      apply String.eqb_neq. intros Heq. apply Hnotin.
      rewrite E, <- Heq. apply in_map, Hin.
  - rewrite settle_other by exact E. f_equal. apply IH, Hnd'.
Qed.

Lemma charges_settle (news : list ElementIssue) (rs : list SectionAnalysis) :
  NoDup (map name rs) -> fold_left charge news rs = map (settle news) rs.
Proof.
  revert rs. induction news as [|i news IH]; intros rs Hnd.
  - simpl. rewrite <- (map_id rs) at 1. apply map_ext. intros s.
    symmetry. apply settle_nil.
  - simpl fold_left. rewrite charge_settle by exact Hnd.
    rewrite IH by (rewrite name_settle; exact Hnd).
    rewrite map_map. apply map_ext. intros s. apply settle_settle.
Qed.

Lemma sectionNames_NoDup : NoDup sectionNames.
Proof.
  unfold sectionNames; simpl.
  repeat (constructor; [simpl; intuition discriminate|]). constructor.
Qed.

Lemma walkDocument_issues (d : Dom.Document) (u : string) :
  elementIssues (walkDocument d u) = walkNews d.
Proof. rewrite walkDocument_replay, replay_issues. reflexivity. Qed.

Lemma walkDocument_sections (d : Dom.Document) (u : string) :
  sectionAnalysis (walkDocument d u) = map (settle (walkNews d)) initialSections.
Proof.
  rewrite walkDocument_replay, replay_sections. simpl sectionAnalysis.
  apply charges_settle, sectionNames_NoDup.
Qed.

Lemma walkDocument_counters (d : Dom.Document) (u : string) :
  analyzedElements (walkDocument d u) = visited d /\
  totalElements (walkDocument d u) = visited d.
Proof.
  rewrite walkDocument_replay.
  destruct (replay_counters (walkNews d) (tally (visited d) (visited d) (fresh u)))
    as (-> & -> & _).
  simpl. split; lia.
Qed.

Lemma clamp_range (s : SectionAnalysis) : 0 <= score (clamp s) <= 100.
Proof. unfold clamp; cbn [score]. lia. Qed.

(** *** Every issue belongs to one record *)

Lemma capitalize_named (x : string) :
  existsb (String.eqb (capitalizeFirstLetter x)) sectionNames = true.
Proof.
  unfold capitalizeFirstLetter.
  repeat match goal with
         | |- context [if ?c then _ else _] => destruct c; [reflexivity|]
         end.
  reflexivity.
Qed.

Lemma filter_none {A : Type} (l : list A) : filter (fun _ => false) l = [].
Proof. induction l; simpl; auto. Qed.

Lemma filter_all {A : Type} (p : A -> bool) (l : list A) :
  (forall x, p x = true) -> filter p l = l.
Proof.
  intros H. induction l as [|x l IH]; simpl; [reflexivity|].
  rewrite H, IH. reflexivity.
Qed.

Lemma filter_disjoint {A : Type} (p q : A -> bool) (l : list A) :
  (forall x, p x = true -> q x = false) ->
  Permutation (filter p l ++ filter q l) (filter (fun x => p x || q x) l).
Proof.
  intros H. induction l as [|x l IH]; simpl; [constructor|].
  destruct (p x) eqn:Ep; simpl.
  - rewrite (H x Ep). constructor. exact IH.
  - destruct (q x); simpl; [|exact IH].
    apply Permutation_sym, Permutation_cons_app, Permutation_sym, IH.
Qed.

Lemma issues_by_section (names : list string) (news : list ElementIssue) :
  NoDup names ->
  Permutation
    (List.concat (map (fun n => filter (sameSection n) news) names))
    (filter (fun i => existsb (String.eqb (capitalizeFirstLetter (section i))) names) news).
Proof.
  induction names as [|n names IH]; intros Hnd; simpl.
  - rewrite filter_none. constructor.
  - inversion Hnd as [|? ? Hnotin Hnd']; subst.
    eapply Permutation_trans.
    + apply Permutation_app_head, IH, Hnd'.
    + apply (filter_disjoint (sameSection n)).
      intros i Hi. unfold sameSection in Hi. apply String.eqb_eq in Hi.
      rewrite Hi. destruct (existsb _ names) eqn:E; [|reflexivity].
      apply existsb_exists in E. destruct E as (m & Hin & Hm).
      apply String.eqb_eq in Hm. subst m. contradiction.
Qed.
End TraceFacts.

(* ================================================================== *)
(** ** Properties of the element analyzer                              *)
(* ================================================================== *)

(** C3.  For every input, [analyzePageElements] returns the six section
    records Header, Navigation, Main Content, Sidebar, Footer and
    General, in this order and with the importance weights 8, 7, 10, 5,
    4 and 6; every score lies between 0 and 100; and [analyzedElements]
    equals [totalElements], both being 2 (title and meta description)
    plus the number of images, headings, links and paragraphs found. *)
Theorem C3_six_records_scores_and_counters
        (JSDOM : string -> Dom.Document) (htmlContent url : string) :
  let r := ElementAnalysis.analyzePageElements JSDOM htmlContent url in
  let d := JSDOM htmlContent in
  map (fun s => (ElementAnalysis.name s, ElementAnalysis.importance s))
      (ElementAnalysis.sectionAnalysis r)
  = [("Header", 8); ("Navigation", 7); ("Main Content", 10);
     ("Sidebar", 5); ("Footer", 4); ("General", 6)]
  /\ Forall (fun s => 0 <= ElementAnalysis.score s <= 100)
            (ElementAnalysis.sectionAnalysis r)
  /\ ElementAnalysis.analyzedElements r = ElementAnalysis.totalElements r
  /\ ElementAnalysis.totalElements r
     = 2 + count (Dom.querySelectorAll d (Dom.tag "img"))
         + count (Dom.querySelectorAll d HtmlAnalyzer.headingSelector)
         + count (Dom.querySelectorAll d
                    (Dom.sel [Dom.Tag "a"; Dom.Attr (Dom.HasAttr "href")]))
         + count (Dom.querySelectorAll d (Dom.tag "p")).
Proof.
  intros r d. subst r d.
  unfold ElementAnalysis.analyzePageElements, ElementAnalysis.analyzeElements.
  destruct (TraceFacts.walkDocument_counters (JSDOM htmlContent) url) as [Ha Ht].
  unfold ElementAnalysis.clampAll.
  cbn [ElementAnalysis.sectionAnalysis ElementAnalysis.analyzedElements
       ElementAnalysis.totalElements].
  rewrite TraceFacts.walkDocument_sections, Ha, Ht.
  split; [reflexivity|]. split.
  - unfold ElementAnalysis.initialSections.
    cbn [map].
    repeat (constructor; [apply TraceFacts.clamp_range|]). constructor.
  - split; [reflexivity|]. unfold Trace.visited, Trace.linkSelector. lia.
Qed.

(* ================================================================== *)
(** ** Where the issues of one kind come from                          *)
(* ================================================================== *)

Module NewsFacts.
Import ElementAnalysis Trace.

Lemma filter_flat_map_nil {A B : Type} (p : B -> bool) (f : A -> list B) (l : list A) :
  (forall x, filter p (f x) = []) -> filter p (flat_map f l) = [].
Proof.
  intros H. induction l as [|x l IH]; simpl; [reflexivity|].
  rewrite filter_app, H, IH. reflexivity.
Qed.

Lemma filter_filter {A : Type} (p q : A -> bool) (l : list A) :
  filter p (filter q l) = filter (fun x => q x && p x) l.
Proof.
  induction l as [|x l IH]; simpl; [reflexivity|].
  destruct (q x); simpl; [destruct (p x)|]; rewrite IH; reflexivity.
Qed.

Lemma filter_same {A : Type} (p q : A -> bool) (l : list A) :
  (forall x, p x = q x) -> filter p l = filter q l.
Proof. intros H. apply filter_ext. exact H. Qed.

Section Kinds.
Variable secs : list (string * option Dom.Element).

(** Issues about the meta description come from its own check only. *)
Lemma titleNews_no_meta t : filter isMetaIssue (titleNews t) = [].
Proof. unfold titleNews, checkTitle. split_conditions; reflexivity. Qed.

Lemma imageNews_no_meta img : filter isMetaIssue (imageNews secs img) = [].
Proof. unfold imageNews, checkImage. split_conditions; reflexivity. Qed.

Lemma linkNews_no_meta link : filter isMetaIssue (linkNews secs link) = [].
Proof. unfold linkNews, checkLink. split_conditions; reflexivity. Qed.

Lemma paragraphNews_no_meta p : filter isMetaIssue (paragraphNews secs p) = [].
Proof. unfold paragraphNews, checkParagraph. split_conditions; reflexivity. Qed.

Lemma missingH1News_no_meta h1 : filter isMetaIssue (missingH1News h1) = [].
Proof. unfold missingH1News, checkMissingH1; simpl. split_conditions; reflexivity. Qed.

Lemma headingStep_no_meta c p h :
  filter isMetaIssue (elementIssues (result (headingStep secs c p h))) = [].
Proof.
  unfold headingStep, checkHeading, startAt; simpl.
  split_conditions; reflexivity.
Qed.

Lemma headingNews_cons c p h hs :
  headingNews secs c p (h :: hs)
  = elementIssues (result (headingStep secs c p h)) ++
    headingNews secs (h1Count (headingStep secs c p h))
                (previousHeadingLevel (headingStep secs c p h)) hs.
Proof. reflexivity. Qed.

Lemma headingNews_no_meta hs : forall c p,
  filter isMetaIssue (headingNews secs c p hs) = [].
Proof.
  induction hs as [|h hs IH]; intros c p; [reflexivity|].
  rewrite headingNews_cons, filter_app, headingStep_no_meta, IH. reflexivity.
Qed.

Lemma metaNews_all_meta m : filter isMetaIssue (metaNews m) = metaNews m.
Proof. unfold metaNews, checkMetaDescription. split_conditions; reflexivity. Qed.

(** "Multiple H1 headings" comes from the pass over the headings only. *)
Lemma titleNews_no_multiple t : filter isMultipleH1 (titleNews t) = [].
Proof. unfold titleNews, checkTitle. split_conditions; reflexivity. Qed.

Lemma metaNews_no_multiple m : filter isMultipleH1 (metaNews m) = [].
Proof. unfold metaNews, checkMetaDescription. split_conditions; reflexivity. Qed.

Lemma imageNews_no_multiple img : filter isMultipleH1 (imageNews secs img) = [].
Proof. unfold imageNews, checkImage. split_conditions; reflexivity. Qed.

Lemma linkNews_no_multiple link : filter isMultipleH1 (linkNews secs link) = [].
Proof. unfold linkNews, checkLink. split_conditions; reflexivity. Qed.

Lemma paragraphNews_no_multiple p : filter isMultipleH1 (paragraphNews secs p) = [].
Proof. unfold paragraphNews, checkParagraph. split_conditions; reflexivity. Qed.

Lemma missingH1News_no_multiple h1 : filter isMultipleH1 (missingH1News h1) = [].
Proof. unfold missingH1News, checkMissingH1; simpl. split_conditions; reflexivity. Qed.

(** One step of the pass: an H1 raises the issue unless it is the first
    one, and is counted. *)
Lemma headingStep_multiple c p h :
  filter isMultipleH1 (elementIssues (result (headingStep secs c p h)))
  = (if isLevel1 h && (1 <=? c) then [multipleH1Issue secs h] else [])
  /\ h1Count (headingStep secs c p h) = (if isLevel1 h then c + 1 else c).
Proof.
  unfold headingStep, checkHeading, startAt, isLevel1; simpl.
  destruct (JS.strictEq _ 1); simpl.
  - replace (c + 1 >? 1) with (1 <=? c) by lia.
    split; [|reflexivity].
    destruct (1 <=? c); destruct (JS.gt p (JS.Num 0) && _); reflexivity.
  - split; [|reflexivity].
    destruct (JS.gt p (JS.Num 0) && _); reflexivity.
Qed.

Lemma headingNews_multiple hs : forall c p,
  0 <= c ->
  filter isMultipleH1 (headingNews secs c p hs)
  = map (multipleH1Issue secs)
        (if 1 <=? c then filter isLevel1 hs else tl (filter isLevel1 hs)).
Proof.
  induction hs as [|h hs IH]; intros c p Hc.
  - simpl. destruct (1 <=? c); reflexivity.
  - rewrite headingNews_cons, filter_app.
    destruct (headingStep_multiple c p h) as [-> Hcount].
    rewrite IH by (rewrite Hcount; destruct (isLevel1 h); lia).
    rewrite Hcount. simpl filter.
    destruct (isLevel1 h) eqn:El; simpl.
    + replace (1 <=? c + 1) with true by lia.
      destruct (1 <=? c); reflexivity.
    + reflexivity.
Qed.
End Kinds.

(** Among the headings, the level read off [tagName] is 1 exactly for
    the elements [h1]. *)
Lemma level1_is_h1 (e : Dom.Element) :
  Dom.matches e HtmlAnalyzer.headingSelector = true ->
  isLevel1 e = Dom.matches e (Dom.tag "h1").
Proof.
  destruct e as [p n attrs cs].
  unfold Dom.matches, HtmlAnalyzer.headingSelector, isLevel1, Dom.tagName; simpl.
  intros H.
  repeat match type of H with
         | (?a && true || ?rest) = true =>
             let E := fresh "E" in
             destruct a eqn:E;
             [ apply String.eqb_eq in E; subst n; reflexivity | simpl in H ]
         end.
  discriminate H.
Qed.

Lemma h1_is_heading (e : Dom.Element) :
  Dom.matches e (Dom.tag "h1") = true ->
  Dom.matches e HtmlAnalyzer.headingSelector = true.
Proof.
  unfold Dom.matches, HtmlAnalyzer.headingSelector; simpl.
  intros H. destruct (String.eqb (Dom.localName e) "h1"); [reflexivity|discriminate H].
Qed.

Lemma level1_headings (d : Dom.Document) :
  filter isLevel1 (Dom.querySelectorAll d HtmlAnalyzer.headingSelector)
  = Dom.querySelectorAll d (Dom.tag "h1").
Proof.
  unfold Dom.querySelectorAll. rewrite filter_filter.
  apply filter_ext. intros e.
  destruct (Dom.matches e HtmlAnalyzer.headingSelector) eqn:E; cbn [andb].
  - apply level1_is_h1, E.
  - destruct (Dom.matches e (Dom.tag "h1")) eqn:E1; [|reflexivity].
    apply h1_is_heading in E1. congruence.
Qed.

(** The issues about the meta description, and the issues "Multiple H1
    headings", of a whole analysis. *)
Lemma walkNews_meta (d : Dom.Document) :
  filter isMetaIssue (walkNews d)
  = metaNews (Dom.querySelector d (Dom.tagAttrIs "meta" "name" "description")).
Proof.
  unfold walkNews. repeat rewrite filter_app.
  rewrite titleNews_no_meta, metaNews_all_meta, headingNews_no_meta, missingH1News_no_meta.
  rewrite !filter_flat_map_nil
    by (intros; first [apply imageNews_no_meta | apply linkNews_no_meta
                      | apply paragraphNews_no_meta]).
  simpl. apply app_nil_r.
Qed.

Lemma walkNews_multiple (d : Dom.Document) :
  filter isMultipleH1 (walkNews d)
  = map (multipleH1Issue (sections d)) (tl (Dom.querySelectorAll d (Dom.tag "h1"))).
Proof.
  unfold walkNews. repeat rewrite filter_app.
  rewrite titleNews_no_multiple, metaNews_no_multiple, missingH1News_no_multiple.
  rewrite !filter_flat_map_nil
    by (intros; first [apply imageNews_no_multiple | apply linkNews_no_multiple
                      | apply paragraphNews_no_multiple]).
  rewrite headingNews_multiple by lia.
  simpl. rewrite app_nil_r, level1_headings. reflexivity.
Qed.

End NewsFacts.

(** *** The records of a finished analysis *)

Module RecordFacts.
Import ElementAnalysis Trace.

Lemma analyzeElements_issues (d : Dom.Document) (u : string) :
  elementIssues (analyzeElements d u) = walkNews d.
Proof. unfold analyzeElements, clampAll; cbn [elementIssues]. apply TraceFacts.walkDocument_issues. Qed.

Lemma analyzeElements_sections (d : Dom.Document) (u : string) :
  sectionAnalysis (analyzeElements d u)
  = map clamp (map (settle (walkNews d)) initialSections).
Proof.
  unfold analyzeElements, clampAll; cbn [sectionAnalysis].
  rewrite TraceFacts.walkDocument_sections. reflexivity.
Qed.

Lemma settled_issues (news : list ElementIssue) :
  Forall (fun s => issues s = filter (sameSection (name s)) news)
         (map clamp (map (settle news) initialSections)).
Proof. simpl. repeat (constructor; [reflexivity|]). constructor. Qed.

Lemma recordNamed_settled (news : list ElementIssue) (n : string) :
  In n sectionNames ->
  exists weight,
    recordNamed n (map clamp (map (settle news) initialSections))
    = Some {| name := n;
              score := Penalties.clamped
                         (100 - Penalties.total (filter (sameSection n) news));
              issues := filter (sameSection n) news;
              importance := weight |}.
Proof.
  unfold sectionNames; simpl. intros H.
  repeat (destruct H as [<-|H]; [eexists; reflexivity|]).
  contradiction.
Qed.

End RecordFacts.

(** C7 (as amended).  In a document with exactly two [h1] elements the
    analysis raises exactly one "Multiple H1 headings" issue; it is of
    medium severity and is raised on the second [h1] in document order
    (its selector and its section are those of that element).  The issue
    is in the list of one record only, the one named after the section
    of the second [h1] (General when no landmark contains it), and that
    record's score is 100 reduced by 15 for this issue and by the
    penalties of its other issues, then clamped to [0,100]. *)
Theorem C7_second_h1_charged_to_its_own_section
        (d : Dom.Document) (url : string) (first second : Dom.Element) :
  Dom.querySelectorAll d (Dom.tag "h1") = [first; second] ->
  let r := ElementAnalysis.analyzeElements d url in
  let where_ := ElementAnalysis.determineSectionForElement second (ElementAnalysis.sections d) in
  let raised :=
    ElementAnalysis.mkIssue (ElementAnalysis.getSelector second) "H1 Heading"
      "Multiple H1 headings" medium
      "Use only one H1 heading as the main title of your page" where_ in
  filter (fun i => String.eqb (ElementAnalysis.issue i) "Multiple H1 headings")
         (ElementAnalysis.elementIssues r) = [raised]
  /\ (exists record before after,
        Trace.recordNamed (ElementAnalysis.capitalizeFirstLetter where_)
                          (ElementAnalysis.sectionAnalysis r) = Some record
        /\ ElementAnalysis.issues record = before ++ raised :: after
        /\ ElementAnalysis.score record
           = Z.max 0 (Z.min 100 (100 - Penalties.total before - 15 - Penalties.total after)))
  /\ Forall (fun other =>
               ElementAnalysis.name other <> ElementAnalysis.capitalizeFirstLetter where_ ->
               ~ In raised (ElementAnalysis.issues other))
            (ElementAnalysis.sectionAnalysis r).
Proof.
  intros Hh1 r where_ raised.
  assert (Hraised : filter Trace.isMultipleH1 (ElementAnalysis.elementIssues r) = [raised]).
  { subst r. rewrite RecordFacts.analyzeElements_issues, NewsFacts.walkNews_multiple, Hh1.
    reflexivity. }
  split; [exact Hraised|].
  assert (Hin : In raised (Trace.walkNews d)).
  { subst r. rewrite RecordFacts.analyzeElements_issues in Hraised.
    assert (H : In raised (filter Trace.isMultipleH1 (Trace.walkNews d)))
      by (rewrite Hraised; left; reflexivity).
    apply filter_In in H. exact (proj1 H). }
  subst r. rewrite RecordFacts.analyzeElements_sections.
  split.
  - set (n := ElementAnalysis.capitalizeFirstLetter where_).
    assert (Hn : In n Trace.sectionNames).
    { pose proof (TraceFacts.capitalize_named where_) as H.
      apply existsb_exists in H. destruct H as (m & Hm & E).
      apply String.eqb_eq in E. subst n. rewrite E. exact Hm. }
    destruct (RecordFacts.recordNamed_settled (Trace.walkNews d) n Hn) as [weight Hrec].
    assert (Hmine : In raised (filter (Trace.sameSection n) (Trace.walkNews d))).
    { apply filter_In. split; [exact Hin|]. apply String.eqb_refl. }
    destruct (in_split _ _ Hmine) as (before & after & Hsplit).
    eexists; exists before, after. split; [exact Hrec|].
    cbn [ElementAnalysis.issues ElementAnalysis.score]. split; [exact Hsplit|].
    rewrite Hsplit, TraceFacts.total_app. unfold Penalties.clamped.
    change (Penalties.total (raised :: after)) with (15 + Penalties.total after).
    f_equal. f_equal. lia.
  - eapply Forall_impl; [|apply RecordFacts.settled_issues].
    intros other Hissues Hname Hother. rewrite Hissues in Hother.
    apply filter_In in Hother. destruct Hother as [_ Hsame].
    apply String.eqb_eq in Hsame. apply Hname. symmetry. exact Hsame.
Qed.

(** C7, a document for the theorem: the second [h1] lies inside
    [<header>], and it is the Header record that is charged. *)
Lemma C7_second_h1_in_header :
  Dom.querySelectorAll Examples.twoH1HeaderPage (Dom.tag "h1")
  = [Examples.firstH1; Examples.headerH1]
  /\ map ElementAnalysis.section
         (filter (fun i => String.eqb (ElementAnalysis.issue i) "Multiple H1 headings")
                 (ElementAnalysis.elementIssues
                    (ElementAnalysis.analyzeElements Examples.twoH1HeaderPage "https://example.com/")))
     = ["header"].
Proof.
  split; [reflexivity|].
  rewrite (proj1 (C7_second_h1_charged_to_its_own_section
                    Examples.twoH1HeaderPage "https://example.com/"
                    Examples.firstH1 Examples.headerH1 eq_refl)).
  reflexivity.
Defined.

(** C7 as stated fails: with two [h1] outside every landmark, the issue
    is attributed to [general]; the Header record keeps its score of 100
    and stays empty, and the General record drops to 85. *)
Lemma C7_header_score_untouched :
  let r := ElementAnalysis.analyzeElements Examples.twoH1Page "https://example.com/" in
  count (Dom.querySelectorAll Examples.twoH1Page (Dom.tag "h1")) = 2
  /\ map ElementAnalysis.section
         (filter Trace.isMultipleH1 (ElementAnalysis.elementIssues r)) = ["general"]
  /\ map (fun s => (ElementAnalysis.name s, ElementAnalysis.score s,
                    List.length (ElementAnalysis.issues s)))
         (ElementAnalysis.sectionAnalysis r)
     = [("Header", 100, 0%nat); ("Navigation", 100, 0%nat); ("Main Content", 100, 0%nat);
        ("Sidebar", 100, 0%nat); ("Footer", 100, 0%nat); ("General", 85, 1%nat)].
Proof. vm_compute. repeat split. Qed.

(** C8.  When the document has a meta description with a [content]
    attribute of [n] characters, the element analysis raises, about the
    meta description, nothing for 70 <= n <= 160 (so 70, 71 and 160
    pass), the medium issue "Meta description is too short" for
    1 <= n < 70 (so 69 fails), and the low issue "Meta description is
    too long" for n > 160 (so 161 fails). *)
Theorem C8_meta_description_boundaries
        (d : Dom.Document) (url : string) (meta : Dom.Element) (content : string) :
  Dom.querySelector d (Dom.tagAttrIs "meta" "name" "description") = Some meta ->
  Dom.getAttribute meta "content" = Some content ->
  let about :=
    map (fun i => (ElementAnalysis.issue i, ElementAnalysis.severity i))
        (filter (fun i => String.eqb (ElementAnalysis.element i) "Meta Description")
                (ElementAnalysis.elementIssues (ElementAnalysis.analyzeElements d url))) in
  let n := JS.length content in
  (70 <= n <= 160 -> about = [])
  /\ (1 <= n < 70 -> about = [("Meta description is too short", medium)])
  /\ (160 < n -> about = [("Meta description is too long", low)]).
Proof.
  intros Hmeta Hcontent about n. subst about.
  rewrite RecordFacts.analyzeElements_issues.
  change (filter _ (Trace.walkNews d)) with (filter Trace.isMetaIssue (Trace.walkNews d)).
  rewrite NewsFacts.walkNews_meta, Hmeta.
  unfold Trace.metaNews, ElementAnalysis.checkMetaDescription.
  rewrite Hcontent. cbn [HtmlAnalyzer.orEmpty]. fold n.
  assert (Hfalsy : 1 <= n -> JS.falsy content = false).
  { subst n. destruct content; [unfold JS.length; simpl; lia | reflexivity]. }
  split; [|split]; intros Hn.
  - rewrite Hfalsy by lia.
    replace (n <? 70) with false by lia. replace (n >? 160) with false by lia.
    reflexivity.
  - rewrite Hfalsy by lia. replace (n <? 70) with true by lia. reflexivity.
  - rewrite Hfalsy by lia.
    replace (n <? 70) with false by lia. replace (n >? 160) with true by lia.
    reflexivity.
Qed.

(** C8 on pages whose meta description has 69, 70, 71, 160 and 161
    characters. *)
Lemma C8_at_the_boundaries :
  Examples.metaFindings 69 = [("Meta description is too short", medium)]
  /\ Examples.metaFindings 70 = []
  /\ Examples.metaFindings 71 = []
  /\ Examples.metaFindings 160 = []
  /\ Examples.metaFindings 161 = [("Meta description is too long", low)].
Proof.
  unfold Examples.metaFindings.
  pose (at_ := fun size : nat =>
          C8_meta_description_boundaries
            (Examples.describedPage (Examples.letters size)) "https://example.com/"
            (Examples.descriptionMeta (Examples.letters size)) (Examples.letters size)
            eq_refl eq_refl).
  split; [|split; [|split; [|split]]].
  - apply (proj1 (proj2 (at_ 69%nat))). vm_compute. split; [discriminate | reflexivity].
  - apply (proj1 (at_ 70%nat)). vm_compute. split; discriminate.
  - apply (proj1 (at_ 71%nat)). vm_compute. split; discriminate.
  - apply (proj1 (at_ 160%nat)). vm_compute. split; discriminate.
  - apply (proj2 (proj2 (at_ 161%nat))). vm_compute. reflexivity.
Defined.

(* ================================================================== *)
(** ** Section attribution                                             *)
(* ================================================================== *)

Module RegionFacts.
Import ElementAnalysis Regions.

(** The landmarks of a list of regions, as [sections] lays them out. *)
Lemma resolve2 (d : Dom.Document) (a b : Dom.Selector) :
  orElse (Dom.querySelector d a) (Dom.querySelector d b) = resolve d [a; b].
Proof. simpl. destruct (Dom.querySelector d a), (Dom.querySelector d b); reflexivity. Qed.

Lemma resolve3 (d : Dom.Document) (a b c : Dom.Selector) :
  orElse (orElse (Dom.querySelector d a) (Dom.querySelector d b)) (Dom.querySelector d c)
  = resolve d [a; b; c].
Proof.
  simpl. destruct (Dom.querySelector d a), (Dom.querySelector d b),
           (Dom.querySelector d c); reflexivity.
Qed.

Lemma sections_resolve (d : Dom.Document) :
  sections d = map (fun region => (fst region, resolve d (snd region))) regions.
Proof.
  unfold sections, regions, divRole. cbn [map fst snd].
  rewrite !resolve3, !resolve2. reflexivity.
Qed.

Lemma holdsb_holds d element region :
  holdsb d element region = true <-> holds d element region.
Proof.
  unfold holdsb, holds. destruct (resolve d (snd region)) as [landmark|].
  - split.
    + intros H. exists landmark. auto.
    + intros (l & Hl & Hc). inversion Hl; subst. exact Hc.
  - split; [discriminate|]. intros (l & Hl & _). discriminate Hl.
Qed.

Lemma determine_step d element region rest :
  determineSectionForElement element
    (map (fun r => (fst r, resolve d (snd r))) (region :: rest))
  = if holdsb d element region then fst region
    else determineSectionForElement element
           (map (fun r => (fst r, resolve d (snd r))) rest).
Proof.
  unfold holdsb. simpl. destruct (resolve d (snd region)); reflexivity.
Qed.

(** The loop returns the name of the first region that holds. *)
Lemma determine_first d element before region after :
  (forall earlier, In earlier before -> ~ holds d element earlier) ->
  holds d element region ->
  determineSectionForElement element
    (map (fun r => (fst r, resolve d (snd r))) (before ++ region :: after))
  = fst region.
Proof.
  intros Hbefore Hregion. induction before as [|b before IH].
  - simpl app. rewrite determine_step.
    apply holdsb_holds in Hregion. rewrite Hregion. reflexivity.
  - simpl app. rewrite determine_step.
    destruct (holdsb d element b) eqn:E.
    + apply holdsb_holds in E. exfalso. apply (Hbefore b); [left; reflexivity|exact E].
    + apply IH. intros earlier Hin. apply Hbefore. right. exact Hin.
Qed.

Lemma determine_none d element rs :
  (forall region, In region rs -> ~ holds d element region) ->
  determineSectionForElement element
    (map (fun r => (fst r, resolve d (snd r))) rs) = "general".
Proof.
  induction rs as [|r rs IH]; intros Hnone; [reflexivity|].
  rewrite determine_step. destruct (holdsb d element r) eqn:E.
  - apply holdsb_holds in E. exfalso. apply (Hnone r); [left; reflexivity|exact E].
  - apply IH. intros region Hin. apply Hnone. right. exact Hin.
Qed.

(** Some region holds first, or none does. *)
Lemma first_or_none d element rs :
  (exists before region after,
      rs = before ++ region :: after /\ holds d element region /\
      forall earlier, In earlier before -> ~ holds d element earlier)
  \/ (forall region, In region rs -> ~ holds d element region).
Proof.
  induction rs as [|r rs IH].
  - right. intros region [].
  - destruct (holdsb d element r) eqn:E.
    + left. exists [], r, rs. split; [reflexivity|]. split.
      * apply holdsb_holds, E.
      * intros earlier [].
    + assert (Hr : ~ holds d element r).
      { intros H. apply holdsb_holds in H. congruence. }
      destruct IH as [(before & region & after & Hrs & Hhold & Hearlier)|Hnone].
      * left. exists (r :: before), region, after. split; [rewrite Hrs; reflexivity|].
        split; [exact Hhold|]. intros earlier [<-|Hin]; auto.
      * right. intros region [<-|Hin]; auto.
Qed.

(** The loop over [sections] returns [s] exactly when [s] is the
    section of the element. *)
Lemma section_iff (d : Dom.Document) (element : Dom.Element) (s : string) :
  determineSectionForElement element (sections d) = s <-> SectionOf d element s.
Proof.
  rewrite sections_resolve. unfold SectionOf. split.
  - intros <-.
    destruct (first_or_none d element regions)
      as [(before & region & after & Hrs & Hhold & Hearlier)|Hnone].
    + left. exists before, region, after. repeat split; auto.
      rewrite Hrs. apply determine_first; assumption.
    + right. split; [|exact Hnone]. apply determine_none, Hnone.
  - intros [(before & region & after & Hrs & -> & Hhold & Hearlier)|[-> Hnone]].
    + rewrite Hrs. apply determine_first; assumption.
    + apply determine_none, Hnone.
Qed.

End RegionFacts.

(** An image inside [<footer>] is attributed to [footer], one outside
    every landmark to [general]; an element is contained in itself. *)
Example containment_in_footer :
  map (fun img => ElementAnalysis.determineSectionForElement img
                    (ElementAnalysis.sections Examples.footerPage))
      (Dom.querySelectorAll Examples.footerPage (Dom.tag "img"))
  = ["general"; "footer"].
Proof. reflexivity. Qed.

Lemma contains_self (e : Dom.Element) : Dom.contains e e = true.
Proof.
  unfold Dom.contains. induction (Dom.path e) as [|x p IH]; simpl; [reflexivity|].
  rewrite Nat.eqb_refl. exact IH.
Qed.

(* ================================================================== *)
(** ** Properties of the document analyzer                             *)
(* ================================================================== *)

Module DocumentFacts.
Import HtmlAnalyzer DocumentRules.

Lemma falsy_eqb (s : string) : JS.falsy s = String.eqb s EmptyString.
Proof. destruct s; reflexivity. Qed.

Lemma count_app {A : Type} (a b : list A) : count (a ++ b) = count a + count b.
Proof. unfold count. rewrite length_app. lia. Qed.

Lemma numbered_app {A : Type} (a b : list A) : forall k,
  numbered k (a ++ b) = numbered k a ++ numbered (k + count a) b.
Proof.
  induction a as [|x a IH]; intros k; simpl.
  - f_equal. unfold count; simpl. lia.
  - rewrite IH. do 3 f_equal. unfold count; simpl List.length. lia.
Qed.

Lemma numbered_ids {A : Type} (l : list A) : forall k,
  map fst (numbered k l) = sequence k (List.length l).
Proof. induction l as [|x l IH]; intros k; simpl; [reflexivity|]. rewrite IH. reflexivity. Qed.

Lemma numbered_length {A : Type} (l : list A) : forall k,
  List.length (numbered k l) = List.length l.
Proof. induction l as [|x l IH]; intros k; simpl; [reflexivity|]. rewrite IH. reflexivity. Qed.

Lemma present_cons {A : Type} (o : option A) (r : list (option A)) :
  present (o :: r) = present [o] ++ present r.
Proof. destruct o; reflexivity. Qed.

Lemma Tracks_fresh : Tracks {| found := []; id := 1 |} [].
Proof. split; reflexivity. Qed.

Lemma Tracks_push sev t desc advice st fs :
  Tracks st fs -> Tracks (push sev t desc advice st) (fs ++ [(sev, t)]).
Proof.
  intros [Hfound Hid]. unfold push. split; cbn [found id].
  - rewrite map_app, numbered_app, Hfound, Hid. reflexivity.
  - rewrite count_app, Hid. unfold count; cbn [List.length]. lia.
Qed.

Lemma Tracks_same st fs : Tracks st fs -> Tracks st (fs ++ present [@None Finding]).
Proof. simpl. rewrite app_nil_r. auto. Qed.

(** Each check records what its rule finds. *)
Lemma checkTitle_tracks title st fs :
  Tracks st fs -> Tracks (checkTitle title st) (fs ++ present [titleRule title]).
Proof.
  intros H. unfold checkTitle, titleRule. rewrite falsy_eqb, Z.gtb_ltb.
  destruct (String.eqb title EmptyString); [apply Tracks_push, H|].
  destruct (JS.length title <? 10); [apply Tracks_push, H|].
  destruct (60 <? JS.length title); [apply Tracks_push, H|apply Tracks_same, H].
Qed.

Lemma checkMetaDescription_tracks description st fs :
  Tracks st fs ->
  Tracks (checkMetaDescription description st)
         (fs ++ present [metaDescriptionRule description]).
Proof.
  intros H. unfold checkMetaDescription, metaDescriptionRule. rewrite falsy_eqb, Z.gtb_ltb.
  destruct (String.eqb description EmptyString); [apply Tracks_push, H|].
  destruct (JS.length description <? 50); [apply Tracks_push, H|].
  destruct (160 <? JS.length description); [apply Tracks_push, H|apply Tracks_same, H].
Qed.

Lemma checkH1_tracks h1 st fs :
  Tracks st fs -> Tracks (checkH1 h1 st) (fs ++ present [h1Rule h1]).
Proof.
  intros H. unfold checkH1, h1Rule. rewrite Z.gtb_ltb.
  destruct (h1 =? 0); [apply Tracks_push, H|].
  destruct (1 <? h1); [apply Tracks_push, H|apply Tracks_same, H].
Qed.

Lemma checkH2WithoutH1_tracks h1 h2 st fs :
  Tracks st fs ->
  Tracks (checkH2WithoutH1 h1 h2 st) (fs ++ present [h2WithoutH1Rule h1 h2]).
Proof.
  intros H. unfold checkH2WithoutH1, h2WithoutH1Rule. rewrite Z.gtb_ltb, andb_comm.
  destruct (_ && _); [apply Tracks_push, H|apply Tracks_same, H].
Qed.

Lemma checkH3WithoutH2_tracks h2 h3 st fs :
  Tracks st fs ->
  Tracks (checkH3WithoutH2 h2 h3 st) (fs ++ present [h3WithoutH2Rule h2 h3]).
Proof.
  intros H. unfold checkH3WithoutH2, h3WithoutH2Rule. rewrite Z.gtb_ltb, andb_comm.
  destruct (_ && _); [apply Tracks_push, H|apply Tracks_same, H].
Qed.

Lemma checkImages_tracks im st fs :
  Tracks st fs ->
  Tracks (checkImages im st)
         (fs ++ present [imagesRule (Images.withoutAlt im) (Images.total im)]).
Proof.
  intros H. unfold checkImages, imagesRule. rewrite !Z.gtb_ltb, andb_comm.
  destruct (_ && _); [apply Tracks_push, H|apply Tracks_same, H].
Qed.

Lemma checkLinks_tracks n st fs :
  Tracks st fs -> Tracks (checkLinks n st) (fs ++ present [linksRule n]).
Proof.
  intros H. unfold checkLinks, linksRule. rewrite Z.gtb_ltb.
  destruct (0 <? n); [apply Tracks_push, H|apply Tracks_same, H].
Qed.

Lemma checkViewport_tracks v st fs :
  Tracks st fs ->
  Tracks (checkViewport v st)
         (fs ++ present [viewportRule (match v with Some _ => true | None => false end)]).
Proof.
  intros H. unfold checkViewport, viewportRule.
  destruct v; [apply Tracks_same, H|apply Tracks_push, H].
Qed.

Lemma checkStructuredData_tracks a b st fs :
  Tracks st fs ->
  Tracks (checkStructuredData (a || b) st) (fs ++ present [structuredDataRule a b]).
Proof.
  intros H. unfold checkStructuredData, structuredDataRule.
  destruct (a || b); [apply Tracks_same, H|apply Tracks_push, H].
Qed.

(** The queries of the last three checks, read off the tree. *)
Lemma existsb_same {A : Type} (p q : A -> bool) (l : list A) :
  (forall x, p x = q x) -> existsb p l = existsb q l.
Proof. intros H. induction l as [|x l IH]; simpl; [reflexivity|]. rewrite H, IH. reflexivity. Qed.

Lemma querySelector_found (d : Dom.Document) (s : Dom.Selector) :
  match Dom.querySelector d s with Some _ => true | None => false end
  = existsb (fun e => Dom.matches e s) (Dom.allElements d).
Proof.
  unfold Dom.querySelector, Dom.querySelectorAll.
  induction (Dom.allElements d) as [|e l IH]; simpl; [reflexivity|].
  destruct (Dom.matches e s); simpl; [reflexivity|exact IH].
Qed.

Lemma count_filter_positive {A : Type} (p : A -> bool) (l : list A) :
  (count (filter p l) >? 0) = existsb p l.
Proof.
  induction l as [|x l IH]; [reflexivity|].
  cbn [filter existsb]. destruct (p x); cbn [orb]; [|exact IH].
  rewrite Z.gtb_ltb. apply Z.ltb_lt. unfold count; cbn [List.length]. lia.
Qed.

Lemma matches_tagAttrIs (e : Dom.Element) (n a v : string) :
  Dom.anyCaseValue a = false ->
  Dom.matches e (Dom.tagAttrIs n a v)
  = String.eqb (Dom.localName e) n && hasAttrValue e a v.
Proof.
  intros Ha.
  unfold Dom.matches, Dom.tagAttrIs, Dom.sel, hasAttrValue, Dom.matchesCompound.
  cbn [existsb forallb Dom.matchesSimple Dom.attrTest]. rewrite Ha. unfold Dom.sameText.
  destruct (String.eqb (Dom.localName e) n); simpl; [|reflexivity].
  destruct (Dom.getAttribute e a) as [x|]; [destruct (String.eqb x v)|]; reflexivity.
Qed.

Lemma matches_tagAttrIs_anyCase (e : Dom.Element) (n a v : string) :
  Dom.anyCaseValue a = true ->
  Dom.matches e (Dom.tagAttrIs n a v)
  = String.eqb (Dom.localName e) n && hasAttrValueAnyCase e a v.
Proof.
  intros Ha.
  unfold Dom.matches, Dom.tagAttrIs, Dom.sel, hasAttrValueAnyCase, Dom.matchesCompound.
  cbn [existsb forallb Dom.matchesSimple Dom.attrTest]. rewrite Ha. unfold Dom.sameText.
  destruct (String.eqb (Dom.localName e) n); simpl; [|reflexivity].
  destruct (Dom.getAttribute e a) as [x|]; [destruct (String.eqb _ _)|]; reflexivity.
Qed.

Lemma matches_link (e : Dom.Element) :
  Dom.matches e (Dom.sel [Dom.Tag "a"; Dom.Attr (Dom.HasAttr "href")]) = isLink e.
Proof.
  unfold Dom.matches, Dom.sel, isLink; simpl.
  destruct (String.eqb (Dom.localName e) "a"), (Dom.hasAttribute e "href"); reflexivity.
Qed.

Lemma viewport_found (d : Dom.Document) :
  match Dom.querySelector d (Dom.tagAttrIs "meta" "name" "viewport") with
  | Some _ => true | None => false end = hasViewport d.
Proof.
  rewrite querySelector_found. apply existsb_same. intros e.
  apply matches_tagAttrIs. reflexivity.
Qed.

Lemma structuredData_found (d : Dom.Document) :
  match Dom.querySelector d (Dom.tagAttrIs "script" "type" "application/ld+json") with
  | Some _ => true
  | None => count (Dom.querySelectorAll d [[Dom.Attr (Dom.HasAttr "itemscope")];
                                           [Dom.Attr (Dom.HasAttr "itemprop")]]) >? 0
  end = hasJsonLd d || hasMicrodata d.
Proof.
  assert (Hmicro : (count (Dom.querySelectorAll d [[Dom.Attr (Dom.HasAttr "itemscope")];
                                                    [Dom.Attr (Dom.HasAttr "itemprop")]]) >? 0)
                   = hasMicrodata d).
  { unfold Dom.querySelectorAll. rewrite count_filter_positive.
    apply existsb_same. intros e. unfold Dom.matches; simpl.
    destruct (Dom.hasAttribute e "itemscope"), (Dom.hasAttribute e "itemprop"); reflexivity. }
  assert (Hld : match Dom.querySelector d (Dom.tagAttrIs "script" "type" "application/ld+json")
                with Some _ => true | None => false end = hasJsonLd d).
  { rewrite querySelector_found. apply existsb_same. intros e.
    apply matches_tagAttrIs_anyCase. reflexivity. }
  rewrite <- Hld, <- Hmicro.
  destruct (Dom.querySelector d _); reflexivity.
Qed.

Lemma linksWithoutText_found (d : Dom.Document) :
  count (filter (fun link => JS.falsy (JS.trim (Dom.textContent link)))
                (Dom.querySelectorAll d (Dom.sel [Dom.Tag "a"; Dom.Attr (Dom.HasAttr "href")])))
  = linksWithoutText d.
Proof.
  unfold linksWithoutText, Dom.querySelectorAll. rewrite NewsFacts.filter_filter.
  f_equal. apply filter_ext. intros e.
  rewrite matches_link. unfold blankText. rewrite falsy_eqb. reflexivity.
Qed.

(** The issues of a returned result follow the nine rules. *)
Lemma issues_follow_rules (d : Dom.Document) (url : string) (r : HtmlAnalysisResult) :
  analyzeDocument d url = Returned r ->
  map summary (issues r) = numbered 1 (present (rules d r)).
Proof.
  unfold analyzeDocument.
  destruct (forEachLink url _ (0, 0)) as [[internalLinks externalLinks]|e]; [|discriminate].
  intros H. inversion H as [Hr]. clear H Hr.
  unfold rules.
  cbn [issues title description headings images Headings.h1 Headings.h2 Headings.h3].
  rewrite structuredData_found, <- linksWithoutText_found, <- viewport_found.
  rewrite !(present_cons _ (_ :: _)), !app_assoc.
  refine (proj1 (_ : Tracks _ _)).
  apply checkStructuredData_tracks, checkViewport_tracks, checkLinks_tracks,
    checkImages_tracks, checkH3WithoutH2_tracks, checkH2WithoutH1_tracks,
    checkH1_tracks, checkMetaDescription_tracks.
  apply (checkTitle_tracks _ _ []), Tracks_fresh.
Qed.


Lemma issue_ids (d : Dom.Document) (url : string) (r : HtmlAnalysisResult) :
  analyzeDocument d url = Returned r ->
  map Issue.id (issues r) = sequence 1 (List.length (issues r)).
Proof.
  intros H. apply issues_follow_rules in H.
  assert (Hid : map Issue.id (issues r) = map fst (map summary (issues r)))
    by (rewrite map_map; reflexivity).
  assert (Hlen : List.length (issues r) = List.length (present (rules d r))).
  { rewrite <- (length_map summary (issues r)), H. apply numbered_length. }
  rewrite Hid, H, numbered_ids, Hlen. reflexivity.
Qed.

(** *** The link loop *)

Lemma countLink_counts url i e link i' e' :
  countLink url (i, e) link = Returned (i', e') ->
  i' = i + (if LinkClasses.isInternal url (LinkClasses.href link) then 1 else 0) /\
  e' = e + (if LinkClasses.isExternal url (LinkClasses.href link) then 1 else 0).
Proof.
  unfold countLink, LinkClasses.isExternal, LinkClasses.isInternal,
    LinkClasses.onReferenceHost, LinkClasses.href.
  rewrite falsy_eqb.
  set (h := orEmpty (Dom.getAttribute link "href")).
  destruct (JS.startsWith h "#" || JS.startsWith h "/"); cbn [orb andb negb].
  - rewrite andb_false_r. intros H; inversion H; subst. split; lia.
  - destruct (String.eqb url EmptyString); cbn [negb andb].
    + rewrite andb_true_r.
      destruct (JS.startsWith h "http"); intros H; inversion H; subst; split; lia.
    + destruct (Url.hostname url) as [host|]; [|discriminate].
      destruct (JS.includes h host); cbn [negb].
      * rewrite andb_false_r. intros H; inversion H; subst. split; lia.
      * rewrite andb_true_r.
        destruct (JS.startsWith h "http"); intros H; inversion H; subst; split; lia.
Qed.

Lemma count_filter_cons {A : Type} (p : A -> bool) (x : A) (l : list A) :
  count (filter p (x :: l)) = (if p x then 1 else 0) + count (filter p l).
Proof.
  cbn [filter]. destruct (p x); [|lia].
  unfold count; cbn [List.length]. lia.
Qed.

Lemma forEachLink_counts url allLinks : forall i e i' e',
  forEachLink url allLinks (i, e) = Returned (i', e') ->
  i' = i + count (filter (LinkClasses.isInternal url) (map LinkClasses.href allLinks)) /\
  e' = e + count (filter (LinkClasses.isExternal url) (map LinkClasses.href allLinks)).
Proof.
  induction allLinks as [|link rest IH]; intros i e i' e' H.
  - inversion H; subst. unfold count; simpl. split; lia.
  - cbn [forEachLink] in H.
    destruct (countLink url (i, e) link) as [[i1 e1]|] eqn:E; [|discriminate].
    apply countLink_counts in E. destruct E as [-> ->].
    apply IH in H. destruct H as [-> ->].
    cbn [map]. rewrite !count_filter_cons. split; lia.
Qed.

Lemma hrefs_queried (d : Dom.Document) :
  LinkClasses.hrefs d
  = map LinkClasses.href
        (Dom.querySelectorAll d (Dom.sel [Dom.Tag "a"; Dom.Attr (Dom.HasAttr "href")])).
Proof.
  unfold LinkClasses.hrefs, Dom.querySelectorAll. f_equal.
  apply filter_ext. intros e. symmetry. apply matches_link.
Qed.

Lemma three_groups url (hs : list string) :
  count hs = count (filter (LinkClasses.isInternal url) hs)
             + count (filter (LinkClasses.isExternal url) hs)
             + count (filter (LinkClasses.isUnclassified url) hs).
Proof.
  induction hs as [|h hs IH]; [reflexivity|].
  rewrite !count_filter_cons, TraceFacts.count_cons, IH.
  unfold LinkClasses.isExternal, LinkClasses.isUnclassified.
  destruct (LinkClasses.isInternal url h), (JS.startsWith h "http"); cbn [negb andb]; lia.
Qed.

(** *** Queries that refine a type selector *)

Lemma querySelectorAll_refine (d : Dom.Document) (n : string) (rest : Dom.Compound) :
  Dom.querySelectorAll d (Dom.sel (Dom.Tag n :: rest))
  = filter (fun e => Dom.matchesCompound e rest) (Dom.querySelectorAll d (Dom.tag n)).
Proof.
  unfold Dom.querySelectorAll. rewrite NewsFacts.filter_filter.
  apply filter_ext. intros e.
  unfold Dom.matches, Dom.sel, Dom.tag, Dom.matchesCompound; simpl.
  destruct (String.eqb (Dom.localName e) n); simpl; [|reflexivity].
  destruct (forallb _ rest); reflexivity.
Qed.

Lemma no_attribute (e : Dom.Element) (a : string) :
  Dom.hasAttribute e a = false -> Dom.getAttribute e a = None.
Proof.
  unfold Dom.hasAttribute. destruct (Dom.getAttribute e a); [discriminate|reflexivity].
Qed.

End DocumentFacts.

(** The thresholds of the first two rules are strict. *)
Example title_thresholds :
  map (fun n => DocumentRules.titleRule (Examples.letters n)) [0; 9; 10; 60; 61]%nat
  = [Some (high, "Missing page title"); Some (medium, "Title too short");
     None; None; Some (low, "Title too long")].
Proof. reflexivity. Qed.

Example meta_description_thresholds :
  map (fun n => DocumentRules.metaDescriptionRule (Examples.letters n))
      [0; 49; 50; 160; 161]%nat
  = [Some (high, "Missing meta description"); Some (medium, "Meta description too short");
     None; None; Some (low, "Meta description too long")].
Proof. reflexivity. Qed.

(** C4 (as amended).  When [analyzeHtmlContent] returns, [links.total]
    is the number of elements [a[href]]; [links.internal] counts those
    whose [href] starts with [#] or [/] or, a reference URL having been
    supplied, contains its host name; [links.external] counts those that
    are not internal and start with [http]; the links that are neither
    are counted in no class.  The two classes are disjoint, and
    internal, external and unclassified links together are all the
    links. *)
Theorem C4_links_internal_external_or_neither
        (d : Dom.Document) (url : string) (r : HtmlAnalyzer.HtmlAnalysisResult) :
  HtmlAnalyzer.analyzeDocument d url = Returned r ->
  let hs := LinkClasses.hrefs d in
  let l := HtmlAnalyzer.links r in
  HtmlAnalyzer.Links.total l = count hs
  /\ HtmlAnalyzer.Links.internal l = count (filter (LinkClasses.isInternal url) hs)
  /\ HtmlAnalyzer.Links.external l = count (filter (LinkClasses.isExternal url) hs)
  /\ HtmlAnalyzer.Links.total l
     = HtmlAnalyzer.Links.internal l + HtmlAnalyzer.Links.external l
       + count (filter (LinkClasses.isUnclassified url) hs)
  /\ (forall h, LinkClasses.isInternal url h && LinkClasses.isExternal url h = false).
Proof.
  unfold HtmlAnalyzer.analyzeDocument.
  destruct (HtmlAnalyzer.forEachLink url _ (0, 0))
    as [[internalLinks externalLinks]|e] eqn:E; [|discriminate].
  intros H. inversion H as [Hr]. clear H Hr.
  apply DocumentFacts.forEachLink_counts in E. destruct E as [Hi He].
  rewrite <- DocumentFacts.hrefs_queried in Hi, He.
  cbn zeta. cbn [HtmlAnalyzer.links HtmlAnalyzer.Links.total
                 HtmlAnalyzer.Links.internal HtmlAnalyzer.Links.external].
  assert (Htotal : count (Dom.querySelectorAll d
                            (Dom.sel [Dom.Tag "a"; Dom.Attr (Dom.HasAttr "href")]))
                   = count (LinkClasses.hrefs d)).
  { rewrite DocumentFacts.hrefs_queried. unfold count. rewrite length_map. reflexivity. }
  pose proof (DocumentFacts.three_groups url (LinkClasses.hrefs d)) as Hsum.
  rewrite Htotal.
  split; [reflexivity|]. split; [lia|]. split; [lia|]. split; [lia|].
  intros h. unfold LinkClasses.isExternal.
  destruct (LinkClasses.isInternal url h); [apply andb_false_r|reflexivity].
Qed.

(** C4 on a page with a fragment link, a link to the reference host, a
    link elsewhere and a relative link. *)
Lemma C4_on_the_links_page :
  LinkClasses.linksOf (HtmlAnalyzer.analyzeDocument Examples.linksPage "https://example.com/")
  = Some {| HtmlAnalyzer.Links.total := 4;
            HtmlAnalyzer.Links.internal := 2;
            HtmlAnalyzer.Links.external := 1 |}.
Proof.
  destruct (HtmlAnalyzer.analyzeDocument Examples.linksPage "https://example.com/")
    as [r|e] eqn:E; [|vm_compute in E; discriminate E].
  destruct (C4_links_internal_external_or_neither
              Examples.linksPage "https://example.com/" r E)
    as (Ht & Hi & He & _).
  cbn [LinkClasses.linksOf]. destruct (HtmlAnalyzer.links r) as [t i x].
  cbn [HtmlAnalyzer.Links.total HtmlAnalyzer.Links.internal HtmlAnalyzer.Links.external]
    in Ht, Hi, He.
  rewrite Ht, Hi, He. reflexivity.
Defined.

(** C4 as stated fails: a link with a relative [href] does not start
    with [http], yet it is counted neither internal nor external, so
    the two counts do not add up to the number of links. *)
Lemma C4_relative_link_is_unclassified :
  LinkClasses.hrefs Examples.uploadedPage = ["about.html"]
  /\ JS.startsWith "about.html" "http" = false
  /\ LinkClasses.linksOf (HtmlAnalyzer.analyzeDocument Examples.uploadedPage EmptyString)
     = Some {| HtmlAnalyzer.Links.total := 1;
               HtmlAnalyzer.Links.internal := 0;
               HtmlAnalyzer.Links.external := 0 |}.
Proof. repeat split. Qed.

(** C6.  In the scenario (no title, no meta description, a single H1,
    one image without [alt], a viewport meta tag, and nothing else the
    checks look at) the analyzer returns four issues: title missing
    (high), meta description missing (high), images missing alt
    (medium), and structured data missing (medium), with the ids 1 to
    4; there is no issue about H1 nor about the viewport. *)
Theorem C6_scenario_issues (d : Dom.Document) (url : string) :
  DocumentRules.Scenario d ->
  DocumentRules.issuesOf (HtmlAnalyzer.analyzeDocument d url)
  = Some [(1, (high, "Missing page title"));
          (2, (high, "Missing meta description"));
          (3, (medium, "Images missing alt text"));
          (4, (medium, "Missing structured data"))].
Proof.
  intros (Ht & Hm & [h Hh1] & Hh3 & [img [Himg Halt]] & Hlinks & [v Hv] & Hld & Hmicro).
  unfold HtmlAnalyzer.analyzeDocument.
  rewrite Hlinks. cbn [HtmlAnalyzer.forEachLink DocumentRules.issuesOf HtmlAnalyzer.issues].
  change (Dom.tagAttrIs "img" "alt" EmptyString)
    with (Dom.sel [Dom.Tag "img"; Dom.Attr (Dom.AttrIs "alt" EmptyString)]).
  rewrite !DocumentFacts.querySelectorAll_refine.
  rewrite Ht, Hm, Hh1, Hh3, Himg, Hv, Hld, Hmicro.
  unfold HtmlAnalyzer.checkH3WithoutH2.
  change (count (@nil Dom.Element) >? 0) with false. rewrite andb_false_r.
  cbn [filter Dom.matchesCompound forallb Dom.matchesSimple Dom.attrTest].
  rewrite Halt, (DocumentFacts.no_attribute img "alt" Halt).
  reflexivity.
Qed.

(** C6 on the page of the scenario. *)
Lemma C6_on_the_scenario_page :
  DocumentRules.Scenario Examples.scenarioPage
  /\ DocumentRules.issuesOf (HtmlAnalyzer.analyzeDocument Examples.scenarioPage EmptyString)
     = Some [(1, (high, "Missing page title"));
             (2, (high, "Missing meta description"));
             (3, (medium, "Images missing alt text"));
             (4, (medium, "Missing structured data"))].
Proof.
  assert (H : DocumentRules.Scenario Examples.scenarioPage).
  { unfold DocumentRules.Scenario.
    repeat match goal with
           | |- _ /\ _ => split
           | |- exists _, _ => eexists
           end; reflexivity. }
  split; [exact H|]. exact (C6_scenario_issues Examples.scenarioPage EmptyString H).
Defined.

(** C9.  Both analyzers are functions of their arguments alone: a call
    keeps no state, so two calls on the same input have the same
    outcome; and when the document analyzer returns, its issues carry
    the ids 1, 2, ..., n, the counter starting at 1 in every call. *)
Theorem C9_same_input_same_output
        (JSDOM : string -> Dom.Document) (htmlContent url : string) :
  let first := HtmlAnalyzer.analyzeHtmlContent JSDOM htmlContent url in
  let second := HtmlAnalyzer.analyzeHtmlContent JSDOM htmlContent url in
  let firstElements := ElementAnalysis.analyzePageElements JSDOM htmlContent url in
  let secondElements := ElementAnalysis.analyzePageElements JSDOM htmlContent url in
  first = second
  /\ firstElements = secondElements
  /\ match second with
     | Returned r =>
         map HtmlAnalyzer.Issue.id (HtmlAnalyzer.issues r)
         = DocumentRules.sequence 1 (List.length (HtmlAnalyzer.issues r))
     | Thrown _ => True
     end.
Proof.
  intros first second firstElements secondElements.
  split; [reflexivity|]. split; [reflexivity|].
  subst second. unfold HtmlAnalyzer.analyzeHtmlContent.
  destruct (HtmlAnalyzer.analyzeDocument (JSDOM htmlContent) url) as [r|e] eqn:E; [|exact I].
  exact (DocumentFacts.issue_ids (JSDOM htmlContent) url r E).
Qed.

(** C1, the call that throws.  The upload path calls
    [analyzeHtmlContent(htmlContent, path.basename(filePath))]: the
    second argument is a file name, not a URL.  On a page with one
    relative link the link loop evaluates [new URL("index.html")], which
    throws, and the analyzer returns nothing. *)
Theorem C1_file_name_as_reference_url_throws :
  Url.hostname "index.html" = None
  /\ HtmlAnalyzer.analyzeDocument Examples.uploadedPage "index.html"
     = Thrown (TypeError "Invalid URL").
Proof. split; reflexivity. Qed.

(** Without a reference URL the document analyzer returns for every
    document, and so it does when the reference URL parses. *)
Lemma forEachLink_returns url allLinks :
  url = EmptyString \/ Url.hostname url <> None ->
  forall counts, exists counts', HtmlAnalyzer.forEachLink url allLinks counts = Returned counts'.
Proof.
  intros Hurl. induction allLinks as [|link rest IH]; intros counts.
  - exists counts. reflexivity.
  - cbn [HtmlAnalyzer.forEachLink].
    assert (Hstep : exists c, HtmlAnalyzer.countLink url counts link = Returned c).
    { unfold HtmlAnalyzer.countLink. destruct counts as [i e].
      destruct (_ || _); [eexists; reflexivity|].
      destruct Hurl as [-> | Hhost].
      - cbn [JS.falsy]. destruct (JS.startsWith _ "http"); eexists; reflexivity.
      - destruct (JS.falsy url); [destruct (JS.startsWith _ "http"); eexists; reflexivity|].
        destruct (Url.hostname url) as [host|]; [|congruence].
        destruct (JS.includes _ host); [eexists; reflexivity|].
        destruct (JS.startsWith _ "http"); eexists; reflexivity. }
    destruct Hstep as [c ->]. apply IH.
Qed.

Lemma analyzeDocument_returns (d : Dom.Document) (url : string) :
  url = EmptyString \/ Url.hostname url <> None ->
  exists r, HtmlAnalyzer.analyzeDocument d url = Returned r.
Proof.
  intros Hurl. unfold HtmlAnalyzer.analyzeDocument.
  destruct (forEachLink_returns url
              (Dom.querySelectorAll d (Dom.sel [Dom.Tag "a"; Dom.Attr (Dom.HasAttr "href")]))
              Hurl (0, 0)) as [[i e] ->].
  eexists. reflexivity.
Qed.

(** The document the parser builds for the empty string yields the empty
    extraction: no title, no description, zero counts. *)
Example empty_page_defaults :
  match HtmlAnalyzer.analyzeDocument Examples.emptyPage EmptyString with
  | Returned r =>
      HtmlAnalyzer.title r = EmptyString
      /\ HtmlAnalyzer.description r = EmptyString
      /\ HtmlAnalyzer.keywords r = []
      /\ HtmlAnalyzer.headings r = HtmlAnalyzer.Headings.mk 0 0 0 0 0 0 []
      /\ HtmlAnalyzer.images r = HtmlAnalyzer.Images.mk 0 0 0 0
      /\ HtmlAnalyzer.links r = HtmlAnalyzer.Links.mk 0 0 0
  | Thrown _ => False
  end.
Proof. vm_compute. repeat split. Qed.

(* ================================================================== *)
(** ** Further properties of the document analyzer                     *)
(* ================================================================== *)

Module MoreDocumentFacts.
Import HtmlAnalyzer DocumentRules Observations.

(** *** When the link loop throws *)

Lemma countLink_throws url counts link :
  (exists e, countLink url counts link = Thrown e)
  <-> (url <> EmptyString /\ Url.hostname url = None /\
       reachesUrl (LinkClasses.href link) = true).
Proof.
  unfold countLink, reachesUrl, LinkClasses.href. destruct counts as [i x].
  set (h := orEmpty (Dom.getAttribute link "href")).
  destruct (JS.startsWith h "#" || JS.startsWith h "/"); cbn [negb].
  - split; [intros [e H]; discriminate H|intros (_ & _ & H); discriminate H].
  - destruct url as [|c u]; cbn [JS.falsy].
    + split; [|intros (H & _); congruence].
      destruct (JS.startsWith h "http"); intros [e H]; discriminate H.
    + destruct (Url.hostname (String c u)) as [host|].
      * split; [|intros (_ & H & _); discriminate H].
        destruct (JS.includes h host); [intros [e H]; discriminate H|].
        destruct (JS.startsWith h "http"); intros [e H]; discriminate H.
      * split; [intros _; repeat split; discriminate|intros _; eexists; reflexivity].
Qed.

Lemma forEachLink_throws url allLinks : forall counts,
  (exists e, forEachLink url allLinks counts = Thrown e)
  <-> (url <> EmptyString /\ Url.hostname url = None /\
       existsb reachesUrl (map LinkClasses.href allLinks) = true).
Proof.
  induction allLinks as [|link rest IH]; intros counts.
  - simpl. split; [intros [e H]; discriminate H|intros (_ & _ & H); discriminate H].
  - cbn [forEachLink map existsb].
    pose proof (countLink_throws url counts link) as Hstep.
    destruct (countLink url counts link) as [counts'|e].
    + rewrite IH. split.
      * intros (Hu & Hh & Hex). repeat split; auto. rewrite Hex. apply orb_true_r.
      * intros (Hu & Hh & Hex). repeat split; auto.
        destruct (reachesUrl (LinkClasses.href link)) eqn:E; [|exact Hex].
        exfalso. destruct Hstep as [_ Hstep].
        destruct (Hstep (conj Hu (conj Hh eq_refl))) as [e He]. discriminate He.
    + split.
      * intros _. destruct Hstep as [Hstep _].
        destruct (Hstep (ex_intro _ e eq_refl)) as (Hu & Hh & Hr).
        repeat split; auto. rewrite Hr. reflexivity.
      * intros _. exists e. reflexivity.
Qed.

Lemma numbered_snd {A : Type} (l : list A) : forall k, map snd (numbered k l) = l.
Proof. induction l as [|x l IH]; intros k; simpl; [reflexivity|]. rewrite IH. reflexivity. Qed.

Lemma findings_rules (d : Dom.Document) (url : string) (r : HtmlAnalysisResult) :
  analyzeDocument d url = Returned r -> findings r = present (rules d r).
Proof.
  intros H. apply DocumentFacts.issues_follow_rules in H.
  assert (Hf : findings r = map snd (map summary (issues r)))
    by (unfold findings; rewrite map_map; reflexivity).
  rewrite Hf, H. apply numbered_snd.
Qed.

(** *** The partition of the images and of the headings *)

Lemma three_way {A : Type} (a b c : A -> bool) (l : list A) :
  (forall x, (a x = true /\ b x = false /\ c x = false) \/
             (a x = false /\ b x = true /\ c x = false) \/
             (a x = false /\ b x = false /\ c x = true)) ->
  count l = count (filter a l) + count (filter b l) + count (filter c l).
Proof.
  intros H. induction l as [|x l IH]; [reflexivity|].
  rewrite !DocumentFacts.count_filter_cons, TraceFacts.count_cons, IH.
  destruct (H x) as [(-> & -> & ->)|[(-> & -> & ->)|(-> & -> & ->)]]; lia.
Qed.

Lemma count_nonneg {A : Type} (l : list A) : 0 <= count l.
Proof. unfold count. lia. Qed.

Lemma images_three_way (d : Dom.Document) :
  let imgs := Dom.querySelectorAll d (Dom.tag "img") in
  count imgs
  = count (Dom.querySelectorAll d
             (Dom.sel [Dom.Tag "img"; Dom.Attr (Dom.HasAttr "alt");
                       Dom.Not (Dom.AttrIs "alt" EmptyString)]))
    + count (Dom.querySelectorAll d (Dom.tagAttrIs "img" "alt" EmptyString))
    + count (filter lacksAlt imgs).
Proof.
  intros imgs.
  change (Dom.tagAttrIs "img" "alt" EmptyString)
    with (Dom.sel [Dom.Tag "img"; Dom.Attr (Dom.AttrIs "alt" EmptyString)]).
  rewrite !DocumentFacts.querySelectorAll_refine. fold imgs.
  apply three_way. intros img.
  unfold lacksAlt, Dom.matchesCompound; simpl. unfold Dom.hasAttribute.
  destruct (Dom.getAttribute img "alt") as [v|]; simpl.
  - destruct (String.eqb v EmptyString); simpl; auto 10.
  - auto 10.
Qed.

Lemma heading_one_of_six (e : Dom.Element) :
  (if Dom.matches e headingSelector then 1 else 0)
  = (if Dom.matches e (Dom.tag "h1") then 1 else 0)
    + (if Dom.matches e (Dom.tag "h2") then 1 else 0)
    + (if Dom.matches e (Dom.tag "h3") then 1 else 0)
    + (if Dom.matches e (Dom.tag "h4") then 1 else 0)
    + (if Dom.matches e (Dom.tag "h5") then 1 else 0)
    + (if Dom.matches e (Dom.tag "h6") then 1 else 0).
Proof.
  destruct e as [p n attrs cs].
  unfold Dom.matches, headingSelector, Dom.tag, Dom.sel; simpl.
  repeat match goal with
         | |- context [String.eqb n ?lit] =>
             let E := fresh "E" in
             destruct (String.eqb n lit) eqn:E;
             [apply String.eqb_eq in E; subst n; reflexivity|]
         end.
  reflexivity.
Qed.

Lemma headings_six_way (l : list Dom.Element) :
  count (filter (fun e => Dom.matches e headingSelector) l)
  = count (filter (fun e => Dom.matches e (Dom.tag "h1")) l)
    + count (filter (fun e => Dom.matches e (Dom.tag "h2")) l)
    + count (filter (fun e => Dom.matches e (Dom.tag "h3")) l)
    + count (filter (fun e => Dom.matches e (Dom.tag "h4")) l)
    + count (filter (fun e => Dom.matches e (Dom.tag "h5")) l)
    + count (filter (fun e => Dom.matches e (Dom.tag "h6")) l).
Proof.
  induction l as [|e l IH]; [reflexivity|].
  rewrite !DocumentFacts.count_filter_cons, IH, heading_one_of_six. lia.
Qed.

End MoreDocumentFacts.

(** X1.  The document analyzer throws exactly when a reference URL was
    supplied, that URL does not parse, and some link has an [href] that
    starts with neither [#] nor [/]; in every other case it returns. *)
Theorem document_analysis_throws_exactly_when (d : Dom.Document) (url : string) :
  (exists e, HtmlAnalyzer.analyzeDocument d url = Thrown e)
  <-> (url <> EmptyString /\ Url.hostname url = None /\
       existsb Observations.reachesUrl (LinkClasses.hrefs d) = true).
Proof.
  rewrite DocumentFacts.hrefs_queried.
  rewrite <- (MoreDocumentFacts.forEachLink_throws url _ (0, 0)).
  unfold HtmlAnalyzer.analyzeDocument.
  destruct (HtmlAnalyzer.forEachLink url _ (0, 0)) as [[i x]|e].
  - split; intros [e H]; discriminate H.
  - split; intros _; exists e; reflexivity.
Qed.

(** X2.  In a returned result the images fall in three groups that add
    up to [images.total]: with a non-empty [alt], with an empty [alt],
    and [withoutAlt], which, although computed by subtraction, is the
    number of images that have no [alt] attribute and so is never
    negative. *)
Theorem images_partition
        (d : Dom.Document) (url : string) (r : HtmlAnalyzer.HtmlAnalysisResult) :
  HtmlAnalyzer.analyzeDocument d url = Returned r ->
  let im := HtmlAnalyzer.images r in
  HtmlAnalyzer.Images.withoutAlt im
  = count (filter Observations.lacksAlt (Dom.querySelectorAll d (Dom.tag "img")))
  /\ HtmlAnalyzer.Images.total im
     = HtmlAnalyzer.Images.withAlt im + HtmlAnalyzer.Images.withEmptyAlt im
       + HtmlAnalyzer.Images.withoutAlt im
  /\ 0 <= HtmlAnalyzer.Images.withAlt im
  /\ 0 <= HtmlAnalyzer.Images.withEmptyAlt im
  /\ 0 <= HtmlAnalyzer.Images.withoutAlt im.
Proof.
  unfold HtmlAnalyzer.analyzeDocument.
  destruct (HtmlAnalyzer.forEachLink url _ (0, 0)) as [[i x]|e]; [|discriminate].
  intros H. inversion H as [Hr]. clear H Hr.
  cbn zeta.
  cbn [HtmlAnalyzer.images HtmlAnalyzer.Images.total HtmlAnalyzer.Images.withAlt
       HtmlAnalyzer.Images.withEmptyAlt HtmlAnalyzer.Images.withoutAlt].
  pose proof (MoreDocumentFacts.images_three_way d) as H3. cbv zeta in H3.
  pose proof (MoreDocumentFacts.count_nonneg
                (filter Observations.lacksAlt (Dom.querySelectorAll d (Dom.tag "img")))).
  pose proof (MoreDocumentFacts.count_nonneg
                (Dom.querySelectorAll d (Dom.tagAttrIs "img" "alt" EmptyString))).
  pose proof (MoreDocumentFacts.count_nonneg
                (Dom.querySelectorAll d
                   (Dom.sel [Dom.Tag "img"; Dom.Attr (Dom.HasAttr "alt");
                             Dom.Not (Dom.AttrIs "alt" EmptyString)]))).
  repeat split; lia.
Qed.

(** X2 on the page of the scenario: one image, without [alt]. *)
Lemma images_partition_on_the_scenario_page :
  match HtmlAnalyzer.analyzeDocument Examples.scenarioPage EmptyString with
  | Returned r => HtmlAnalyzer.Images.withoutAlt (HtmlAnalyzer.images r) = 1
  | Thrown _ => False
  end.
Proof.
  destruct (HtmlAnalyzer.analyzeDocument Examples.scenarioPage EmptyString)
    as [r|e] eqn:E; [|vm_compute in E; discriminate E].
  rewrite (proj1 (images_partition Examples.scenarioPage EmptyString r E)).
  reflexivity.
Defined.

(** X3.  In a returned result the heading outline has one line per
    heading: its length is the sum of the six heading counts. *)
Theorem heading_counts_add_up
        (d : Dom.Document) (url : string) (r : HtmlAnalyzer.HtmlAnalysisResult) :
  HtmlAnalyzer.analyzeDocument d url = Returned r ->
  let h := HtmlAnalyzer.headings r in
  count (HtmlAnalyzer.Headings.structure h)
  = HtmlAnalyzer.Headings.h1 h + HtmlAnalyzer.Headings.h2 h + HtmlAnalyzer.Headings.h3 h
    + HtmlAnalyzer.Headings.h4 h + HtmlAnalyzer.Headings.h5 h + HtmlAnalyzer.Headings.h6 h.
Proof.
  unfold HtmlAnalyzer.analyzeDocument.
  destruct (HtmlAnalyzer.forEachLink url _ (0, 0)) as [[i x]|e]; [|discriminate].
  intros H. inversion H as [Hr]. clear H Hr.
  cbn zeta.
  cbn [HtmlAnalyzer.headings HtmlAnalyzer.Headings.structure HtmlAnalyzer.Headings.h1
       HtmlAnalyzer.Headings.h2 HtmlAnalyzer.Headings.h3 HtmlAnalyzer.Headings.h4
       HtmlAnalyzer.Headings.h5 HtmlAnalyzer.Headings.h6].
  unfold count at 1. rewrite length_map. fold (count (Dom.querySelectorAll d HtmlAnalyzer.headingSelector)).
  unfold Dom.querySelectorAll. apply MoreDocumentFacts.headings_six_way.
Qed.

(** X3 on the page with two H1. *)
Lemma heading_counts_on_the_two_h1_page :
  match HtmlAnalyzer.analyzeDocument Examples.twoH1Page EmptyString with
  | Returned r => count (HtmlAnalyzer.Headings.structure (HtmlAnalyzer.headings r)) = 2
  | Thrown _ => False
  end.
Proof.
  destruct (HtmlAnalyzer.analyzeDocument Examples.twoH1Page EmptyString)
    as [r|e] eqn:E; [|vm_compute in E; discriminate E].
  rewrite (heading_counts_add_up Examples.twoH1Page EmptyString r E).
  vm_compute in E. injection E as <-. reflexivity.
Defined.

(* ================================================================== *)
(** ** The scores derived from a document analysis                     *)
(* ================================================================== *)

Module ScoreFacts.
Import HtmlAnalyzer DocumentRules Observations SeoAnalyzer.

Lemma seo_fold (issues : list Issue.t) : forall start,
  fold_left
    (fun score issue =>
       match Issue.severity issue with
       | high => score - 10
       | medium => score - 5
       | low => score - 2
       end) issues start
  = start - seoCharges (map findingOf issues).
Proof.
  induction issues as [|i issues IH]; intros start; simpl; [lia|].
  rewrite IH. unfold seoCharge, findingOf; simpl.
  destruct (Issue.severity i); lia.
Qed.

Lemma seoCharges_counts (issues : list Issue.t) :
  seoCharges (map findingOf issues)
  = 10 * severityCount high issues + 5 * severityCount medium issues
    + 2 * severityCount low issues.
Proof.
  unfold severityCount.
  induction issues as [|i issues IH]; [reflexivity|].
  cbn [map seoCharges]. rewrite !DocumentFacts.count_filter_cons, IH.
  unfold seoCharge, findingOf; cbn [fst].
  destruct (Issue.severity i); lia.
Qed.

Lemma seoCharges_nonneg (fs : list Finding) : 0 <= seoCharges fs.
Proof.
  induction fs as [|f fs IH]; simpl; [lia|].
  unfold seoCharge. destruct (fst f); lia.
Qed.

Lemma seoCharges_app (a b : list Finding) :
  seoCharges (a ++ b) = seoCharges a + seoCharges b.
Proof. induction a as [|f a IH]; simpl; [reflexivity|]. rewrite IH. lia. Qed.

Lemma accessibility_fold (issues : list Issue.t) : forall start,
  fold_left
    (fun score issue =>
       if isAccessibilityIssue (Issue.title issue) then
         match Issue.severity issue with
         | high => score - 15
         | medium => score - 8
         | low => score - 3
         end
       else score) issues start
  = start - accessibilityCharges (map findingOf issues).
Proof.
  induction issues as [|i issues IH]; intros start; simpl; [lia|].
  rewrite IH. unfold accessibilityCharge, findingOf; simpl.
  destruct (isAccessibilityIssue (Issue.title i)); [destruct (Issue.severity i)|]; lia.
Qed.

Lemma accessibilityCharges_app (a b : list Finding) :
  accessibilityCharges (a ++ b) = accessibilityCharges a + accessibilityCharges b.
Proof. induction a as [|f a IH]; simpl; [reflexivity|]. rewrite IH. lia. Qed.

(** No charge at all, or at least 3. *)
Lemma accessibilityCharges_step (fs : list Finding) :
  (accessibilityCharges fs = 0 /\
   existsb (fun f => isAccessibilityIssue (snd f)) fs = false)
  \/ (3 <= accessibilityCharges fs /\
      existsb (fun f => isAccessibilityIssue (snd f)) fs = true).
Proof.
  induction fs as [|f fs IH]; simpl; [left; split; reflexivity|].
  unfold accessibilityCharge.
  destruct (isAccessibilityIssue (snd f)); simpl.
  - right. split; [|reflexivity].
    destruct IH as [[-> _]|[H _]]; destruct (fst f); lia.
  - destruct IH as [[-> ->]|[H ->]]; [left|right]; split; auto; lia.
Qed.

Lemma findings_map (r : HtmlAnalysisResult) : findings r = map findingOf (issues r).
Proof. reflexivity. Qed.

(** The charges of the nine rules. *)
Lemma rules_split (d : Dom.Document) (r : HtmlAnalysisResult) :
  present (rules d r)
  = present [titleRule (title r)] ++
    present [metaDescriptionRule (description r)] ++
    present [h1Rule (Headings.h1 (headings r))] ++
    present [h2WithoutH1Rule (Headings.h1 (headings r)) (Headings.h2 (headings r))] ++
    present [h3WithoutH2Rule (Headings.h2 (headings r)) (Headings.h3 (headings r))] ++
    present [imagesRule (Images.withoutAlt (images r)) (Images.total (images r))] ++
    present [linksRule (linksWithoutText d)] ++
    present [viewportRule (hasViewport d)] ++
    present [structuredDataRule (hasJsonLd d) (hasMicrodata d)].
Proof.
  unfold rules. cbv zeta. rewrite !(DocumentFacts.present_cons _ (_ :: _)). reflexivity.
Qed.

Lemma seo_charges_bound (d : Dom.Document) (r : HtmlAnalysisResult) :
  seoCharges (present (rules d r)) <= 60.
Proof.
  rewrite rules_split, !seoCharges_app.
  assert (H1 : seoCharges (present [titleRule (title r)]) <= 10)
    by (unfold titleRule; split_conditions; simpl; unfold seoCharge; simpl; lia).
  assert (H2 : seoCharges (present [metaDescriptionRule (description r)]) <= 10)
    by (unfold metaDescriptionRule; split_conditions; simpl; unfold seoCharge; simpl; lia).
  assert (H3 : seoCharges (present [h1Rule (Headings.h1 (headings r))]) <= 10)
    by (unfold h1Rule; split_conditions; simpl; unfold seoCharge; simpl; lia).
  assert (H45 : seoCharges (present [h2WithoutH1Rule (Headings.h1 (headings r))
                                                     (Headings.h2 (headings r))])
                + seoCharges (present [h3WithoutH2Rule (Headings.h2 (headings r))
                                                       (Headings.h3 (headings r))]) <= 5).
  { unfold h2WithoutH1Rule, h3WithoutH2Rule.
    destruct (0 <? Headings.h2 (headings r)) eqn:E2;
      destruct (Headings.h2 (headings r) =? 0) eqn:E0; try lia;
      destruct (Headings.h1 (headings r) =? 0);
      destruct (0 <? Headings.h3 (headings r));
      simpl; unfold seoCharge; simpl; lia. }
  assert (H6 : seoCharges (present [imagesRule (Images.withoutAlt (images r))
                                               (Images.total (images r))]) <= 5)
    by (unfold imagesRule; split_conditions; simpl; unfold seoCharge; simpl; lia).
  assert (H7 : seoCharges (present [linksRule (linksWithoutText d)]) <= 5)
    by (unfold linksRule; split_conditions; simpl; unfold seoCharge; simpl; lia).
  assert (H8 : seoCharges (present [viewportRule (hasViewport d)]) <= 10)
    by (unfold viewportRule; split_conditions; simpl; unfold seoCharge; simpl; lia).
  assert (H9 : seoCharges (present [structuredDataRule (hasJsonLd d) (hasMicrodata d)]) <= 5)
    by (unfold structuredDataRule; split_conditions; simpl; unfold seoCharge; simpl; lia).
  lia.
Qed.

Lemma accessibility_charges_of_rules (d : Dom.Document) (r : HtmlAnalysisResult) :
  accessibilityCharges (present (rules d r))
  = match imagesRule (Images.withoutAlt (images r)) (Images.total (images r)) with
    | Some _ => 8
    | None => 0
    end.
Proof.
  rewrite rules_split, !accessibilityCharges_app.
  assert (H1 : accessibilityCharges (present [titleRule (title r)]) = 0)
    by (unfold titleRule; split_conditions; reflexivity).
  assert (H2 : accessibilityCharges (present [metaDescriptionRule (description r)]) = 0)
    by (unfold metaDescriptionRule; split_conditions; reflexivity).
  assert (H3 : accessibilityCharges (present [h1Rule (Headings.h1 (headings r))]) = 0)
    by (unfold h1Rule; split_conditions; reflexivity).
  assert (H4 : accessibilityCharges
                 (present [h2WithoutH1Rule (Headings.h1 (headings r))
                                           (Headings.h2 (headings r))]) = 0)
    by (unfold h2WithoutH1Rule; split_conditions; reflexivity).
  assert (H5 : accessibilityCharges
                 (present [h3WithoutH2Rule (Headings.h2 (headings r))
                                           (Headings.h3 (headings r))]) = 0)
    by (unfold h3WithoutH2Rule; split_conditions; reflexivity).
  assert (H7 : accessibilityCharges (present [linksRule (linksWithoutText d)]) = 0)
    by (unfold linksRule; split_conditions; reflexivity).
  assert (H8 : accessibilityCharges (present [viewportRule (hasViewport d)]) = 0)
    by (unfold viewportRule; split_conditions; reflexivity).
  assert (H9 : accessibilityCharges
                 (present [structuredDataRule (hasJsonLd d) (hasMicrodata d)]) = 0)
    by (unfold structuredDataRule; split_conditions; reflexivity).
  rewrite H1, H2, H3, H4, H5, H7, H8, H9.
  unfold imagesRule. split_conditions; reflexivity.
Qed.

Lemma withoutAlt_counts (d : Dom.Document) (url : string) (r : HtmlAnalysisResult) :
  analyzeDocument d url = Returned r ->
  Images.withoutAlt (images r)
  = count (filter lacksAlt (Dom.querySelectorAll d (Dom.tag "img")))
  /\ Images.withoutAlt (images r) <= Images.total (images r).
Proof.
  unfold analyzeDocument.
  destruct (forEachLink url _ (0, 0)) as [[i x]|e]; [|discriminate].
  intros H. inversion H as [Hr]. clear H Hr.
  cbn [images Images.total Images.withoutAlt].
  pose proof (MoreDocumentFacts.images_three_way d) as H3. cbv zeta in H3.
  pose proof (MoreDocumentFacts.count_nonneg
                (Dom.querySelectorAll d (Dom.tagAttrIs "img" "alt" EmptyString))).
  pose proof (MoreDocumentFacts.count_nonneg
                (Dom.querySelectorAll d
                   (Dom.sel [Dom.Tag "img"; Dom.Attr (Dom.HasAttr "alt");
                             Dom.Not (Dom.AttrIs "alt" EmptyString)]))).
  split; lia.
Qed.

End ScoreFacts.

(** X4.  The SEO score is 100 minus 10 per high, 5 per medium and 2 per
    low issue, never below 0: it depends on the three counts only, and
    the upper clamp at 100 never acts. *)
Theorem seo_score_formula (issues : list HtmlAnalyzer.Issue.t) :
  SeoAnalyzer.calculateSeoScoreFromIssues issues
  = Z.max 0 (100 - 10 * Observations.severityCount high issues
                 - 5 * Observations.severityCount medium issues
                 - 2 * Observations.severityCount low issues).
Proof.
  unfold SeoAnalyzer.calculateSeoScoreFromIssues.
  rewrite ScoreFacts.seo_fold, ScoreFacts.seoCharges_counts.
  pose proof (MoreDocumentFacts.count_nonneg
                (filter (fun i => match HtmlAnalyzer.Issue.severity i, high with
                                  | high, high | medium, medium | low, low => true
                                  | _, _ => false end) issues)).
  unfold Observations.severityCount.
  pose proof (MoreDocumentFacts.count_nonneg
                (filter (fun i => match HtmlAnalyzer.Issue.severity i, medium with
                                  | high, high | medium, medium | low, low => true
                                  | _, _ => false end) issues)).
  pose proof (MoreDocumentFacts.count_nonneg
                (filter (fun i => match HtmlAnalyzer.Issue.severity i, low with
                                  | high, high | medium, medium | low, low => true
                                  | _, _ => false end) issues)).
  lia.
Qed.

(** X5.  The SEO score computed from the issues of a document analysis,
    as the upload path does, is never below 40: the nine checks can take
    off at most 60, because "H2 without H1" and "H3 without H2" exclude
    each other. *)
Theorem seo_score_of_an_analysis_at_least_40
        (d : Dom.Document) (url : string) (r : HtmlAnalyzer.HtmlAnalysisResult) :
  HtmlAnalyzer.analyzeDocument d url = Returned r ->
  40 <= SeoAnalyzer.calculateSeoScoreFromIssues (HtmlAnalyzer.issues r) <= 100.
Proof.
  intros H. unfold SeoAnalyzer.calculateSeoScoreFromIssues.
  rewrite ScoreFacts.seo_fold, <- ScoreFacts.findings_map.
  rewrite (MoreDocumentFacts.findings_rules d url r H).
  pose proof (ScoreFacts.seo_charges_bound d r).
  pose proof (ScoreFacts.seoCharges_nonneg (DocumentRules.present (DocumentRules.rules d r))).
  lia.
Qed.

(** X5 on a page that fails eight checks. *)
Lemma seo_score_of_the_worst_page :
  match HtmlAnalyzer.analyzeDocument Examples.worstPage EmptyString with
  | Returned r =>
      40 <= SeoAnalyzer.calculateSeoScoreFromIssues (HtmlAnalyzer.issues r) <= 100
  | Thrown _ => False
  end.
Proof.
  destruct (HtmlAnalyzer.analyzeDocument Examples.worstPage EmptyString)
    as [r|e] eqn:E; [|vm_compute in E; discriminate E].
  exact (seo_score_of_an_analysis_at_least_40 Examples.worstPage EmptyString r E).
Defined.

(** The bound of 40 is reached on that page. *)
Example seo_score_40_is_reached :
  match HtmlAnalyzer.analyzeDocument Examples.worstPage EmptyString with
  | Returned r => SeoAnalyzer.calculateSeoScoreFromIssues (HtmlAnalyzer.issues r) = 40
  | Thrown _ => False
  end.
Proof. vm_compute. reflexivity. Qed.

(** X6.  The accessibility score is never above 97: issues that concern
    accessibility take off at least 3, and a list without any such issue
    scores 90, not 100. *)
Theorem accessibility_score_range (issues : list HtmlAnalyzer.Issue.t) :
  0 <= SeoAnalyzer.calculateAccessibilityScoreFromIssues issues <= 97
  /\ (if existsb (fun i => SeoAnalyzer.isAccessibilityIssue (HtmlAnalyzer.Issue.title i)) issues
      then True
      else SeoAnalyzer.calculateAccessibilityScoreFromIssues issues = 90).
Proof.
  unfold SeoAnalyzer.calculateAccessibilityScoreFromIssues.
  rewrite ScoreFacts.accessibility_fold.
  assert (Hex : existsb (fun i => SeoAnalyzer.isAccessibilityIssue (HtmlAnalyzer.Issue.title i)) issues
                = existsb (fun f => SeoAnalyzer.isAccessibilityIssue (snd f))
                          (map Observations.findingOf issues)).
  { induction issues as [|i issues IH]; simpl; [reflexivity|]. rewrite IH. reflexivity. }
  rewrite Hex.
  destruct (ScoreFacts.accessibilityCharges_step (map Observations.findingOf issues))
    as [[-> ->]|[H ->]].
  - cbn. split; [lia|reflexivity].
  - replace (100 - Observations.accessibilityCharges (map Observations.findingOf issues) =? 100)
      with false by lia.
    split; [lia|exact I].
Qed.

(** X7.  The accessibility score computed from the issues of a document
    analysis is 92 when some image has no [alt] attribute and 90
    otherwise: a page with that defect scores higher than a page
    without. *)
Theorem accessibility_score_of_an_analysis
        (d : Dom.Document) (url : string) (r : HtmlAnalyzer.HtmlAnalysisResult) :
  HtmlAnalyzer.analyzeDocument d url = Returned r ->
  SeoAnalyzer.calculateAccessibilityScoreFromIssues (HtmlAnalyzer.issues r)
  = if 0 <? count (filter Observations.lacksAlt (Dom.querySelectorAll d (Dom.tag "img")))
    then 92 else 90.
Proof.
  intros H. unfold SeoAnalyzer.calculateAccessibilityScoreFromIssues.
  rewrite ScoreFacts.accessibility_fold, <- ScoreFacts.findings_map.
  rewrite (MoreDocumentFacts.findings_rules d url r H).
  rewrite ScoreFacts.accessibility_charges_of_rules.
  destruct (ScoreFacts.withoutAlt_counts d url r H) as [Hw Hle].
  rewrite <- Hw. unfold DocumentRules.imagesRule.
  destruct (0 <? HtmlAnalyzer.Images.withoutAlt (HtmlAnalyzer.images r)) eqn:E.
  - replace (0 <? HtmlAnalyzer.Images.total (HtmlAnalyzer.images r)) with true by lia.
    reflexivity.
  - reflexivity.
Qed.

(** X7 on the page of the scenario (an image without [alt]) and on the
    empty page. *)
Lemma accessibility_score_of_two_pages :
  match HtmlAnalyzer.analyzeDocument Examples.scenarioPage EmptyString,
        HtmlAnalyzer.analyzeDocument Examples.emptyPage EmptyString with
  | Returned r, Returned r' =>
      SeoAnalyzer.calculateAccessibilityScoreFromIssues (HtmlAnalyzer.issues r) = 92
      /\ SeoAnalyzer.calculateAccessibilityScoreFromIssues (HtmlAnalyzer.issues r') = 90
  | _, _ => False
  end.
Proof.
  destruct (HtmlAnalyzer.analyzeDocument Examples.scenarioPage EmptyString)
    as [r|e] eqn:E; [|vm_compute in E; discriminate E].
  destruct (HtmlAnalyzer.analyzeDocument Examples.emptyPage EmptyString)
    as [r'|e'] eqn:E'; [|vm_compute in E'; discriminate E'].
  rewrite (accessibility_score_of_an_analysis Examples.scenarioPage EmptyString r E).
  rewrite (accessibility_score_of_an_analysis Examples.emptyPage EmptyString r' E').
  split; reflexivity.
Defined.

(** X8.  In a returned result, "H2 without H1" is only ever reported
    together with "Missing H1 heading", and "Missing H1 heading" never
    together with "Multiple H1 headings". *)
Theorem h1_issues_go_together
        (d : Dom.Document) (url : string) (r : HtmlAnalyzer.HtmlAnalysisResult) :
  HtmlAnalyzer.analyzeDocument d url = Returned r ->
  let fs := Observations.findings r in
  (In (medium, "H2 without H1") fs -> In (high, "Missing H1 heading") fs)
  /\ ~ (In (high, "Missing H1 heading") fs /\ In (medium, "Multiple H1 headings") fs).
Proof.
  intros H fs. subst fs. rewrite (MoreDocumentFacts.findings_rules d url r H).
  rewrite ScoreFacts.rules_split.
  set (h1 := HtmlAnalyzer.Headings.h1 (HtmlAnalyzer.headings r)).
  assert (Hin : forall f rest,
             In f (DocumentRules.present [DocumentRules.h1Rule h1] ++ rest) ->
             In f (DocumentRules.present [DocumentRules.titleRule (HtmlAnalyzer.title r)] ++
                   DocumentRules.present
                     [DocumentRules.metaDescriptionRule (HtmlAnalyzer.description r)] ++
                   DocumentRules.present [DocumentRules.h1Rule h1] ++ rest)).
  { intros f rest Hf. apply in_or_app. right. apply in_or_app. right. exact Hf. }
  assert (Hfrom : forall f,
             snd f = "Missing H1 heading" \/ snd f = "Multiple H1 headings"
             \/ snd f = "H2 without H1" ->
             In f (DocumentRules.present [DocumentRules.titleRule (HtmlAnalyzer.title r)] ++
                   DocumentRules.present
                     [DocumentRules.metaDescriptionRule (HtmlAnalyzer.description r)] ++
                   DocumentRules.present [DocumentRules.h1Rule h1] ++
                   DocumentRules.present
                     [DocumentRules.h2WithoutH1Rule h1
                        (HtmlAnalyzer.Headings.h2 (HtmlAnalyzer.headings r))] ++
                   DocumentRules.present
                     [DocumentRules.h3WithoutH2Rule
                        (HtmlAnalyzer.Headings.h2 (HtmlAnalyzer.headings r))
                        (HtmlAnalyzer.Headings.h3 (HtmlAnalyzer.headings r))] ++
                   DocumentRules.present
                     [DocumentRules.imagesRule
                        (HtmlAnalyzer.Images.withoutAlt (HtmlAnalyzer.images r))
                        (HtmlAnalyzer.Images.total (HtmlAnalyzer.images r))] ++
                   DocumentRules.present
                     [DocumentRules.linksRule (DocumentRules.linksWithoutText d)] ++
                   DocumentRules.present
                     [DocumentRules.viewportRule (DocumentRules.hasViewport d)] ++
                   DocumentRules.present
                     [DocumentRules.structuredDataRule (DocumentRules.hasJsonLd d)
                                                       (DocumentRules.hasMicrodata d)]) ->
             In f (DocumentRules.present [DocumentRules.h1Rule h1]) \/
             In f (DocumentRules.present
                     [DocumentRules.h2WithoutH1Rule h1
                        (HtmlAnalyzer.Headings.h2 (HtmlAnalyzer.headings r))])).
  { intros f Hname Hf.
    repeat (apply in_app_or in Hf; destruct Hf as [Hf|Hf]); auto; exfalso;
      revert Hf;
      unfold DocumentRules.titleRule, DocumentRules.metaDescriptionRule,
        DocumentRules.h3WithoutH2Rule, DocumentRules.imagesRule, DocumentRules.linksRule,
        DocumentRules.viewportRule, DocumentRules.structuredDataRule;
      split_conditions; simpl; intros Hf;
      repeat (destruct Hf as [Hf|Hf]; [subst f; simpl in Hname;
                                       destruct Hname as [E|[E|E]]; discriminate E|]);
      exact Hf. }
  split.
  - intros Hh2. apply Hin.
    destruct (Hfrom (medium, "H2 without H1") (or_intror (or_intror eq_refl)) Hh2)
      as [Hf|Hf]; revert Hf.
    + unfold DocumentRules.h1Rule. split_conditions; simpl; intuition discriminate.
    + unfold DocumentRules.h2WithoutH1Rule, DocumentRules.h1Rule.
      destruct (0 <? _); destruct (h1 =? 0); simpl; intros Hf;
        [left; reflexivity | | | ]; destruct Hf.
  - intros [Hmissing Hmultiple].
    destruct (Hfrom (high, "Missing H1 heading") (or_introl eq_refl) Hmissing) as [Hf|Hf];
      destruct (Hfrom (medium, "Multiple H1 headings") (or_intror (or_introl eq_refl))
                      Hmultiple) as [Hg|Hg];
      revert Hf Hg;
      unfold DocumentRules.h1Rule, DocumentRules.h2WithoutH1Rule;
      split_conditions; simpl; intuition discriminate.
Qed.

(** X8 on a page with an H2 and no H1. *)
Lemma h1_issues_on_the_worst_page :
  match HtmlAnalyzer.analyzeDocument Examples.worstPage EmptyString with
  | Returned r => In (high, "Missing H1 heading") (Observations.findings r)
  | Thrown _ => False
  end.
Proof.
  destruct (HtmlAnalyzer.analyzeDocument Examples.worstPage EmptyString)
    as [r|e] eqn:E; [|vm_compute in E; discriminate E].
  apply (proj1 (h1_issues_go_together Examples.worstPage EmptyString r E)).
  vm_compute in E. injection E as <-. vm_compute. auto 10.
Defined.

(* ================================================================== *)
(** ** Further properties of the element analyzer                      *)
(* ================================================================== *)

Module MoreNewsFacts.
Import ElementAnalysis Trace Observations.

Lemma walkNews_filter (p : ElementIssue -> bool) (d : Dom.Document) :
  filter p (walkNews d)
  = filter p (titleNews (Dom.querySelector d (Dom.tag "title"))) ++
    filter p (metaNews (Dom.querySelector d (Dom.tagAttrIs "meta" "name" "description"))) ++
    filter p (flat_map (imageNews (sections d)) (Dom.querySelectorAll d (Dom.tag "img"))) ++
    filter p (headingNews (sections d) 0 (JS.Num 0)
                (Dom.querySelectorAll d HtmlAnalyzer.headingSelector)) ++
    filter p (missingH1News (h1After (sections d) 0 (JS.Num 0)
                (Dom.querySelectorAll d HtmlAnalyzer.headingSelector))) ++
    filter p (flat_map (linkNews (sections d)) (Dom.querySelectorAll d linkSelector)) ++
    filter p (flat_map (paragraphNews (sections d)) (Dom.querySelectorAll d (Dom.tag "p"))).
Proof. unfold walkNews. rewrite !filter_app. reflexivity. Qed.

Lemma headingNews_quiet (p : ElementIssue -> bool) secs :
  (forall c previous h,
      filter p (elementIssues (result (headingStep secs c previous h))) = []) ->
  forall hs c previous, filter p (headingNews secs c previous hs) = [].
Proof.
  intros H. induction hs as [|h hs IH]; intros c previous; [reflexivity|].
  rewrite NewsFacts.headingNews_cons, filter_app, H, IH. reflexivity.
Qed.

(** *** The H1 count and the missing H1 *)

Lemma h1After_counts secs hs : forall c previous,
  h1After secs c previous hs = c + count (filter isLevel1 hs).
Proof.
  induction hs as [|h hs IH]; intros c previous.
  - unfold count; simpl. lia.
  - cbn [h1After]. cbv zeta. rewrite IH.
    rewrite (proj2 (NewsFacts.headingStep_multiple secs c previous h)).
    rewrite DocumentFacts.count_filter_cons. destruct (isLevel1 h); lia.
Qed.

Lemma missingH1_alone (d : Dom.Document) :
  filter isMissingH1 (walkNews d)
  = missingH1News (count (Dom.querySelectorAll d (Dom.tag "h1"))).
Proof.
  rewrite walkNews_filter.
  replace (filter isMissingH1 (titleNews _)) with (@nil ElementIssue)
    by (symmetry; by_cases_of_a_check).
  replace (filter isMissingH1 (metaNews _)) with (@nil ElementIssue)
    by (symmetry; by_cases_of_a_check).
  rewrite !NewsFacts.filter_flat_map_nil by by_cases_of_a_check.
  rewrite headingNews_quiet by by_cases_of_a_check.
  rewrite h1After_counts, NewsFacts.level1_headings.
  cbn [app]. rewrite app_nil_r, Z.add_0_l.
  by_cases_of_a_check.
Qed.

(** *** The image issues *)

Lemma imageNews_count secs img :
  filter isImageIssue (imageNews secs img) = imageNews secs img
  /\ count (imageNews secs img) = if lacksAlt img then 1 else 0.
Proof. unfold lacksAlt. by_cases_of_a_check; split; reflexivity. Qed.

Lemma image_issues_alone (d : Dom.Document) :
  count (filter isImageIssue (walkNews d))
  = count (filter lacksAlt (Dom.querySelectorAll d (Dom.tag "img"))).
Proof.
  rewrite walkNews_filter.
  replace (filter isImageIssue (titleNews _)) with (@nil ElementIssue)
    by (symmetry; by_cases_of_a_check).
  replace (filter isImageIssue (metaNews _)) with (@nil ElementIssue)
    by (symmetry; by_cases_of_a_check).
  replace (filter isImageIssue (missingH1News _)) with (@nil ElementIssue)
    by (symmetry; by_cases_of_a_check).
  rewrite headingNews_quiet by by_cases_of_a_check.
  rewrite !(NewsFacts.filter_flat_map_nil isImageIssue (linkNews _))
    by by_cases_of_a_check.
  rewrite !(NewsFacts.filter_flat_map_nil isImageIssue (paragraphNews _))
    by by_cases_of_a_check.
  cbn [app]. rewrite app_nil_r.
  induction (Dom.querySelectorAll d (Dom.tag "img")) as [|img imgs IH]; [reflexivity|].
  cbn [flat_map]. rewrite filter_app, DocumentFacts.count_app, IH.
  destruct (imageNews_count (sections d) img) as [-> ->].
  rewrite DocumentFacts.count_filter_cons. reflexivity.
Qed.

End MoreNewsFacts.

(** X9.  After the clamp, the score of every section record is 100
    minus the penalties of the issues in its list (25, 15 or 10 for the
    title and for the meta description, 10 per image, 15 per further
    H1, 5 per skipped level, 20 for the missing H1, 10 per link, 5 per
    paragraph), kept within 0 and 100. *)
Theorem section_score_is_100_minus_penalties (d : Dom.Document) (url : string) :
  Forall (fun s =>
            ElementAnalysis.score s
            = Z.max 0 (Z.min 100 (100 - Penalties.total (ElementAnalysis.issues s))))
         (ElementAnalysis.sectionAnalysis (ElementAnalysis.analyzeElements d url)).
Proof.
  rewrite RecordFacts.analyzeElements_sections.
  simpl. repeat (constructor; [reflexivity|]). constructor.
Qed.

(** X10.  The element analysis reports "Missing H1 heading" exactly when
    the document has no [h1] element, as a high issue of the section
    [content]; and it reports "Multiple H1 headings" once for every
    [h1] after the first, so never together with the former. *)
Theorem missing_and_multiple_h1 (d : Dom.Document) (url : string) :
  let r := ElementAnalysis.analyzeElements d url in
  let h1s := Dom.querySelectorAll d (Dom.tag "h1") in
  map (fun i => (ElementAnalysis.severity i, ElementAnalysis.section i))
      (filter Observations.isMissingH1 (ElementAnalysis.elementIssues r))
  = (if count h1s =? 0 then [(high, "content")] else [])
  /\ count (filter Trace.isMultipleH1 (ElementAnalysis.elementIssues r))
     = Z.max 0 (count h1s - 1).
Proof.
  intros r h1s. subst r h1s.
  rewrite RecordFacts.analyzeElements_issues.
  rewrite MoreNewsFacts.missingH1_alone, NewsFacts.walkNews_multiple.
  split.
  - unfold Trace.missingH1News, ElementAnalysis.checkMissingH1, Trace.startAt.
    cbn [ElementAnalysis.h1Count ElementAnalysis.result].
    destruct (count _ =? 0); reflexivity.
  - unfold count. rewrite length_map.
    destruct (Dom.querySelectorAll d (Dom.tag "h1")) as [|h hs]; cbn [tl List.length]; lia.
Qed.

(** X11.  The two analyzers agree on the images: the element analysis
    raises one image issue per image that has no [alt] attribute, and
    their number is the [withoutAlt] of the document analysis. *)
Theorem image_issues_match_withoutAlt
        (d : Dom.Document) (url url' : string) (r : HtmlAnalyzer.HtmlAnalysisResult) :
  HtmlAnalyzer.analyzeDocument d url = Returned r ->
  count (filter Observations.isImageIssue
                (ElementAnalysis.elementIssues (ElementAnalysis.analyzeElements d url')))
  = HtmlAnalyzer.Images.withoutAlt (HtmlAnalyzer.images r).
Proof.
  intros H. rewrite RecordFacts.analyzeElements_issues, MoreNewsFacts.image_issues_alone.
  symmetry. exact (proj1 (ScoreFacts.withoutAlt_counts d url r H)).
Qed.

(** X11 on the page of the scenario. *)
Lemma image_issues_on_the_scenario_page :
  count (filter Observations.isImageIssue
                (ElementAnalysis.elementIssues
                   (ElementAnalysis.analyzeElements Examples.scenarioPage EmptyString)))
  = 1.
Proof.
  destruct (HtmlAnalyzer.analyzeDocument Examples.scenarioPage EmptyString)
    as [r|e] eqn:E; [|vm_compute in E; discriminate E].
  rewrite (image_issues_match_withoutAlt Examples.scenarioPage EmptyString EmptyString r E).
  vm_compute in E. injection E as <-. reflexivity.
Defined.

Module SkipFacts.
Import ElementAnalysis Trace Observations.

Lemma parseInt_level (e : Dom.Element) :
  Dom.matches e HtmlAnalyzer.headingSelector = true ->
  JS.parseInt (JS.substring1 (Dom.tagName e)) = JS.Num (headingLevel e).
Proof.
  destruct e as [p n attrs cs].
  unfold Dom.matches, HtmlAnalyzer.headingSelector, headingLevel, Dom.tagName; simpl.
  intros H.
  repeat match type of H with
         | (?a && true || ?rest) = true =>
             let E := fresh "E" in
             destruct a eqn:E;
             [ apply String.eqb_eq in E; subst n; reflexivity | simpl in H ]
         end.
  discriminate H.
Qed.

Lemma headingStep_skipped secs c p h :
  Dom.matches h HtmlAnalyzer.headingSelector = true ->
  map issue (filter isSkipped (elementIssues (result (headingStep secs c (JS.Num p) h))))
  = map jumpText (if (0 <? p) && (p + 1 <? headingLevel h)
                  then [(p, headingLevel h)] else [])
  /\ previousHeadingLevel (headingStep secs c (JS.Num p) h) = JS.Num (headingLevel h).
Proof.
  intros Hm. unfold headingStep, checkHeading, startAt.
  cbn [result h1Count previousHeadingLevel].
  rewrite (parseInt_level h Hm).
  cbn [JS.gt JS.plus]. rewrite !Z.gtb_ltb.
  split; [|reflexivity].
  destruct (JS.strictEq _ 1 && _); destruct ((0 <? p) && (p + 1 <? headingLevel h));
    reflexivity.
Qed.

Lemma headingNews_skipped secs hs : forall c p,
  Forall (fun h => Dom.matches h HtmlAnalyzer.headingSelector = true) hs ->
  map issue (filter isSkipped (headingNews secs c (JS.Num p) hs))
  = map jumpText (jumpsFrom p (map headingLevel hs)).
Proof.
  induction hs as [|h hs IH]; intros c p Hall; [reflexivity|].
  inversion Hall as [|? ? Hh Hrest]; subst.
  rewrite NewsFacts.headingNews_cons, filter_app, map_app.
  destruct (headingStep_skipped secs c p h Hh) as [-> ->].
  rewrite IH by exact Hrest.
  cbn [map jumpsFrom]. rewrite map_app. reflexivity.
Qed.

Lemma queried_match (d : Dom.Document) (s : Dom.Selector) :
  Forall (fun e => Dom.matches e s = true) (Dom.querySelectorAll d s).
Proof.
  apply Forall_forall. intros e He. unfold Dom.querySelectorAll in He.
  apply filter_In in He. exact (proj2 He).
Qed.

End SkipFacts.

(** X12.  The "Skipped heading level" issues are exactly the jumps in
    the sequence of all headings in document order: one issue for every
    heading whose level is more than one above the level of the heading
    just before it, wherever the two are in the tree, and none for the
    first heading, whatever its level. *)
Theorem skipped_levels_are_consecutive_jumps (d : Dom.Document) (url : string) :
  map ElementAnalysis.issue
      (filter Observations.isSkipped
              (ElementAnalysis.elementIssues (ElementAnalysis.analyzeElements d url)))
  = map Observations.jumpText
        (Observations.jumpsFrom 0
           (map Observations.headingLevel
                (Dom.querySelectorAll d HtmlAnalyzer.headingSelector))).
Proof.
  rewrite RecordFacts.analyzeElements_issues, MoreNewsFacts.walkNews_filter.
  replace (filter Observations.isSkipped (Trace.titleNews _))
    with (@nil ElementAnalysis.ElementIssue) by (symmetry; by_cases_of_a_check).
  replace (filter Observations.isSkipped (Trace.metaNews _))
    with (@nil ElementAnalysis.ElementIssue) by (symmetry; by_cases_of_a_check).
  replace (filter Observations.isSkipped (Trace.missingH1News _))
    with (@nil ElementAnalysis.ElementIssue) by (symmetry; by_cases_of_a_check).
  rewrite !NewsFacts.filter_flat_map_nil by by_cases_of_a_check.
  cbn [app]. rewrite app_nil_r.
  apply SkipFacts.headingNews_skipped, SkipFacts.queried_match.
Qed.

(** The jumps of H1, H4, H2, H3, H6; and a first heading H3 is no jump. *)
Example jumps_of_a_sequence :
  Observations.jumpsFrom 0 [1; 4; 2; 3; 6] = [(1, 4); (3, 6)]
  /\ Observations.jumpsFrom 0 [3; 4] = [].
Proof. split; reflexivity. Qed.

Module ConsistencyFacts.
Import ElementAnalysis Trace Observations.

Lemma title_issues_alone (d : Dom.Document) :
  filter isTitleIssue (walkNews d) = titleNews (Dom.querySelector d (Dom.tag "title")).
Proof.
  rewrite MoreNewsFacts.walkNews_filter.
  replace (filter isTitleIssue (metaNews _)) with (@nil ElementIssue)
    by (symmetry; by_cases_of_a_check).
  replace (filter isTitleIssue (missingH1News _)) with (@nil ElementIssue)
    by (symmetry; by_cases_of_a_check).
  rewrite MoreNewsFacts.headingNews_quiet by by_cases_of_a_check.
  rewrite !NewsFacts.filter_flat_map_nil by by_cases_of_a_check.
  cbn [app]. rewrite app_nil_r.
  by_cases_of_a_check.
Qed.

Lemma document_title (d : Dom.Document) (url : string) (r : HtmlAnalyzer.HtmlAnalysisResult) :
  HtmlAnalyzer.analyzeDocument d url = Returned r ->
  HtmlAnalyzer.title r = titleText (Dom.querySelector d (Dom.tag "title"))
  /\ HtmlAnalyzer.description r
     = match Dom.querySelector d (Dom.tagAttrIs "meta" "name" "description") with
       | Some m => HtmlAnalyzer.orEmpty (Dom.getAttribute m "content")
       | None => EmptyString
       end.
Proof.
  unfold HtmlAnalyzer.analyzeDocument.
  destruct (HtmlAnalyzer.forEachLink url _ (0, 0)) as [[i x]|e]; [|discriminate].
  intros H. inversion H as [Hr]. clear H Hr.
  cbn [HtmlAnalyzer.title HtmlAnalyzer.description]. unfold titleText.
  split.
  - destruct (Dom.querySelector d (Dom.tag "title")); reflexivity.
  - destruct (Dom.querySelector d (Dom.tagAttrIs "meta" "name" "description")); reflexivity.
Qed.

End ConsistencyFacts.

(** X13.  Whenever the document analysis reports an issue about the
    title, the element analysis of the same document reports exactly one
    issue about the title, of the same severity; and likewise for the
    meta description.  (The converse fails: a title of 10 to 19
    characters, or a description of 50 to 69, only fails the element
    analysis.) *)
Theorem title_and_description_issues_agree
        (d : Dom.Document) (url url' : string) (r : HtmlAnalyzer.HtmlAnalysisResult) :
  HtmlAnalyzer.analyzeDocument d url = Returned r ->
  let issues := ElementAnalysis.elementIssues (ElementAnalysis.analyzeElements d url') in
  match DocumentRules.titleRule (HtmlAnalyzer.title r) with
  | Some (sev, _) =>
      map ElementAnalysis.severity (filter Observations.isTitleIssue issues) = [sev]
  | None => True
  end
  /\ match DocumentRules.metaDescriptionRule (HtmlAnalyzer.description r) with
     | Some (sev, _) =>
         map ElementAnalysis.severity (filter Trace.isMetaIssue issues) = [sev]
     | None => True
     end.
Proof.
  intros H issues. subst issues.
  destruct (ConsistencyFacts.document_title d url r H) as [-> ->].
  rewrite RecordFacts.analyzeElements_issues.
  rewrite ConsistencyFacts.title_issues_alone, NewsFacts.walkNews_meta.
  unfold DocumentRules.titleRule, DocumentRules.metaDescriptionRule,
    Trace.titleNews, Trace.metaNews,
    ElementAnalysis.checkTitle, ElementAnalysis.checkMetaDescription.
  fold (Observations.titleText (Dom.querySelector d (Dom.tag "title"))).
  set (t := Observations.titleText _).
  set (c := match Dom.querySelector d (Dom.tagAttrIs "meta" "name" "description") with
            | Some m => HtmlAnalyzer.orEmpty (Dom.getAttribute m "content")
            | None => EmptyString end).
  rewrite !DocumentFacts.falsy_eqb, !Z.gtb_ltb.
  split.
  - destruct (String.eqb t EmptyString); [reflexivity|].
    destruct (JS.length t <? 10) eqn:E10.
    + replace (JS.length t <? 20) with true by lia. reflexivity.
    + destruct (60 <? JS.length t) eqn:E60; [|exact I].
      replace (JS.length t <? 20) with false by lia. reflexivity.
  - destruct (String.eqb c EmptyString); [reflexivity|].
    destruct (JS.length c <? 50) eqn:E50.
    + replace (JS.length c <? 70) with true by lia. reflexivity.
    + destruct (160 <? JS.length c) eqn:E160; [|exact I].
      replace (JS.length c <? 70) with false by lia. reflexivity.
Qed.

(** X13 on the page of the scenario: no title, no description. *)
Lemma title_and_description_on_the_scenario_page :
  let issues :=
    ElementAnalysis.elementIssues
      (ElementAnalysis.analyzeElements Examples.scenarioPage EmptyString) in
  map ElementAnalysis.severity (filter Observations.isTitleIssue issues) = [high]
  /\ map ElementAnalysis.severity (filter Trace.isMetaIssue issues) = [high].
Proof.
  destruct (HtmlAnalyzer.analyzeDocument Examples.scenarioPage EmptyString)
    as [r|e] eqn:E; [|vm_compute in E; discriminate E].
  pose proof (title_and_description_issues_agree
                Examples.scenarioPage EmptyString EmptyString r E) as H.
  vm_compute in E. injection E as <-.
  exact H.
Defined.

(** A title of 12 characters passes the document analysis and fails the
    element analysis. *)
Example title_of_12_characters :
  DocumentRules.titleRule (Examples.letters 12) = None
  /\ map ElementAnalysis.issue
         (Trace.titleNews
            (Some (Dom.mkElement [] "title" [] [Dom.TextNode (Examples.letters 12)]
                                  Dom.CSS1Compat)))
     = ["Title is too short"].
Proof. split; reflexivity. Qed.

(* ================================================================== *)
(** ** The view on an element analysis                                 *)
(* ================================================================== *)

Module ViewFacts.
Import ElementAnalysis Trace Observations.

Lemma determined_known (e : Dom.Element) (secs : list (string * option Dom.Element)) :
  Forall (fun entry => knownName (fst entry) = true) secs ->
  knownName (determineSectionForElement e secs) = true.
Proof.
  induction secs as [|[n o] secs IH]; intros H; [reflexivity|].
  inversion H as [|? ? Hn Hrest]; subst. cbn [determineSectionForElement].
  destruct o as [landmark|]; [destruct (Dom.contains landmark e)|]; auto.
Qed.

Lemma section_known (d : Dom.Document) (e : Dom.Element) :
  knownName (determineSectionForElement e (sections d)) = true.
Proof.
  apply determined_known. unfold sections.
  repeat (constructor; [reflexivity|]). constructor.
Qed.

Ltac known_section d :=
  by_cases_of_a_check; cbn [app filter elementIssues report tally fresh];
  unfold unknownSection; cbn [section negb];
  rewrite ?(section_known d); reflexivity.

Lemma sections_are_known (d : Dom.Document) :
  filter unknownSection (walkNews d) = [].
Proof.
  rewrite MoreNewsFacts.walkNews_filter.
  replace (filter unknownSection (titleNews _)) with (@nil ElementIssue)
    by (symmetry; by_cases_of_a_check).
  replace (filter unknownSection (metaNews _)) with (@nil ElementIssue)
    by (symmetry; by_cases_of_a_check).
  replace (filter unknownSection (missingH1News _)) with (@nil ElementIssue)
    by (symmetry; by_cases_of_a_check).
  rewrite MoreNewsFacts.headingNews_quiet by (known_section d).
  rewrite !NewsFacts.filter_flat_map_nil by (known_section d).
  reflexivity.
Qed.

Lemma capitalize_agree (s : string) :
  knownName s = true ->
  View.capitalizeFirstLetter s = ElementAnalysis.capitalizeFirstLetter s.
Proof.
  unfold knownName. intros H.
  repeat match type of H with
         | context [String.eqb s ?lit] =>
             let E := fresh "E" in
             destruct (String.eqb s lit) eqn:E;
             [apply String.eqb_eq in E; subst s; reflexivity | ]
         end.
  discriminate H.
Qed.

Lemma displayed_of_section (d : Dom.Document) (n : string) :
  filter (fun i => String.eqb (View.capitalizeFirstLetter (section i)) n) (walkNews d)
  = filter (sameSection n) (walkNews d).
Proof.
  pose proof (sections_are_known d) as Hknown.
  induction (walkNews d) as [|i news IH]; [reflexivity|].
  cbn [filter] in Hknown |- *. unfold sameSection at 1.
  destruct (unknownSection i) eqn:E; [discriminate Hknown|].
  unfold unknownSection in E. apply negb_false_iff in E.
  rewrite (capitalize_agree (section i) E), (IH Hknown). reflexivity.
Qed.

Lemma settled_not_all (news : list ElementIssue) :
  Forall (fun s => issues s = filter (sameSection (name s)) news /\
                   String.eqb (name s) "all" = false)
         (map clamp (map (settle news) initialSections)).
Proof. simpl. repeat (constructor; [split; reflexivity|]). constructor. Qed.

(** *** The text of the counts *)

Lemma append_assoc (a b c : string) : ((a ++ b) ++ c = a ++ (b ++ c))%string.
Proof. induction a as [|x a IH]; simpl; [reflexivity|]. rewrite IH. reflexivity. Qed.

Lemma append_empty (a : string) : (a ++ EmptyString)%string = a.
Proof. induction a as [|x a IH]; simpl; [reflexivity|]. rewrite IH. reflexivity. Qed.

Lemma dropFinalComma_comma (s : string) : View.dropFinalComma (s ++ ", ")%string = s.
Proof.
  induction s as [|c s IH]; [reflexivity|].
  cbn [append View.dropFinalComma].
  replace (String.eqb (String c (s ++ ", ")) ", ") with false.
  - rewrite IH. reflexivity.
  - symmetry. apply String.eqb_neq. intros H. inversion H as [[Hc Hs]].
    destruct s as [|x s]; [discriminate Hs|].
    destruct s; discriminate Hs.
Qed.

Lemma dropFinalComma_low (s : string) :
  View.dropFinalComma (s ++ " low")%string = (s ++ " low")%string.
Proof.
  induction s as [|c s IH]; [reflexivity|].
  cbn [append View.dropFinalComma].
  replace (String.eqb (String c (s ++ " low")) ", ") with false.
  - rewrite IH. reflexivity.
  - symmetry. apply String.eqb_neq. intros H. inversion H as [[Hc Hs]].
    destruct s as [|x s]; [discriminate Hs|].
    destruct s; discriminate Hs.
Qed.

Lemma count_text (h m l : Z) :
  0 <= h -> 0 <= m -> 0 <= l ->
  (if h + m + l =? 0 then "No issues"
   else View.dropFinalComma
          ((if h >? 0 then JS.ofInt h ++ " high, " else EmptyString) ++
           (if m >? 0 then JS.ofInt m ++ " medium, " else EmptyString) ++
           (if l >? 0 then JS.ofInt l ++ " low" else EmptyString))%string)
  = match countParts h m l with
    | [] => "No issues"
    | parts => JS.join ", " parts
    end.
Proof.
  intros Hh Hm Hl. unfold countParts. rewrite !Z.gtb_ltb.
  destruct (0 <? h) eqn:Eh; destruct (0 <? m) eqn:Em; destruct (0 <? l) eqn:El;
    (replace (h + m + l =? 0) with false by lia) ||
    (replace (h + m + l =? 0) with true by lia);
    cbn [app JS.join]; rewrite ?append_empty; try reflexivity.
  - rewrite <- !append_assoc. rewrite dropFinalComma_low.
    rewrite !append_assoc. reflexivity.
  - replace ((JS.ofInt h ++ " high, ") ++ JS.ofInt m ++ " medium, ")%string
      with ((JS.ofInt h ++ " high, " ++ JS.ofInt m ++ " medium") ++ ", ")%string
      by (rewrite !append_assoc; reflexivity).
    rewrite dropFinalComma_comma. rewrite !append_assoc. reflexivity.
  - rewrite <- !append_assoc. rewrite dropFinalComma_low.
    rewrite !append_assoc. reflexivity.
  - replace (JS.ofInt h ++ " high, ")%string
      with ((JS.ofInt h ++ " high") ++ ", ")%string
      by (rewrite !append_assoc; reflexivity).
    apply dropFinalComma_comma.
  - rewrite <- !append_assoc. rewrite dropFinalComma_low.
    rewrite !append_assoc. reflexivity.
  - replace (JS.ofInt m ++ " medium, ")%string
      with ((JS.ofInt m ++ " medium") ++ ", ")%string
      by (rewrite !append_assoc; reflexivity).
    apply dropFinalComma_comma.
  - apply dropFinalComma_low.
Qed.

End ViewFacts.

(** X14.  Selecting a section in the view shows exactly the issues of
    that section's record: for every record of an element analysis,
    [displayedIssues] at the record's name is the record's issue list
    (the view's own [capitalizeFirstLetter] agrees with the analyzer's
    on every section an issue can carry). *)
Theorem view_shows_the_issues_of_the_record (d : Dom.Document) (url : string) :
  let r := ElementAnalysis.analyzeElements d url in
  Forall (fun s => View.displayedIssues r (ElementAnalysis.name s) = ElementAnalysis.issues s)
         (ElementAnalysis.sectionAnalysis r).
Proof.
  intros r. subst r. unfold View.displayedIssues.
  rewrite RecordFacts.analyzeElements_issues, RecordFacts.analyzeElements_sections.
  eapply Forall_impl; [|apply ViewFacts.settled_not_all].
  intros s [Hs Hname]. rewrite Hs, Hname. apply ViewFacts.displayed_of_section.
Qed.

(** X15.  The text of [getIssueCountText] for a section that exists is
    "No issues" when its list is empty of high, medium and low issues,
    and otherwise the counts that are not zero, in the order high,
    medium, low, separated by a comma and a space, with no comma at the
    end. *)
Theorem issue_count_text
        (analysisResult : ElementAnalysis.ElementAnalysisResult) (sectionName : string) :
  View.getIssueCountText analysisResult sectionName
  = match find (fun s => String.eqb (ElementAnalysis.name s) sectionName)
               (ElementAnalysis.sectionAnalysis analysisResult) with
    | None => "No issues"
    | Some section =>
        match Observations.countParts
                (count (filter (View.severityIs high) (ElementAnalysis.issues section)))
                (count (filter (View.severityIs medium) (ElementAnalysis.issues section)))
                (count (filter (View.severityIs low) (ElementAnalysis.issues section)))
        with
        | [] => "No issues"
        | parts => JS.join ", " parts
        end
    end.
Proof.
  unfold View.getIssueCountText.
  destruct (find _ _) as [section|]; [|reflexivity].
  cbv zeta. apply ViewFacts.count_text; apply MoreDocumentFacts.count_nonneg.
Qed.

(** The text for the Header of the page of the scenario: two high
    issues. *)
Example issue_count_text_of_the_scenario_page :
  View.getIssueCountText
    (ElementAnalysis.analyzeElements Examples.scenarioPage EmptyString) "Header"
  = "2 high"
  /\ View.getHeatmapColor
       (ElementAnalysis.analyzeElements Examples.scenarioPage EmptyString) "Header"
     = "bg-orange-100".
Proof. split; reflexivity. Qed.

(** X16.  In an element analysis the colour of a section in the heat
    map is decided by the penalties of the section's issues: green up
    to 10, yellow up to 30, orange up to 50, red above. *)
Theorem heatmap_colour_by_penalties (d : Dom.Document) (url : string) :
  let r := ElementAnalysis.analyzeElements d url in
  Forall (fun s =>
            View.getHeatmapColor r (ElementAnalysis.name s)
            = let p := Penalties.total (ElementAnalysis.issues s) in
              if p <=? 10 then "bg-green-100"
              else if p <=? 30 then "bg-yellow-100"
              else if p <=? 50 then "bg-orange-100"
              else "bg-red-100")
         (ElementAnalysis.sectionAnalysis r).
Proof.
  intros r. subst r. unfold View.getHeatmapColor.
  rewrite RecordFacts.analyzeElements_sections.
  assert (Hcolour : forall p, 0 <= p ->
            (if Z.max 0 (Z.min 100 (100 - p)) >=? 90 then "bg-green-100"
             else if Z.max 0 (Z.min 100 (100 - p)) >=? 70 then "bg-yellow-100"
             else if Z.max 0 (Z.min 100 (100 - p)) >=? 50 then "bg-orange-100"
             else "bg-red-100")
            = (if p <=? 10 then "bg-green-100"
               else if p <=? 30 then "bg-yellow-100"
               else if p <=? 50 then "bg-orange-100"
               else "bg-red-100")).
  { intros p Hp.
    destruct (p <=? 10) eqn:E1; [replace (Z.max 0 (Z.min 100 (100 - p)) >=? 90) with true by lia; reflexivity|].
    replace (Z.max 0 (Z.min 100 (100 - p)) >=? 90) with false by lia.
    destruct (p <=? 30) eqn:E2; [replace (Z.max 0 (Z.min 100 (100 - p)) >=? 70) with true by lia; reflexivity|].
    replace (Z.max 0 (Z.min 100 (100 - p)) >=? 70) with false by lia.
    destruct (p <=? 50) eqn:E3; [replace (Z.max 0 (Z.min 100 (100 - p)) >=? 50) with true by lia; reflexivity|].
    replace (Z.max 0 (Z.min 100 (100 - p)) >=? 50) with false by lia. reflexivity. }
  assert (Hnonneg : forall l, 0 <= Penalties.total l).
  { induction l as [|i l IH]; simpl; [lia|].
    unfold Penalties.penalty. split_conditions; lia. }
  unfold ElementAnalysis.initialSections.
  cbn [map ElementAnalysis.clamp Trace.settle ElementAnalysis.name ElementAnalysis.score
       ElementAnalysis.issues ElementAnalysis.importance app].
  repeat (constructor;
          [cbn [find ElementAnalysis.name ElementAnalysis.score ElementAnalysis.issues
                String.eqb Ascii.eqb Bool.eqb andb];
           cbv zeta; apply Hcolour, Hnonneg|]).
  constructor.
Qed.

(* ================================================================== *)
(** ** The gate of the upload path and the keywords                    *)
(* ================================================================== *)

Module TextFacts.
Import Observations.

Lemma prefix_empty (s : string) : String.prefix EmptyString s = true.
Proof. destruct s; reflexivity. Qed.

Lemma prefix_extended (p s after : string) :
  String.prefix p s = true -> String.prefix p (s ++ after)%string = true.
Proof.
  revert s. induction p as [|a p IH]; intros s H; [apply prefix_empty|].
  destruct s as [|b s]; [discriminate H|].
  simpl in H |- *. destruct (ascii_dec a b); [apply IH, H|discriminate H].
Qed.

Lemma includes_extended (s after p : string) :
  JS.includes s p = true -> JS.includes (s ++ after)%string p = true.
Proof.
  induction s as [|c s IH]; intros H.
  - cbn [JS.includes] in H. rewrite orb_false_r in H.
    destruct p; [|discriminate H].
    cbn [append]. destruct after; reflexivity.
  - cbn [JS.includes append] in H |- *.
    apply orb_true_iff in H. apply orb_true_iff. destruct H as [H|H].
    + left. exact (prefix_extended p (String c s) after H).
    + right. apply IH, H.
Qed.

Lemma includes_preceded (before s p : string) :
  JS.includes s p = true -> JS.includes (before ++ s)%string p = true.
Proof.
  intros H. induction before as [|c before IH]; [exact H|].
  cbn [append JS.includes]. rewrite IH. apply orb_true_r.
Qed.

(** *** Commas and white space in the pieces of a keyword list *)

Lemma includes_comma (c : ascii) (r : string) :
  JS.includes (String c r) "," = Ascii.eqb c "," || JS.includes r ",".
Proof.
  cbn [JS.includes]. f_equal.
  change (String.prefix "," (String c r))
    with (if ascii_dec "," c then String.prefix EmptyString r else false).
  destruct (ascii_dec "," c) as [<-|Hne].
  - apply prefix_empty.
  - symmetry. apply Ascii.eqb_neq. congruence.
Qed.

Lemma split_without_comma (s : string) :
  Forall (fun p => JS.includes p "," = false) (JS.split "," s).
Proof.
  induction s as [|c s IH]; [repeat constructor|].
  cbn [JS.split]. destruct (Ascii.eqb c ",") eqn:E.
  - constructor; [reflexivity|exact IH].
  - destruct (JS.split "," s) as [|p ps].
    + constructor; [|constructor]. rewrite includes_comma, E. reflexivity.
    + inversion IH as [|? ? Hp Hps]; subst.
      constructor; [|exact Hps]. rewrite includes_comma, E. exact Hp.
Qed.

Lemma trimStart_without_comma (s : string) :
  JS.includes s "," = false -> JS.includes (JS.trimStart s) "," = false.
Proof.
  induction s as [|c s IH]; intros H; [exact H|].
  cbn [JS.trimStart]. destruct (JS.isWhiteSpace c); [|exact H].
  rewrite includes_comma in H. apply orb_false_iff in H. apply IH, (proj2 H).
Qed.

Lemma trimEnd_without_comma (s : string) :
  JS.includes s "," = false -> JS.includes (JS.trimEnd s) "," = false.
Proof.
  induction s as [|c s IH]; intros H; [exact H|].
  cbn [JS.trimEnd]. cbv zeta.
  rewrite includes_comma in H. apply orb_false_iff in H. destruct H as [Hc Hs].
  destruct (JS.isWhiteSpace c && JS.falsy (JS.trimEnd s)); [reflexivity|].
  rewrite includes_comma, Hc. apply IH, Hs.
Qed.

Lemma trimEnd_idempotent (s : string) : JS.trimEnd (JS.trimEnd s) = JS.trimEnd s.
Proof.
  induction s as [|c s IH]; [reflexivity|].
  cbn [JS.trimEnd]. cbv zeta.
  destruct (JS.isWhiteSpace c && JS.falsy (JS.trimEnd s)) eqn:E; [reflexivity|].
  cbn [JS.trimEnd]. cbv zeta. rewrite IH, E. reflexivity.
Qed.

Lemma trimStart_clean (s : string) : startsClean (JS.trimStart s) = true.
Proof.
  induction s as [|c s IH]; [reflexivity|].
  cbn [JS.trimStart]. destruct (JS.isWhiteSpace c) eqn:E; [exact IH|].
  cbn [startsClean]. rewrite E. reflexivity.
Qed.

Lemma trimEnd_clean (s : string) : startsClean s = true -> startsClean (JS.trimEnd s) = true.
Proof.
  destruct s as [|c s]; [reflexivity|].
  cbn [startsClean JS.trimEnd]. cbv zeta. intros H.
  apply negb_true_iff in H. rewrite H. cbn [andb startsClean]. rewrite H. reflexivity.
Qed.

Lemma trimStart_of_clean (s : string) : startsClean s = true -> JS.trimStart s = s.
Proof.
  destruct s as [|c s]; [reflexivity|].
  cbn [startsClean JS.trimStart]. intros H. apply negb_true_iff in H. rewrite H. reflexivity.
Qed.

Lemma trim_idempotent (s : string) : JS.trim (JS.trim s) = JS.trim s.
Proof.
  unfold JS.trim.
  rewrite (trimStart_of_clean (JS.trimEnd (JS.trimStart s)))
    by (apply trimEnd_clean, trimStart_clean).
  apply trimEnd_idempotent.
Qed.

Lemma keywords_clean (s : string) :
  Forall (fun k => k <> EmptyString /\ JS.includes k "," = false /\ JS.trim k = k)
         (filter (fun k => negb (JS.falsy k)) (map JS.trim (JS.split "," s))).
Proof.
  pose proof (split_without_comma s) as H.
  induction (JS.split "," s) as [|p ps IH]; [constructor|].
  inversion H as [|? ? Hp Hps]; subst.
  cbn [map filter]. destruct (JS.falsy (JS.trim p)) eqn:E; cbn [negb]; [apply IH, Hps|].
  constructor; [|apply IH, Hps].
  split; [intros Hk; rewrite Hk in E; discriminate E|].
  split; [apply trimEnd_without_comma, trimStart_without_comma, Hp|apply trim_idempotent].
Qed.

End TextFacts.

(** X17.  [isValidHtml] only looks for the four markers: a text that
    passes still passes with anything written before and after it. *)
Theorem isValidHtml_ignores_the_surroundings (before content after : string) :
  HtmlAnalyzer.isValidHtml content = true ->
  HtmlAnalyzer.isValidHtml (before ++ content ++ after)%string = true.
Proof.
  unfold HtmlAnalyzer.isValidHtml. intros H.
  repeat (apply andb_true_iff in H; destruct H as [H ?]).
  repeat (apply andb_true_iff; split);
    apply TextFacts.includes_preceded, TextFacts.includes_extended; assumption.
Qed.

(** X17 on a page with a doctype before and a comment after. *)
Lemma isValidHtml_with_doctype :
  HtmlAnalyzer.isValidHtml
    ("<!DOCTYPE html>" ++ "<html><head></head><body></body></html>" ++ "<!-- end -->")%string
  = true.
Proof.
  apply isValidHtml_ignores_the_surroundings. reflexivity.
Defined.

(** X18.  The keywords of a returned result are clean: none is empty,
    none contains a comma, and none has white space at either end. *)
Theorem keywords_are_clean
        (d : Dom.Document) (url : string) (r : HtmlAnalyzer.HtmlAnalysisResult) :
  HtmlAnalyzer.analyzeDocument d url = Returned r ->
  Forall (fun k => k <> EmptyString /\ JS.includes k "," = false /\ JS.trim k = k)
         (HtmlAnalyzer.keywords r).
Proof.
  unfold HtmlAnalyzer.analyzeDocument.
  destruct (HtmlAnalyzer.forEachLink url _ (0, 0)) as [[i x]|e]; [|discriminate].
  intros H. inversion H as [Hr]. clear H Hr.
  cbn [HtmlAnalyzer.keywords]. apply TextFacts.keywords_clean.
Qed.

(** X18 on a page whose keyword list has blanks and an empty item. *)
Lemma keywords_of_the_keywords_page :
  match HtmlAnalyzer.analyzeDocument Examples.keywordsPage EmptyString with
  | Returned r =>
      Forall (fun k => k <> EmptyString /\ JS.includes k "," = false /\ JS.trim k = k)
             (HtmlAnalyzer.keywords r)
      /\ HtmlAnalyzer.keywords r = ["seo"; "tools"; "audit"]
  | Thrown _ => False
  end.
Proof.
  destruct (HtmlAnalyzer.analyzeDocument Examples.keywordsPage EmptyString)
    as [r|e] eqn:E; [|vm_compute in E; discriminate E].
  split; [exact (keywords_are_clean Examples.keywordsPage EmptyString r E)|].
  vm_compute in E. injection E as <-. reflexivity.
Defined.

Module LinkFacts.
Import ElementAnalysis Trace Observations.

Lemma count_filter_le {A : Type} (p q : A -> bool) (l : list A) :
  (forall x, p x = true -> q x = true) ->
  count (filter p l) <= count (filter q l).
Proof.
  intros H. induction l as [|x l IH]; [reflexivity|].
  rewrite !DocumentFacts.count_filter_cons.
  destruct (p x) eqn:E; [rewrite (H x E); lia|destruct (q x); lia].
Qed.

Lemma linkNews_count secs link :
  filter isLinkIssue (linkNews secs link) = linkNews secs link
  /\ (JS.falsy (JS.trim (Dom.textContent link)) = true -> count (linkNews secs link) = 1)
  /\ 0 <= count (linkNews secs link).
Proof.
  split; [by_cases_of_a_check|]. split; [|apply MoreDocumentFacts.count_nonneg].
  intros Hblank. unfold linkNews, checkLink.
  assert (Hlen : (JS.length (JS.trim (Dom.textContent link)) =? 0) = true).
  { destruct (JS.trim (Dom.textContent link)); [reflexivity|discriminate Hblank]. }
  rewrite Hlen, orb_true_r. cbn [orb].
  destruct (JS.falsy (Dom.textContent link)); reflexivity.
Qed.

Lemma link_issues_cover (d : Dom.Document) :
  count (filter (fun link => JS.falsy (JS.trim (Dom.textContent link)))
                (Dom.querySelectorAll d linkSelector))
  <= count (filter isLinkIssue (walkNews d)).
Proof.
  rewrite MoreNewsFacts.walkNews_filter.
  replace (filter isLinkIssue (titleNews _)) with (@nil ElementIssue)
    by (symmetry; by_cases_of_a_check).
  replace (filter isLinkIssue (metaNews _)) with (@nil ElementIssue)
    by (symmetry; by_cases_of_a_check).
  replace (filter isLinkIssue (missingH1News _)) with (@nil ElementIssue)
    by (symmetry; by_cases_of_a_check).
  rewrite MoreNewsFacts.headingNews_quiet by by_cases_of_a_check.
  rewrite !(NewsFacts.filter_flat_map_nil isLinkIssue (imageNews _))
    by by_cases_of_a_check.
  rewrite !(NewsFacts.filter_flat_map_nil isLinkIssue (paragraphNews _))
    by by_cases_of_a_check.
  cbn [app]. rewrite app_nil_r.
  induction (Dom.querySelectorAll d linkSelector) as [|link links IH]; [reflexivity|].
  cbn [flat_map]. rewrite filter_app, DocumentFacts.count_app.
  rewrite DocumentFacts.count_filter_cons.
  destruct (linkNews_count (sections d) link) as (-> & Hone & Hnonneg).
  destruct (JS.falsy (JS.trim (Dom.textContent link))); [rewrite Hone by reflexivity|]; lia.
Qed.

End LinkFacts.

(** X19.  Every link that the document analysis counts as having no
    text raises a link issue in the element analysis of the same
    document (which also flags "click here" and "read more"). *)
Theorem links_without_text_raise_link_issues (d : Dom.Document) (url : string) :
  DocumentRules.linksWithoutText d
  <= count (filter Observations.isLinkIssue
                   (ElementAnalysis.elementIssues (ElementAnalysis.analyzeElements d url))).
Proof.
  rewrite RecordFacts.analyzeElements_issues.
  rewrite <- DocumentFacts.linksWithoutText_found.
  apply LinkFacts.link_issues_cover.
Qed.

(* ================================================================== *)
(** ** The checks and the sections, read off the document              *)
(* ================================================================== *)

Module CheckFacts.
Import HtmlAnalyzer DocumentRules.

Lemma find_same {A : Type} (p q : A -> bool) (l : list A) :
  (forall x, p x = q x) -> find p l = find q l.
Proof.
  intros H. induction l as [|x l IH]; simpl; [reflexivity|].
  rewrite H, IH. reflexivity.
Qed.

(** [querySelector] returns the first element, in tree order, that
    matches. *)
Lemma querySelector_find (d : Dom.Document) (s : Dom.Selector) :
  Dom.querySelector d s = find (fun e => Dom.matches e s) (Dom.allElements d).
Proof.
  unfold Dom.querySelector, Dom.querySelectorAll.
  induction (Dom.allElements d) as [|e l IH]; simpl; [reflexivity|].
  destruct (Dom.matches e s); [reflexivity|exact IH].
Qed.

Lemma matches_tag (e : Dom.Element) (n : string) :
  Dom.matches e (Dom.tag n) = named n e.
Proof.
  unfold Dom.matches, Dom.tag, Dom.sel, named; simpl.
  destruct (String.eqb (Dom.localName e) n); reflexivity.
Qed.

Lemma queried_count (d : Dom.Document) (n : string) :
  count (Dom.querySelectorAll d (Dom.tag n)) = howMany n d.
Proof.
  unfold howMany, Dom.querySelectorAll. f_equal.
  apply filter_ext. intros e. apply matches_tag.
Qed.

Lemma title_read (d : Dom.Document) :
  Observations.titleText (Dom.querySelector d (Dom.tag "title")) = titleOf d.
Proof.
  unfold titleOf, Observations.titleText. rewrite querySelector_find.
  rewrite (find_same _ (named "title")) by (intros e; apply matches_tag).
  reflexivity.
Qed.

Lemma description_read (d : Dom.Document) :
  match Dom.querySelector d (Dom.tagAttrIs "meta" "name" "description") with
  | Some m => orEmpty (Dom.getAttribute m "content")
  | None => EmptyString
  end = descriptionOf d.
Proof.
  unfold descriptionOf. rewrite querySelector_find.
  rewrite (find_same _ (fun e => named "meta" e && hasAttrValue e "name" "description"))
    by (intros e; apply DocumentFacts.matches_tagAttrIs; reflexivity).
  reflexivity.
Qed.

Lemma withoutAlt_read (d : Dom.Document) :
  count (filter Observations.lacksAlt (Dom.querySelectorAll d (Dom.tag "img")))
  = imagesWithoutAlt d.
Proof.
  unfold imagesWithoutAlt, Dom.querySelectorAll. rewrite NewsFacts.filter_filter.
  f_equal. apply filter_ext. intros e. rewrite matches_tag. reflexivity.
Qed.

Lemma counts_read (d : Dom.Document) (url : string) (r : HtmlAnalysisResult) :
  analyzeDocument d url = Returned r ->
  Headings.h1 (headings r) = howMany "h1" d /\
  Headings.h2 (headings r) = howMany "h2" d /\
  Headings.h3 (headings r) = howMany "h3" d /\
  Images.total (images r) = howMany "img" d.
Proof.
  unfold analyzeDocument.
  destruct (forEachLink url _ (0, 0)) as [[i x]|e]; [|discriminate].
  intros H. inversion H as [Hr]. clear H Hr.
  cbn [headings images Headings.h1 Headings.h2 Headings.h3 Images.total].
  rewrite !queried_count. repeat split.
Qed.

(** What a returned result records is what the document shows. *)
Lemma rules_on_document (d : Dom.Document) (url : string) (r : HtmlAnalysisResult) :
  analyzeDocument d url = Returned r -> rules d r = documentRules d.
Proof.
  intros H. unfold rules, documentRules.
  destruct (ConsistencyFacts.document_title d url r H) as [-> ->].
  destruct (counts_read d url r H) as (-> & -> & -> & ->).
  rewrite (proj1 (ScoreFacts.withoutAlt_counts d url r H)).
  rewrite title_read, description_read, withoutAlt_read. reflexivity.
Qed.

End CheckFacts.

(** C2.  When [analyzeHtmlContent] returns, its issue list is the list
    of the findings of the nine rules (title, meta description, H1
    count, H2 without H1, H3 without H2, images missing alt, links
    without text, viewport, structured data) in this order, each rule
    being evaluated on the document itself (the text of its first
    [title], the [content] of its first meta description, its numbers
    of [h1], [h2], [h3] and [img], its images without [alt], its links
    without text, its viewport tag, its structured data) and
    contributing at most one issue, with the severity and the strict
    thresholds of [DocumentRules]; the rules are evaluated independently
    of each other, and the issues carry the ids 1, 2, ... in that
    order. *)
Theorem C2_nine_checks_in_order
        (d : Dom.Document) (url : string) (r : HtmlAnalyzer.HtmlAnalysisResult) :
  HtmlAnalyzer.analyzeDocument d url = Returned r ->
  map DocumentRules.summary (HtmlAnalyzer.issues r)
  = DocumentRules.numbered 1 (DocumentRules.present (DocumentRules.documentRules d))
  /\ List.length (DocumentRules.documentRules d) = 9%nat.
Proof.
  intros H. split; [|reflexivity].
  rewrite <- (CheckFacts.rules_on_document d url r H).
  exact (DocumentFacts.issues_follow_rules d url r H).
Qed.

(** C2 on pages whose title has 9, 10, 60 and 61 characters and whose
    meta description has 49, 50, 160 and 161: besides the issues on the
    two H1, the H3 without H2, the image without [alt] and the link
    without text, which all four pages share, the first page has a title
    and a description that are too short, the last one has them too
    long, and the two in between have neither. *)
Lemma C2_at_the_thresholds :
  Examples.thresholdsFindings 9 49
  = Some [(1, (medium, "Title too short"));
          (2, (medium, "Meta description too short"));
          (3, (medium, "Multiple H1 headings"));
          (4, (low, "H3 without H2"));
          (5, (medium, "Images missing alt text"));
          (6, (medium, "Links without text"))]
  /\ Examples.thresholdsFindings 10 50
     = Some [(1, (medium, "Multiple H1 headings"));
             (2, (low, "H3 without H2"));
             (3, (medium, "Images missing alt text"));
             (4, (medium, "Links without text"))]
  /\ Examples.thresholdsFindings 60 160
     = Some [(1, (medium, "Multiple H1 headings"));
             (2, (low, "H3 without H2"));
             (3, (medium, "Images missing alt text"));
             (4, (medium, "Links without text"))]
  /\ Examples.thresholdsFindings 61 161
     = Some [(1, (low, "Title too long"));
             (2, (low, "Meta description too long"));
             (3, (medium, "Multiple H1 headings"));
             (4, (low, "H3 without H2"));
             (5, (medium, "Images missing alt text"));
             (6, (medium, "Links without text"))].
Proof.
  unfold Examples.thresholdsFindings.
  assert (at_ : forall t m : nat,
             DocumentRules.issuesOf
               (HtmlAnalyzer.analyzeDocument (Examples.thresholdsPage t m) EmptyString)
             = Some (DocumentRules.numbered 1
                       (DocumentRules.present
                          (DocumentRules.documentRules (Examples.thresholdsPage t m))))).
  { intros t m.
    destruct (analyzeDocument_returns (Examples.thresholdsPage t m) EmptyString
                (or_introl eq_refl)) as [r E].
    rewrite E. cbn [DocumentRules.issuesOf].
    rewrite (proj1 (C2_nine_checks_in_order (Examples.thresholdsPage t m) EmptyString r E)).
    reflexivity. }
  split; [|split; [|split]]; rewrite at_; vm_compute; reflexivity.
Defined.

(** The value of [type] is compared without regard to case, the value
    of [name] as it is written. *)
Example structured_data_in_any_case :
  DocumentRules.hasJsonLd (Examples.thresholdsPage 10 50) = true
  /\ DocumentRules.hasViewport
       (Examples.page [Dom.ElementNode "meta" [("name", "Viewport")] []] []) = false.
Proof. split; reflexivity. Qed.

Module AttributionFacts.
Import ElementAnalysis Trace Observations Attribution.

Lemma filter_nil_Forall {A : Type} (p : A -> bool) (l : list A) :
  filter (fun x => negb (p x)) l = [] -> Forall (fun x => p x = true) l.
Proof.
  induction l as [|x l IH]; intros H; [constructor|].
  cbn [filter] in H. destruct (p x) eqn:E; [|discriminate H].
  constructor; [exact E|apply IH, H].
Qed.

Lemma Forall2_app_both {A B : Type} (R : A -> B -> Prop) (a a' : list A) (b b' : list B) :
  Forall2 R a b -> Forall2 R a' b' -> Forall2 R (a ++ a') (b ++ b').
Proof. intros H. induction H; simpl; auto. Qed.

(** *** Where the issues of one kind come from *)

Lemma image_issues (d : Dom.Document) :
  filter isImageIssue (walkNews d)
  = flat_map (imageNews (sections d)) (Dom.querySelectorAll d (Dom.tag "img")).
Proof.
  rewrite MoreNewsFacts.walkNews_filter.
  replace (filter isImageIssue (titleNews _)) with (@nil ElementIssue)
    by (symmetry; by_cases_of_a_check).
  replace (filter isImageIssue (metaNews _)) with (@nil ElementIssue)
    by (symmetry; by_cases_of_a_check).
  replace (filter isImageIssue (missingH1News _)) with (@nil ElementIssue)
    by (symmetry; by_cases_of_a_check).
  rewrite MoreNewsFacts.headingNews_quiet by by_cases_of_a_check.
  rewrite !(NewsFacts.filter_flat_map_nil isImageIssue (linkNews _))
    by by_cases_of_a_check.
  rewrite !(NewsFacts.filter_flat_map_nil isImageIssue (paragraphNews _))
    by by_cases_of_a_check.
  cbn [app]. rewrite app_nil_r.
  induction (Dom.querySelectorAll d (Dom.tag "img")) as [|img imgs IH]; [reflexivity|].
  cbn [flat_map]. rewrite filter_app, IH.
  rewrite (proj1 (MoreNewsFacts.imageNews_count (sections d) img)). reflexivity.
Qed.

Lemma link_issues (d : Dom.Document) :
  filter isLinkIssue (walkNews d)
  = flat_map (linkNews (sections d)) (Dom.querySelectorAll d linkSelector).
Proof.
  rewrite MoreNewsFacts.walkNews_filter.
  replace (filter isLinkIssue (titleNews _)) with (@nil ElementIssue)
    by (symmetry; by_cases_of_a_check).
  replace (filter isLinkIssue (metaNews _)) with (@nil ElementIssue)
    by (symmetry; by_cases_of_a_check).
  replace (filter isLinkIssue (missingH1News _)) with (@nil ElementIssue)
    by (symmetry; by_cases_of_a_check).
  rewrite MoreNewsFacts.headingNews_quiet by by_cases_of_a_check.
  rewrite !(NewsFacts.filter_flat_map_nil isLinkIssue (imageNews _))
    by by_cases_of_a_check.
  rewrite !(NewsFacts.filter_flat_map_nil isLinkIssue (paragraphNews _))
    by by_cases_of_a_check.
  cbn [app]. rewrite app_nil_r.
  induction (Dom.querySelectorAll d linkSelector) as [|link links IH]; [reflexivity|].
  cbn [flat_map]. rewrite filter_app, IH.
  rewrite (proj1 (LinkFacts.linkNews_count (sections d) link)). reflexivity.
Qed.

Lemma paragraph_issues (d : Dom.Document) :
  filter isParagraphIssue (walkNews d)
  = flat_map (paragraphNews (sections d)) (Dom.querySelectorAll d (Dom.tag "p")).
Proof.
  rewrite MoreNewsFacts.walkNews_filter.
  replace (filter isParagraphIssue (titleNews _)) with (@nil ElementIssue)
    by (symmetry; by_cases_of_a_check).
  replace (filter isParagraphIssue (metaNews _)) with (@nil ElementIssue)
    by (symmetry; by_cases_of_a_check).
  replace (filter isParagraphIssue (missingH1News _)) with (@nil ElementIssue)
    by (symmetry; by_cases_of_a_check).
  rewrite MoreNewsFacts.headingNews_quiet by by_cases_of_a_check.
  rewrite !(NewsFacts.filter_flat_map_nil isParagraphIssue (imageNews _))
    by by_cases_of_a_check.
  rewrite !(NewsFacts.filter_flat_map_nil isParagraphIssue (linkNews _))
    by by_cases_of_a_check.
  cbn [app].
  induction (Dom.querySelectorAll d (Dom.tag "p")) as [|p ps IH]; [reflexivity|].
  cbn [flat_map]. rewrite filter_app, IH. f_equal.
  by_cases_of_a_check.
Qed.

Lemma skipped_issues (d : Dom.Document) :
  filter isSkipped (walkNews d)
  = filter isSkipped (headingNews (sections d) 0 (JS.Num 0)
                        (Dom.querySelectorAll d HtmlAnalyzer.headingSelector)).
Proof.
  rewrite MoreNewsFacts.walkNews_filter.
  replace (filter isSkipped (titleNews _)) with (@nil ElementIssue)
    by (symmetry; by_cases_of_a_check).
  replace (filter isSkipped (metaNews _)) with (@nil ElementIssue)
    by (symmetry; by_cases_of_a_check).
  replace (filter isSkipped (missingH1News _)) with (@nil ElementIssue)
    by (symmetry; by_cases_of_a_check).
  rewrite !NewsFacts.filter_flat_map_nil by by_cases_of_a_check.
  cbn [app]. rewrite app_nil_r. reflexivity.
Qed.

(** *** What one element contributes *)

Lemma image_own secs img : Own secs img (lacksAlt img) (imageNews secs img).
Proof.
  unfold Own, lacksAlt, imageNews, checkImage.
  destruct (negb (Dom.hasAttribute img "alt")); [|reflexivity].
  eexists. split; [reflexivity|]. split; reflexivity.
Qed.

Lemma blank_text (text : string) :
  JS.falsy text || (JS.length (JS.trim text) =? 0) = String.eqb (JS.trim text) EmptyString.
Proof.
  destruct text as [|c r]; [reflexivity|]. cbn [JS.falsy orb].
  destruct (JS.trim (String c r)) as [|c' r']; [reflexivity|].
  unfold JS.length. cbn [String.length String.eqb]. apply Z.eqb_neq. lia.
Qed.

Lemma link_own secs link : Own secs link (poorLinkText link) (linkNews secs link).
Proof.
  unfold Own, poorLinkText, linkNews, checkLink. cbv zeta.
  rewrite blank_text.
  destruct (String.eqb (JS.trim (Dom.textContent link)) EmptyString ||
            String.eqb (JS.toLowerCase (JS.trim (Dom.textContent link))) "click here" ||
            String.eqb (JS.toLowerCase (JS.trim (Dom.textContent link))) "read more");
    [|reflexivity].
  eexists. split; [reflexivity|]. split; reflexivity.
Qed.

Lemma paragraph_own secs p : Own secs p (longParagraph p) (paragraphNews secs p).
Proof.
  unfold Own, longParagraph, paragraphNews, checkParagraph.
  rewrite Z.gtb_ltb.
  destruct (Dom.textContent p) as [|c r] eqn:E; [reflexivity|].
  cbn [JS.falsy negb andb].
  destruct (300 <? JS.length (String c r)); [|reflexivity].
  eexists. split; [reflexivity|]. split; reflexivity.
Qed.

Lemma heading_own secs c p h :
  Dom.matches h HtmlAnalyzer.headingSelector = true ->
  Own secs h ((0 <? p) && (p + 1 <? headingLevel h))
      (filter isSkipped (elementIssues (result (headingStep secs c (JS.Num p) h)))).
Proof.
  intros Hm. unfold Own, headingStep, checkHeading, startAt.
  cbn [result h1Count previousHeadingLevel].
  rewrite (SkipFacts.parseInt_level h Hm).
  cbn [JS.gt JS.plus]. rewrite !Z.gtb_ltb.
  destruct (JS.strictEq _ 1 && _); destruct ((0 <? p) && (p + 1 <? headingLevel h));
    try reflexivity; eexists; (split; [reflexivity|]); split; reflexivity.
Qed.

(** *** The elements of a query, one by one *)

Section OnADocument.
Variable d : Dom.Document.

Lemma own_attributed e i :
  selector i = getSelector e ->
  section i = determineSectionForElement e (sections d) ->
  selector i = getSelector e /\ Regions.SectionOf d e (section i).
Proof.
  intros Hs Hsec. split; [exact Hs|].
  apply RegionFacts.section_iff. symmetry. exact Hsec.
Qed.

Lemma attributed_each (test : Dom.Element -> bool) (news : Dom.Element -> list ElementIssue)
      (l : list Dom.Element) :
  (forall e, Own (sections d) e (test e) (news e)) ->
  Attributed d (filter test l) (flat_map news l).
Proof.
  intros H. unfold Attributed. induction l as [|e l IH]; [constructor|].
  cbn [filter flat_map]. specialize (H e). unfold Own in H.
  destruct (test e).
  - destruct H as (i & -> & Hs & Hsec). cbn [app].
    constructor; [apply own_attributed; assumption|exact IH].
  - rewrite H. exact IH.
Qed.

Lemma attributed_jumpers hs : forall c p,
  Forall (fun h => Dom.matches h HtmlAnalyzer.headingSelector = true) hs ->
  Attributed d (jumpers p hs)
             (filter isSkipped (headingNews (sections d) c (JS.Num p) hs)).
Proof.
  induction hs as [|h hs IH]; intros c p Hall; [constructor|].
  inversion Hall as [|? ? Hh Hrest]; subst.
  rewrite NewsFacts.headingNews_cons, filter_app. cbn [jumpers].
  rewrite (proj2 (SkipFacts.headingStep_skipped (sections d) c p h Hh)).
  apply Forall2_app_both; [|apply IH, Hrest].
  pose proof (heading_own (sections d) c p h Hh) as H. unfold Own in H.
  destruct ((0 <? p) && (p + 1 <? headingLevel h)).
  - destruct H as (i & -> & Hs & Hsec).
    constructor; [apply own_attributed; assumption|constructor].
  - rewrite H. constructor.
Qed.

Lemma attributed_further_h1 (hs : list Dom.Element) :
  Attributed d hs (map (multipleH1Issue (sections d)) hs).
Proof.
  unfold Attributed. induction hs as [|h hs IH]; [constructor|].
  cbn [map]. constructor; [|exact IH].
  apply own_attributed; reflexivity.
Qed.

(** The issues about the document carry a fixed section. *)
Lemma about_document :
  filter aboutDocument (walkNews d)
  = titleNews (Dom.querySelector d (Dom.tag "title")) ++
    metaNews (Dom.querySelector d (Dom.tagAttrIs "meta" "name" "description")) ++
    missingH1News (count (Dom.querySelectorAll d (Dom.tag "h1"))).
Proof.
  rewrite MoreNewsFacts.walkNews_filter.
  rewrite MoreNewsFacts.headingNews_quiet by by_cases_of_a_check.
  rewrite !NewsFacts.filter_flat_map_nil by by_cases_of_a_check.
  rewrite MoreNewsFacts.h1After_counts, NewsFacts.level1_headings, Z.add_0_l.
  cbn [app]. rewrite app_nil_r.
  f_equal; [by_cases_of_a_check|]. f_equal; by_cases_of_a_check.
Qed.

Lemma fixed_sections :
  Forall (fun i => section i = if isMissingH1 i then "content" else "header")
         (filter aboutDocument (walkNews d)).
Proof.
  rewrite about_document. rewrite !Forall_app. repeat split.
  - by_cases_of_a_check; repeat constructor.
  - by_cases_of_a_check; repeat constructor.
  - by_cases_of_a_check; repeat constructor.
Qed.

Lemma every_kind :
  Forall (fun i => aboutDocument i || aboutElement i = true) (walkNews d).
Proof.
  apply filter_nil_Forall.
  rewrite MoreNewsFacts.walkNews_filter.
  replace (filter _ (titleNews _)) with (@nil ElementIssue)
    by (symmetry; by_cases_of_a_check).
  replace (filter _ (metaNews _)) with (@nil ElementIssue)
    by (symmetry; by_cases_of_a_check).
  replace (filter _ (missingH1News _)) with (@nil ElementIssue)
    by (symmetry; by_cases_of_a_check).
  rewrite MoreNewsFacts.headingNews_quiet by by_cases_of_a_check.
  rewrite !NewsFacts.filter_flat_map_nil by by_cases_of_a_check.
  reflexivity.
Qed.

End OnADocument.

(** *** The records, by the section of their issues *)

Lemma known_key (s : string) :
  knownName s = true ->
  map (fun n => String.eqb (capitalizeFirstLetter s) n) sectionNames
  = map (String.eqb s) ["header"; "navigation"; "content"; "sidebar"; "footer"; "general"].
Proof.
  unfold knownName. intros H.
  repeat match type of H with
         | context [String.eqb s ?lit] =>
             let E := fresh "E" in
             destruct (String.eqb s lit) eqn:E;
             [apply String.eqb_eq in E; subst s; reflexivity | ]
         end.
  discriminate H.
Qed.

Lemma known_sections (d : Dom.Document) :
  Forall (fun i => knownName (section i) = true) (walkNews d).
Proof.
  apply filter_nil_Forall. exact (ViewFacts.sections_are_known d).
Qed.

Lemma filter_same_on {A : Type} (P : A -> Prop) (p q : A -> bool) (l : list A) :
  Forall P l -> (forall x, P x -> p x = q x) -> filter p l = filter q l.
Proof.
  intros H Hpq. induction H as [|x l Hx Hl IH]; [reflexivity|].
  cbn [filter]. rewrite (Hpq x Hx), IH. reflexivity.
Qed.

Lemma filed_under (news : list ElementIssue) :
  Forall (fun i => knownName (section i) = true) news ->
  map (fun n => filter (sameSection n) news) sectionNames
  = map (fun key => filter (fun i => String.eqb (section i) key) news)
        ["header"; "navigation"; "content"; "sidebar"; "footer"; "general"].
Proof.
  intros H. unfold sectionNames. cbn [map initialSections name].
  repeat (apply (f_equal2 cons);
          [ apply (filter_same_on _ _ _ _ H); intros i Hi;
            pose proof (known_key (section i) Hi) as Hk;
            unfold sectionNames in Hk; cbn [map initialSections name] in Hk;
            injection Hk as H1 H2 H3 H4 H5 H6; unfold sameSection; assumption | ]).
  reflexivity.
Qed.

End AttributionFacts.

(** C5 (as amended).  The section the analyzer gives an element is [s]
    exactly when [s] is the name of the first region, in the order
    header, navigation, content, sidebar, footer, whose landmark (the
    first match of the first selector of its chain that matches)
    contains the element, itself included, or [s] is [general] and no
    region's landmark contains the element; so an element has one
    section.  In the result of [analyzePageElements], the issues on the
    elements found by a query are, in document order and one for one,
    those elements: the images without [alt], every [h1] after the
    first, the headings that skip a level, the links with a poor text,
    the long paragraphs; each such issue names its element by its
    selector and carries the section of that element.  The issues on
    the title and on the meta description always carry [header], and the
    issue on the missing H1 carries [content], wherever the [title] and
    [meta] elements are; and there is no other issue. *)
Theorem C5_section_is_first_containing_region
        (JSDOM : string -> Dom.Document) (htmlContent url : string) :
  let d := JSDOM htmlContent in
  let r := ElementAnalysis.analyzePageElements JSDOM htmlContent url in
  (forall element s,
      ElementAnalysis.determineSectionForElement element (ElementAnalysis.sections d) = s
      <-> Regions.SectionOf d element s)
  /\ (forall element s s',
        Regions.SectionOf d element s -> Regions.SectionOf d element s' -> s = s')
  /\ Attribution.Attributed d
       (filter Observations.lacksAlt (Dom.querySelectorAll d (Dom.tag "img")))
       (Attribution.raised Observations.isImageIssue r)
  /\ Attribution.Attributed d
       (tl (Dom.querySelectorAll d (Dom.tag "h1")))
       (Attribution.raised Trace.isMultipleH1 r)
  /\ Attribution.Attributed d
       (Attribution.jumpers 0 (Dom.querySelectorAll d HtmlAnalyzer.headingSelector))
       (Attribution.raised Observations.isSkipped r)
  /\ Attribution.Attributed d
       (filter Attribution.poorLinkText (Dom.querySelectorAll d Trace.linkSelector))
       (Attribution.raised Observations.isLinkIssue r)
  /\ Attribution.Attributed d
       (filter Attribution.longParagraph (Dom.querySelectorAll d (Dom.tag "p")))
       (Attribution.raised Attribution.isParagraphIssue r)
  /\ Forall (fun i => ElementAnalysis.section i
                      = if Observations.isMissingH1 i then "content" else "header")
            (Attribution.raised Attribution.aboutDocument r)
  /\ Forall (fun i => Attribution.aboutDocument i || Attribution.aboutElement i = true)
            (ElementAnalysis.elementIssues r).
Proof.
  intros d r. subst r. unfold ElementAnalysis.analyzePageElements, Attribution.raised.
  fold d. rewrite RecordFacts.analyzeElements_issues.
  split; [intros element s; apply RegionFacts.section_iff|].
  split.
  { intros element s s' Hs Hs'.
    apply RegionFacts.section_iff in Hs, Hs'. congruence. }
  split.
  { rewrite AttributionFacts.image_issues.
    apply AttributionFacts.attributed_each. intros img. apply AttributionFacts.image_own. }
  split.
  { rewrite NewsFacts.walkNews_multiple. apply AttributionFacts.attributed_further_h1. }
  split.
  { rewrite AttributionFacts.skipped_issues.
    apply AttributionFacts.attributed_jumpers, SkipFacts.queried_match. }
  split.
  { rewrite AttributionFacts.link_issues.
    apply AttributionFacts.attributed_each. intros link. apply AttributionFacts.link_own. }
  split.
  { rewrite AttributionFacts.paragraph_issues.
    apply AttributionFacts.attributed_each. intros p. apply AttributionFacts.paragraph_own. }
  split; [apply AttributionFacts.fixed_sections|apply AttributionFacts.every_kind].
Qed.

(** On a page with a title of 5 characters and no landmark, the [title]
    element lies in no region, so that its section is [general]; the
    issue on the title is filed under [header] all the same. *)
Lemma C5_title_issue_is_filed_under_header :
  let d := Examples.shortTitlePage in
  Dom.querySelector d (Dom.tag "title") = Some Examples.shortTitle
  /\ Regions.SectionOf d Examples.shortTitle "general"
  /\ map (fun i => (ElementAnalysis.element i, ElementAnalysis.issue i,
                    ElementAnalysis.section i))
         (ElementAnalysis.elementIssues (ElementAnalysis.analyzeElements d EmptyString))
     = [("Title", "Title is too short", "header");
        ("Meta Description", "Missing meta description", "header");
        ("H1 Heading", "Missing H1 heading", "content")].
Proof.
  split; [reflexivity|]. split; [|reflexivity].
  apply RegionFacts.section_iff. reflexivity.
Qed.

(** The issues of a page with a long paragraph outside every landmark, a
    link "Click Here" in [<nav>], an H4 after an H2 in [<main>] and an
    image in [<footer>], in the order in which they are raised. *)
Example sections_on_the_regions_page :
  map (fun i => (ElementAnalysis.element i, ElementAnalysis.selector i,
                 ElementAnalysis.section i))
      (filter Attribution.aboutElement
              (ElementAnalysis.elementIssues
                 (ElementAnalysis.analyzeElements Examples.regionsPage EmptyString)))
  = [("Image", "img", "footer");
     ("H4 Heading", "h4", "content");
     ("Link", "a", "navigation");
     ("Paragraph", "p", "general")].
Proof. reflexivity. Qed.

(** Without a doctype the document is in quirks mode and [.footer]
    matches the class [Footer]; with [<!DOCTYPE html>] it does not. *)
Example class_names_in_quirks_mode :
  map (fun mode =>
         map ElementAnalysis.section
             (ElementAnalysis.elementIssues
                (ElementAnalysis.analyzeElements (Examples.classPage mode) EmptyString)))
      [Dom.BackCompat; Dom.CSS1Compat]
  = [["header"; "header"; "footer"; "content"];
     ["header"; "header"; "general"; "content"]].
Proof. reflexivity. Qed.

(** C10.  For every input, the six section records hold, by name, the
    issues of [elementIssues] filed under their section, in the same
    order: Header those of [header], Navigation those of [navigation],
    Main Content those of [content], Sidebar those of [sidebar], Footer
    those of [footer] and General those of [general].
    [capitalizeFirstLetter] maps the five section names to the five
    named records and every other string, [general] included, to
    General; each record holds exactly the issues whose [section]
    capitalizes to its name; the six names are pairwise distinct; so
    the six lists together contain the issues of [elementIssues], each
    exactly once. *)
Theorem C10_section_lists_partition_the_issues
        (JSDOM : string -> Dom.Document) (htmlContent url : string) :
  let r := ElementAnalysis.analyzePageElements JSDOM htmlContent url in
  map (fun s => (ElementAnalysis.name s, ElementAnalysis.issues s))
      (ElementAnalysis.sectionAnalysis r)
  = [("Header", Attribution.filed "header" r);
     ("Navigation", Attribution.filed "navigation" r);
     ("Main Content", Attribution.filed "content" r);
     ("Sidebar", Attribution.filed "sidebar" r);
     ("Footer", Attribution.filed "footer" r);
     ("General", Attribution.filed "general" r)]
  /\ map ElementAnalysis.capitalizeFirstLetter
         ["header"; "navigation"; "content"; "sidebar"; "footer"; "general"]
     = ["Header"; "Navigation"; "Main Content"; "Sidebar"; "Footer"; "General"]
  /\ (forall x : string,
        ~ In x ["header"; "navigation"; "content"; "sidebar"; "footer"] ->
        ElementAnalysis.capitalizeFirstLetter x = "General")
  /\ Forall (fun s =>
               ElementAnalysis.issues s
               = filter (fun i => String.eqb
                                    (ElementAnalysis.capitalizeFirstLetter
                                       (ElementAnalysis.section i))
                                    (ElementAnalysis.name s))
                        (ElementAnalysis.elementIssues r))
            (ElementAnalysis.sectionAnalysis r)
  /\ (forall x : string,
        In (ElementAnalysis.capitalizeFirstLetter x)
           (map ElementAnalysis.name (ElementAnalysis.sectionAnalysis r)))
  /\ NoDup (map ElementAnalysis.name (ElementAnalysis.sectionAnalysis r))
  /\ Permutation (List.concat (map ElementAnalysis.issues (ElementAnalysis.sectionAnalysis r)))
                 (ElementAnalysis.elementIssues r).
Proof.
  intros r. subst r.
  unfold ElementAnalysis.analyzePageElements, Attribution.filed.
  rewrite RecordFacts.analyzeElements_sections, RecordFacts.analyzeElements_issues.
  set (news := Trace.walkNews (JSDOM htmlContent)).
  split; [|split; [|split; [|split; [|split; [|split]]]]].
  - pose proof (AttributionFacts.filed_under news
                  (AttributionFacts.known_sections (JSDOM htmlContent))) as H.
    unfold Trace.sectionNames in H.
    cbn [map ElementAnalysis.initialSections ElementAnalysis.name] in H.
    injection H as H1 H2 H3 H4 H5 H6.
    rewrite <- H1, <- H2, <- H3, <- H4, <- H5, <- H6. reflexivity.
  - reflexivity.
  - intros x Hx. unfold ElementAnalysis.capitalizeFirstLetter.
    repeat match goal with
           | |- context [if String.eqb x ?lit then _ else _] =>
               let E := fresh "E" in
               destruct (String.eqb x lit) eqn:E;
               [apply String.eqb_eq in E; exfalso; apply Hx; subst x; simpl; tauto|]
           end.
    reflexivity.
  - simpl. repeat (constructor; [reflexivity|]). constructor.
  - intros x. simpl.
    pose proof (TraceFacts.capitalize_named x) as H.
    apply existsb_exists in H. destruct H as (n & Hin & Hn).
    apply String.eqb_eq in Hn. rewrite Hn. exact Hin.
  - exact TraceFacts.sectionNames_NoDup.
  - eapply Permutation_trans.
    + apply (TraceFacts.issues_by_section Trace.sectionNames news TraceFacts.sectionNames_NoDup).
    + rewrite TraceFacts.filter_all; [apply Permutation_refl|].
      intros i. apply TraceFacts.capitalize_named.
Qed.

(** The records of the page with an issue in four of the sections. *)
Example records_of_the_regions_page :
  map (fun s => (ElementAnalysis.name s,
                 map ElementAnalysis.element (ElementAnalysis.issues s)))
      (ElementAnalysis.sectionAnalysis
         (ElementAnalysis.analyzeElements Examples.regionsPage EmptyString))
  = [("Header", ["Title"; "Meta Description"]);
     ("Navigation", ["Link"]);
     ("Main Content", ["H4 Heading"; "H1 Heading"]);
     ("Sidebar", []);
     ("Footer", ["Image"]);
     ("General", ["Paragraph"])].
Proof. reflexivity. Qed.
